(** * content-gen: claim verification, compliance review and the workflow stages

    A shallow embedding of [app/tools/factcheck.py], [app/tools/compliance.py],
    [app/tools/search.py] and the workflow nodes of [app/graph.py].

    Conventions of the embedding.
    - Python [str] is [string]; texts are taken to be ASCII, so that
      [str.lower], [\d], [\s], [\b] act on the ASCII classes only.
    - Python [float] is [Q]: the scores are sums and products of decimal
      literals and of one ratio of two lengths, compared against decimal
      literals.
    - A [dict] is an association list in insertion order (iteration order of a
      Python dict); a [set] of strings is a duplicate-free list.
    - A call that can raise returns [Exc A]: [Raised msg] carries [str(e)].
    - The outside world (search backends, the generation service, the JSON
      library, the timing advisor) is a record of functions, [Search.Backend]
      and [Services], that the modelled code takes as a parameter.
    - [print] calls are left out. *)

From Stdlib Require Import List String Ascii Bool Arith Lia QArith Qminmax Qround Lqa.
Import ListNotations.
Local Close Scope Q_scope.
#[local] Set Warnings "-register-all".
Local Open Scope string_scope.
Local Open Scope list_scope.
Local Open Scope nat_scope.

(** String concatenation, written apart from list concatenation. *)
Local Infix "@@" := String.append (at level 60, right associativity).

(** ** Python string primitives *)

Module PyStr.

Definition is_upper (c : ascii) : bool :=
  let n := nat_of_ascii c in (65 <=? n) && (n <=? 90).

Definition is_lower (c : ascii) : bool :=
  let n := nat_of_ascii c in (97 <=? n) && (n <=? 122).

Definition is_digit (c : ascii) : bool :=
  let n := nat_of_ascii c in (48 <=? n) && (n <=? 57).

(** [\w]: letters, digits and the underscore. *)
Definition is_word (c : ascii) : bool :=
  is_upper c || is_lower c || is_digit c || (nat_of_ascii c =? 95).

(** [\s] and [str.isspace]: tab, newline, vertical tab, form feed, carriage
    return, the four separators 28..31 and the space. *)
Definition is_space (c : ascii) : bool :=
  let n := nat_of_ascii c in
  ((9 <=? n) && (n <=? 13)) || ((28 <=? n) && (n <=? 31)) || (n =? 32).

Definition lower_char (c : ascii) : ascii :=
  if is_upper c then ascii_of_nat (nat_of_ascii c + 32) else c.

(** [s.lower()] *)
Fixpoint lower (s : string) : string :=
  match s with
  | EmptyString => EmptyString
  | String c r => String (lower_char c) (lower r)
  end.

Fixpoint lstrip (s : string) : string :=
  match s with
  | String c r => if is_space c then lstrip r else s
  | EmptyString => EmptyString
  end.

Fixpoint rev_onto (s acc : string) : string :=
  match s with
  | EmptyString => acc
  | String c r => rev_onto r (String c acc)
  end.

Definition rev (s : string) : string := rev_onto s EmptyString.

(** [s.strip()] *)
Definition strip (s : string) : string := rev (lstrip (rev (lstrip s))).

(** [sub in s] *)
Fixpoint contains (sub s : string) : bool :=
  if prefix sub s then true
  else match s with
       | EmptyString => false
       | String _ r => contains sub r
       end.

(** [s[:n]] for [n >= 0] *)
Fixpoint take (n : nat) (s : string) : string :=
  match n, s with
  | S k, String c r => String c (take k r)
  | _, _ => EmptyString
  end.

Fixpoint drop (n : nat) (s : string) : string :=
  match n, s with
  | S k, String _ r => drop k r
  | _, _ => s
  end.

(** [s.startswith(p)] is [prefix p s]. *)

(** [sep.join(xs)] *)
Fixpoint join (sep : string) (xs : list string) : string :=
  match xs with
  | [] => EmptyString
  | [x] => x
  | x :: r => x @@ sep @@ join sep r
  end.

(** [s.split()]: maximal runs of non-space characters. *)
Fixpoint split_ws_aux (s : string) (cur : string) : list string :=
  match s with
  | EmptyString =>
      match cur with EmptyString => [] | _ => [rev cur] end
  | String c r =>
      if is_space c
      then match cur with
           | EmptyString => split_ws_aux r EmptyString
           | _ => rev cur :: split_ws_aux r EmptyString
           end
      else split_ws_aux r (String c cur)
  end.

Definition split_ws (s : string) : list string := split_ws_aux s EmptyString.

(** [s.replace(old, new)] for a non-empty [old]. *)
Fixpoint replace_fuel (fuel : nat) (old new s : string) : string :=
  match fuel with
  | O => s
  | S f =>
      match s with
      | EmptyString => EmptyString
      | String c r =>
          if prefix old s
          then new @@ replace_fuel f old new (drop (length old) s)
          else String c (replace_fuel f old new r)
      end
  end.

Definition replace (old new s : string) : string :=
  match old with
  | EmptyString => s
  | _ => replace_fuel (length s) old new s
  end.

Definition mem (x : string) (xs : list string) : bool :=
  existsb (String.eqb x) xs.

(** [set(xs)] as a duplicate-free list, first occurrences kept. *)
Fixpoint to_set (xs : list string) : list string :=
  match xs with
  | [] => []
  | x :: r => x :: filter (fun y => negb (String.eqb x y)) (to_set r)
  end.

(** [a & b] (or [a.intersection(b)]) on sets. *)
Definition inter (a b : list string) : list string :=
  filter (fun x => mem x b) a.

(** [sorted(xs)] on strings: insertion sort by code points (stable). *)
Fixpoint insert_sorted (x : string) (xs : list string) : list string :=
  match xs with
  | [] => [x]
  | y :: r => if String.ltb x y then x :: xs else y :: insert_sorted x r
  end.

Definition sorted (xs : list string) : list string :=
  fold_right insert_sorted [] (List.rev xs).

(** The double quote character, as a one-character string. *)
Definition dquote : string := String (ascii_of_nat 34) EmptyString.

(** The line feed. *)
Definition newline : string := String (ascii_of_nat 10) EmptyString.

End PyStr.

(** ** The fragment of Python's [re] that the program uses

    A backtracking matcher with Python's priorities: the left alternative
    first, a greedy repetition tries one more iteration first, a lazy one
    tries to stop first.  One capture group is enough for every pattern of
    the program.  None of the program's patterns matches the empty string. *)

Module Re.

Inductive re : Type :=
| Eps
| Cls (p : ascii -> bool)
| Seq (a b : re)
| Alt (a b : re)
| Star (a : re)
| LazyStar (a : re)
| Group (a : re)
| WordB
| Bol.

Definition Plus (a : re) : re := Seq a (Star a).
Definition Opt (a : re) : re := Alt a Eps.
Definition Chr (c : ascii) : re := Cls (Ascii.eqb c).
(** a character under [re.IGNORECASE] *)
Definition ChrI (c : ascii) : re :=
  Cls (fun x => Ascii.eqb (PyStr.lower_char c) (PyStr.lower_char x)).

Fixpoint Lit (s : string) : re :=
  match s with
  | EmptyString => Eps
  | String c EmptyString => Chr c
  | String c r => Seq (Chr c) (Lit r)
  end.

Fixpoint LitI (s : string) : re :=
  match s with
  | EmptyString => Eps
  | String c EmptyString => ChrI c
  | String c r => Seq (ChrI c) (LitI r)
  end.

Fixpoint Alts (rs : list re) : re :=
  match rs with
  | [] => Eps
  | [r] => r
  | r :: rest => Alt r (Alts rest)
  end.

(** What a successful match leaves: the rest of the input and group 1. *)
Definition outcome : Type := (string * option string)%type.

(** The continuation receives the last character consumed (for [\b] and
    [^]), the remaining input and the capture. *)
Definition cont : Type := option ascii -> string -> option string -> option outcome.

Definition is_word_opt (c : option ascii) : bool :=
  match c with Some x => PyStr.is_word x | None => false end.

Definition head (s : string) : option ascii :=
  match s with String c _ => Some c | EmptyString => None end.

Fixpoint mt (r : re) (prev : option ascii) (s : string) (g : option string)
  (k : cont) {struct r} : option outcome :=
  match r with
  | Eps => k prev s g
  | Cls p =>
      match s with
      | String c s' => if p c then k (Some c) s' g else None
      | EmptyString => None
      end
  | Seq a b => mt a prev s g (fun p' s' g' => mt b p' s' g' k)
  | Alt a b =>
      match mt a prev s g k with
      | Some x => Some x
      | None => mt b prev s g k
      end
  | Star a =>
      (fix loop (n : nat) (prev : option ascii) (s : string) (g : option string)
         : option outcome :=
         match n with
         | O => k prev s g
         | S n' =>
             match mt a prev s g
                     (fun p' s' g' =>
                        if length s' <? length s then loop n' p' s' g' else None)
             with
             | Some x => Some x
             | None => k prev s g
             end
         end) (length s) prev s g
  | LazyStar a =>
      (fix loop (n : nat) (prev : option ascii) (s : string) (g : option string)
         : option outcome :=
         match k prev s g with
         | Some x => Some x
         | None =>
             match n with
             | O => None
             | S n' =>
                 mt a prev s g
                   (fun p' s' g' =>
                      if length s' <? length s then loop n' p' s' g' else None)
             end
         end) (length s) prev s g
  | Group a =>
      mt a prev s g
        (fun p' s' _ => k p' s' (Some (PyStr.take (length s - length s') s)))
  | WordB =>
      if xorb (is_word_opt prev) (is_word_opt (head s)) then k prev s g else None
  | Bol =>
      match prev with None => k prev s g | Some _ => None end
  end.

(** [pattern.match] at the current position. *)
Definition match_at (r : re) (prev : option ascii) (s : string) : option outcome :=
  mt r prev s None (fun _ s' g => Some (s', g)).

Fixpoint last_char (s : string) (d : option ascii) : option ascii :=
  match s with
  | EmptyString => d
  | String c r => last_char r (Some c)
  end.

(** The input cut into the characters no match covers and the matches, left
    to right, as [re.finditer] finds them. *)
Inductive piece : Type :=
| Skip (c : ascii)
| Hit (whole : string) (grp : option string).

Fixpoint pieces (fuel : nat) (r : re) (prev : option ascii) (s : string) : list piece :=
  match fuel with
  | O => []
  | S f =>
      match match_at r prev s with
      | Some (rest, g) =>
          let n := length s - length rest in
          if n =? 0
          then match s with
               | EmptyString => [Hit EmptyString g]
               | String c s' => Hit EmptyString g :: Skip c :: pieces f r (Some c) s'
               end
          else let w := PyStr.take n s in
               Hit w g :: pieces f r (last_char w prev) rest
      | None =>
          match s with
          | EmptyString => []
          | String c s' => Skip c :: pieces f r (Some c) s'
          end
      end
  end.

Definition finditer (r : re) (s : string) : list piece :=
  pieces (S (length s)) r None s.

(** [re.findall(r, s)] for a pattern without capture group. *)
Definition findall (r : re) (s : string) : list string :=
  flat_map (fun p => match p with Hit w _ => [w] | Skip _ => [] end) (finditer r s).

(** [re.search(r, s)] as a truth value. *)
Definition search (r : re) (s : string) : bool :=
  existsb (fun p => match p with Hit _ _ => true | Skip _ => false end) (finditer r s).

(** [re.sub(r, repl, s)]; [repl] receives [m.group(0)] and [m.group(1)]. *)
Definition sub (r : re) (repl : string -> option string -> string) (s : string) : string :=
  fold_right
    (fun p acc => match p with
                  | Skip c => String c acc
                  | Hit w g => repl w g @@ acc
                  end)
    EmptyString (finditer r s).

Definition grp1 (g : option string) : string :=
  match g with Some x => x | None => EmptyString end.

Definition digit : re := Cls PyStr.is_digit.
Definition space : re := Cls PyStr.is_space.
Definition lowercase : re := Cls PyStr.is_lower.
(** [.] without [re.DOTALL] *)
Definition dot : re := Cls (fun c => negb (Ascii.eqb c (ascii_of_nat 10))).

End Re.

(** ** Rationals standing for floats *)

Module Float.

Definition ltb (x y : Q) : bool := negb (Qle_bool y x).
Definition geb (x y : Q) : bool := Qle_bool y x.

Definition digit_string (n : nat) : string :=
  String (ascii_of_nat (48 + n mod 10)) EmptyString.

Fixpoint nat_string_fuel (fuel n : nat) : string :=
  match fuel with
  | O => EmptyString
  | S f => if n <? 10 then digit_string n
           else nat_string_fuel f (n / 10) @@ digit_string n
  end.

Definition nat_string (n : nat) : string := nat_string_fuel (S n) n.

(** [f"{x:.2f}"] for [0 <= x]: the nearest hundredth, a tie going to the
    even one. *)
Definition hundredths (x : Q) : Z :=
  let y := Qmult x (100 # 1) in
  let h := Qfloor y in
  let frac := Qminus y (inject_Z h) in
  match Qcompare frac (1 # 2) with
  | Lt => h
  | Gt => (h + 1)%Z
  | Eq => if Z.even h then h else (h + 1)%Z
  end.

Definition format_2f (x : Q) : string :=
  let h := Z.to_nat (hundredths x) in
  nat_string (h / 100) @@ "." @@ digit_string (h / 10) @@ digit_string h.

End Float.

(** ** [app/models.py] *)

Inductive Platform : Type := twitter | linkedin | instagram.

Definition Platform_eqb (a b : Platform) : bool :=
  match a, b with
  | twitter, twitter | linkedin, linkedin | instagram, instagram => true
  | _, _ => false
  end.

Definition Platform_str (p : Platform) : string :=
  match p with
  | twitter => "twitter"
  | linkedin => "linkedin"
  | instagram => "instagram"
  end.

(** ** Decoded JSON, and a [Dict[str, Any]] *)

Inductive Json : Type :=
| JNull
| JBool (b : bool)
| JNum (q : Q)
| JStr (s : string)
| JArr (items : list Json)
| JObj (fields : list (string * Json)).

Module PyJson.

(** [d.get(key)] on a decoded object (its keys are distinct). *)
Fixpoint obj_get (fields : list (string * Json)) (key : string) : option Json :=
  match fields with
  | [] => None
  | (k, v) :: rest => if String.eqb k key then Some v else obj_get rest key
  end.

(** [d[key] = v]: an existing key keeps its place. *)
Fixpoint obj_set (fields : list (string * Json)) (key : string) (v : Json)
  : list (string * Json) :=
  match fields with
  | [] => [(key, v)]
  | (k, v') :: rest =>
      if String.eqb k key then (key, v) :: rest else (k, v') :: obj_set rest key v
  end.

End PyJson.

Module KeyPoint.
Record t : Type := mk { text : string; importance : Q }.
End KeyPoint.

Module PlatformPost.
Record t : Type := mk {
  platform : Platform;
  primary_text : string;
  thread : option (list string);
  hashtags : list string;
  mentions : list string;
  notes : option string;
  metadata : option (list (string * Json))
}.
End PlatformPost.

(** [Literal["low", "medium", "high"]] *)
Inductive ClaimSeverity : Type := low | medium | high.

Module Claim.
Record t : Type := mk {
  text : string;
  severity : ClaimSeverity;
  sources : list string;
  confidence : Q
}.
End Claim.

(** [Literal["minor", "major", "critical"]] *)
Inductive IssueSeverity : Type := minor | major | critical.

Definition IssueSeverity_eqb (a b : IssueSeverity) : bool :=
  match a, b with
  | minor, minor | major, major | critical, critical => true
  | _, _ => false
  end.

Module ComplianceIssue.
Record t : Type := mk {
  rule_id : string;
  severity : IssueSeverity;
  message : string;
  suggestion : string
}.
End ComplianceIssue.

(** [Literal["pass", "flag", "block"]] *)
Inductive Status : Type := pass | flag | block.

Module PostReview.
Record t : Type := mk {
  status : Status;
  issues : list ComplianceIssue.t;
  claims : list Claim.t
}.
End PostReview.

Module PostingTime.
Record t : Type := mk {
  platform : Platform;
  local_datetime_iso : string;
  rationale : string
}.
End PostingTime.

(** [app/config.py]: the settings the modelled code reads. *)
Module Config.
Record t : Type := mk {
  FACTCHECK_PROVIDER : string;
  WIKIPEDIA_LANG : string;
  COMPLIANCE_MODE : string
}.
End Config.

(** ** [app/tools/compliance.py] *)

Module Compliance.

(** The three word sets; a Python set has no fixed iteration order, the
    order written in the source is used. *)
Definition PROFANITY_WORDS : list string :=
  ["damn"; "hell"; "crap"; "stupid"; "idiot"; "hate"].

Definition ABSOLUTE_PHRASES : list string :=
  ["guarantee"; "guaranteed"; "100%"; "always works"; "never fails";
   "instant results"; "immediate"].

Definition STRICT_RESTRICTED : list string :=
  ["cure"; "cures"; "diagnose"; "diagnosis"; "treatment"; "financial advice";
   "returns"; "roi"; "profit guaranteed"; "investment"].

Definition _check_profanity (text : string) : list ComplianceIssue.t :=
  let text_lower := PyStr.lower text in
  flat_map
    (fun word =>
       if PyStr.contains word text_lower
       then [ComplianceIssue.mk "profanity_check" minor
               ("Potential profanity detected: '" @@ word @@ "'")
               ("Consider replacing '" @@ word @@ "' with a more professional alternative")]
       else [])
    PROFANITY_WORDS.

Definition _check_absolute_claims (text : string) : list ComplianceIssue.t :=
  let text_lower := PyStr.lower text in
  flat_map
    (fun phrase =>
       if PyStr.contains phrase text_lower
       then [ComplianceIssue.mk "absolute_claims" major
               ("Absolute claim detected: '" @@ phrase @@ "'")
               ("Soften the claim by replacing '" @@ phrase @@
                "' with more qualified language like 'may help' or 'typically'")]
       else [])
    ABSOLUTE_PHRASES.

(** The issues one claim contributes: the body of the loop of
    [_check_claim_confidence]. *)
Definition claim_confidence_issues (claim : Claim.t) : list ComplianceIssue.t :=
  let confidence := Claim.confidence claim in
  let severity := Claim.severity claim in
  let shown := "'" @@ Claim.text claim @@ "' (confidence: "
               @@ Float.format_2f confidence @@ ")" in
  match severity with
  | high =>
      if Float.ltb confidence (3 # 10) then
        [ComplianceIssue.mk "low_confidence_claim" major
           ("Low confidence claim: " @@ shown)
           "Add a reliable source or soften the claim with qualifying language"]
      else if Float.ltb confidence (5 # 10)
              && (List.length (Claim.sources claim) =? 0) then
        [ComplianceIssue.mk "unsourced_claim" minor
           ("Medium confidence claim without sources: " @@ shown)
           "Consider adding supporting sources to strengthen the claim"]
      else if Float.ltb confidence (6 # 10)
              && negb (List.length (Claim.sources claim) =? 0)
              && (2 <=? List.length (Claim.sources claim)) then
        [ComplianceIssue.mk "attribution_note" minor
           ("Attribution available: " @@ shown)
           "Claim has supporting sources with partial verification"]
      else []
  | medium =>
      if Float.ltb confidence (25 # 100) then
        [ComplianceIssue.mk "low_confidence_claim" minor
           ("Low confidence claim: " @@ shown)
           "Consider adding supporting sources"]
      else []
  | low => []
  end.

Definition _check_claim_confidence (claims : list Claim.t) : list ComplianceIssue.t :=
  flat_map claim_confidence_issues claims.

Definition _check_strict_mode (text : string) : list ComplianceIssue.t :=
  let text_lower := PyStr.lower text in
  flat_map
    (fun word =>
       if PyStr.contains word text_lower
       then [ComplianceIssue.mk "strict_mode_restricted" critical
               ("Restricted term in strict mode: '" @@ word @@ "'")
               ("Remove or replace '" @@ word @@ "' to avoid potential regulatory issues")]
       else [])
    STRICT_RESTRICTED.

Definition has_severity (s : IssueSeverity) (issues : list ComplianceIssue.t) : bool :=
  existsb (fun issue => IssueSeverity_eqb (ComplianceIssue.severity issue) s) issues.

Definition _determine_status (issues : list ComplianceIssue.t) : Status :=
  match issues with
  | [] => pass
  | _ =>
      if has_severity critical issues then block
      else if has_severity major issues then flag
      else pass
  end.

Definition review_post (config : Config.t) (platform : Platform) (text : string)
  (claims : list Claim.t) : PostReview.t :=
  let issues :=
    _check_profanity text ++ _check_absolute_claims text
    ++ _check_claim_confidence claims in
  let issues :=
    if String.eqb (Config.COMPLIANCE_MODE config) "strict"
    then issues ++ _check_strict_mode text
    else issues in
  PostReview.mk (_determine_status issues) issues claims.

End Compliance.

(** ** Calls that can raise *)

Inductive Exc (A : Type) : Type :=
| Ok (a : A)
| Raised (msg : string).
Arguments Ok {A} a.
Arguments Raised {A} msg.

(** ** [app/tools/search.py] *)

Module Search.

(** The two search libraries.  [DDGS_new] is the constructor [DDGS()];
    a result of [ddgs_text] is the pair of [result.get("title", "")] and
    [result.get("href", "")]; [wikipedia_page] gives [(page.title, page.url)]. *)
Record Backend : Type := {
  DDGS_new : Exc unit;
  ddgs_text : string -> nat -> Exc (list (string * string));
  wikipedia_set_lang : string -> Exc unit;
  wikipedia_search : string -> nat -> Exc (list string);
  wikipedia_page : string -> Exc (string * string)
}.

Definition SearchResult : Type := (string * string)%type.

Definition result_eqb (a b : SearchResult) : bool :=
  String.eqb (fst a) (fst b) && String.eqb (snd a) (snd b).

(** [\d+(?:\.\d+)?%?] *)
Definition number_pct_re : Re.re :=
  Re.Seq (Re.Plus Re.digit)
    (Re.Seq (Re.Opt (Re.Seq (Re.Chr ".") (Re.Plus Re.digit))) (Re.Opt (Re.Chr "%"))).

(** [list(dict.fromkeys(xs))] *)
Definition dedup_keep_order (xs : list string) : list string := PyStr.to_set xs.

Section WithBackend.
Variable config : Config.t.
Variable backend : Backend.

(** One turn of the loop over the query variations: a variation whose
    request raises is skipped. *)
Definition add_results (max_results : nat) (results : list SearchResult)
  (search_query : string) : list SearchResult :=
  match ddgs_text backend search_query max_results with
  | Ok search_results =>
      fold_left
        (fun results r =>
           let title := fst r in
           let url := snd r in
           if negb (String.eqb url EmptyString) && negb (existsb (result_eqb (title, url)) results)
           then results ++ [(title, url)]
           else results)
        search_results results
  | Raised _ => results
  end.

Definition search_duckduckgo (query : string) (max_results : nat) : list SearchResult :=
  match DDGS_new backend with
  | Raised _ => []
  | Ok _ =>
      let numbers := Re.findall number_pct_re query in
      let keywords :=
        filter
          (fun word =>
             (3 <? length word)
             && negb (PyStr.mem (PyStr.lower word) ["according"; "study"; "report"; "research"]))
          (PyStr.split_ws query) in
      let search_queries := [query; PyStr.join " " (keywords ++ numbers)] in
      let search_queries :=
        match numbers, keywords with
        | _ :: _, _ :: _ =>
            search_queries
            ++ [PyStr.dquote @@ PyStr.join " " numbers @@ PyStr.dquote @@ " "
                @@ PyStr.join " " (firstn 3 keywords)]
        | _, _ => search_queries
        end in
      let search_queries := dedup_keep_order search_queries in
      let results := fold_left (add_results max_results) (firstn 2 search_queries) [] in
      firstn (max_results * 2) results
  end.

Definition search_wikipedia (query : string) (max_results : nat) : list SearchResult :=
  let lang := Config.WIKIPEDIA_LANG config in
  match wikipedia_set_lang backend lang with
  | Raised _ => []
  | Ok _ =>
      match wikipedia_search backend query max_results with
      | Raised _ => []
      | Ok search_results =>
          fold_left
            (fun results title =>
               match wikipedia_page backend title with
               | Ok page => results ++ [page]
               | Raised _ => results
               end)
            (firstn max_results search_results) []
      end
  end.

End WithBackend.
End Search.

(** ** [app/tools/factcheck.py] *)

Module FactCheck.

Import Re.

(** [\d+(?:\.\d+)?] *)
Definition number_re : re :=
  Seq (Plus digit) (Opt (Seq (Chr ".") (Plus digit))).

(** [\d+(?:\.\d+)?%] *)
Definition percentage_re : re :=
  Seq (Plus digit) (Seq (Opt (Seq (Chr ".") (Plus digit))) (Chr "%")).

(** [\b[a-z]{3,}\b] *)
Definition word3_re : re :=
  Seq WordB (Seq lowercase (Seq lowercase (Seq lowercase (Seq (Star lowercase) WordB)))).

(** [booking\.?com] *)
Definition booking_re : re := Seq (Lit "booking") (Seq (Opt (Chr ".")) (Lit "com")).

(** [\b(?:deloitte|lancet|fda|gartner|buffer|booking\.?com|european environment agency|eea|who|cdc|mayo clinic)\b] *)
Definition entity_re : re :=
  Seq WordB
    (Seq (Alts [Lit "deloitte"; Lit "lancet"; Lit "fda"; Lit "gartner"; Lit "buffer";
                booking_re; Lit "european environment agency"; Lit "eea"; Lit "who";
                Lit "cdc"; Lit "mayo clinic"])
         WordB).

(** The same list without [mayo clinic], as [_filter_relevant_results] has it. *)
Definition entity_short_re : re :=
  Seq WordB
    (Seq (Alts [Lit "deloitte"; Lit "lancet"; Lit "fda"; Lit "gartner"; Lit "buffer";
                booking_re; Lit "european environment agency"; Lit "eea"; Lit "who";
                Lit "cdc"])
         WordB).

(** [\b(?:hospitals?|healthcare|ai|artificial intelligence|survey|study|research|pilot|program)\b] *)
Definition topic_re : re :=
  Seq WordB
    (Seq (Alts [Seq (Lit "hospital") (Opt (Chr "s")); Lit "healthcare"; Lit "ai";
                Lit "artificial intelligence"; Lit "survey"; Lit "study";
                Lit "research"; Lit "pilot"; Lit "program"])
         WordB).

Definition _normalize_claim_text (text : string) : string :=
  let normalized := sub (Plus space) (fun _ _ => " ") (PyStr.strip (PyStr.lower text)) in
  (* (\d+)\s*percent  ->  \1% *)
  let normalized :=
    sub (Seq (Group (Plus digit)) (Seq (Star space) (Lit "percent")))
        (fun _ g => grp1 g @@ "%") normalized in
  (* booking\.com\'?s?  ->  booking.com *)
  let normalized :=
    sub (Seq (Lit "booking.com") (Seq (Opt (Chr "'")) (Opt (Chr "s"))))
        (fun _ _ => "booking.com") normalized in
  normalized.

(** [extract_components], local to [_are_claims_similar]. *)
Definition extract_components (text : string) : list string * list string :=
  let numbers := PyStr.to_set (findall Search.number_pct_re text) in
  let entities := PyStr.to_set (findall entity_re (PyStr.lower text)) in
  (numbers, entities).

Definition nonempty {A : Type} (xs : list A) : bool :=
  match xs with [] => false | _ :: _ => true end.

(** The truth value of [(numbers1 & numbers2) and (entities1 & entities2)]. *)
Definition _are_claims_similar (text1 text2 : string) : bool :=
  let '(numbers1, entities1) := extract_components text1 in
  let '(numbers2, entities2) := extract_components text2 in
  nonempty (PyStr.inter numbers1 numbers2) && nonempty (PyStr.inter entities1 entities2).

Definition claim_signature (claim : Claim.t) : string :=
  let normalized_text := _normalize_claim_text (Claim.text claim) in
  let numbers := findall Search.number_pct_re normalized_text in
  let entities := findall entity_re (PyStr.lower normalized_text) in
  PyStr.join "-" (PyStr.sorted numbers) @@ "_" @@ PyStr.join "-" (PyStr.sorted entities).

(** The loop of [_deduplicate_claims], with its two accumulators. *)
Fixpoint dedup_loop (claims unique_claims : list Claim.t) (seen_signatures : list string)
  : list Claim.t :=
  match claims with
  | [] => unique_claims
  | claim :: rest =>
      let signature := claim_signature claim in
      let is_duplicate :=
        existsb
          (fun existing_claim =>
             _are_claims_similar (Claim.text claim) (Claim.text existing_claim))
          unique_claims in
      if negb (PyStr.mem signature seen_signatures) && negb is_duplicate
      then dedup_loop rest (unique_claims ++ [claim]) (signature :: seen_signatures)
      else dedup_loop rest unique_claims seen_signatures
  end.

Definition _deduplicate_claims (claims : list Claim.t) : list Claim.t :=
  dedup_loop claims [] [].

(** The four rewrites of [_enhance_search_query], in the order of the dict. *)
Definition _enhance_search_query (claim_text : string) : string :=
  let q := claim_text in
  (* (\d+)% *)
  let q := sub (Seq (Group (Plus digit)) (Chr "%"))
               (fun _ g => PyStr.dquote @@ grp1 g @@ " percent" @@ PyStr.dquote) q in
  (* Gartner.*?(\d+) *)
  let q := sub (Seq (Lit "Gartner") (Seq (LazyStar dot) (Group (Plus digit))))
               (fun _ g => "Gartner report " @@ grp1 g) q in
  (* Buffer.*?(\d+) *)
  let q := sub (Seq (Lit "Buffer") (Seq (LazyStar dot) (Group (Plus digit))))
               (fun _ g => "Buffer survey " @@ grp1 g) q in
  (* \$(\d+(?:,\d+)*(?:\.\d+)?) *)
  let q := sub (Seq (Chr "$")
                  (Group (Seq (Plus digit)
                            (Seq (Star (Seq (Chr ",") (Plus digit)))
                                 (Opt (Seq (Chr ".") (Plus digit)))))))
               (fun _ g => PyStr.dquote @@ "$" @@ grp1 g @@ PyStr.dquote @@ " savings") q in
  q.

Definition quality_patterns : list string :=
  [".gov"; ".edu"; ".org";
   "reuters."; "bloomberg."; "wsj."; "bbc."; "guardian."; "nytimes.";
   "harvard."; "stanford."; "mit."; "oxford."; "cambridge.";
   "mckinsey."; "deloitte."; "gartner."; "statista."; "forrester.";
   "fortune."; "forbes."; "economist."; "ft.com"; "npr.org";
   "who.int"; "oecd."; "europa.eu"; "worldbank."; "imf."].

(** [len(a) / max(len(b), 1)] *)
Definition ratio (a b : nat) : Q :=
  Qmake (Z.of_nat a) (Pos.of_nat (Nat.max b 1)).

Definition _filter_search_results (results : list Search.SearchResult) (claim_text : string)
  : list Search.SearchResult :=
  let claim_lower := PyStr.lower claim_text in
  let claim_words := PyStr.to_set (findall word3_re claim_lower) in
  let claim_numbers := PyStr.to_set (findall Search.number_pct_re claim_text) in
  filter
    (fun r =>
       let title := fst r in
       let url := snd r in
       let title_lower := PyStr.lower title in
       let url_lower := PyStr.lower url in
       (* every pattern is an escaped literal *)
       let has_quality_domain :=
         existsb (fun pattern => search (Lit pattern) url_lower) quality_patterns in
       let title_words := PyStr.to_set (findall word3_re title_lower) in
       let title_numbers := PyStr.to_set (findall Search.number_pct_re title) in
       let word_overlap :=
         ratio (List.length (PyStr.inter claim_words title_words)) (List.length claim_words) in
       let number_match := 0 <? List.length (PyStr.inter claim_numbers title_numbers) in
       let relevance_score :=
         Qplus word_overlap (if number_match then (3 # 10)%Q else (0 # 1)%Q) in
       has_quality_domain || Float.ltb (25 # 100)%Q relevance_score || number_match)
    results.

Definition _filter_relevant_results (results : list Search.SearchResult) (claim_text : string)
  : list Search.SearchResult :=
  let claim_numbers := findall number_re claim_text in
  let claim_entities := findall entity_short_re claim_text in
  let claim_keywords := findall topic_re claim_text in
  filter
    (fun r =>
       let title_lower := PyStr.lower (fst r) in
       let relevance_score :=
         fold_left (fun s num => if PyStr.contains num title_lower then s + 2 else s)
           claim_numbers 0 in
       let relevance_score :=
         fold_left (fun s entity =>
                      if PyStr.contains (PyStr.lower entity) title_lower then s + 3 else s)
           claim_entities relevance_score in
       let relevance_score :=
         fold_left (fun s keyword => if PyStr.contains keyword title_lower then s + 1 else s)
           claim_keywords relevance_score in
       2 <=? relevance_score)
    results.

Definition tier1_indicators : list string :=
  [".gov"; ".edu"; ".org"; "nature."; "lancet."; "nejm."; "who.int"; "europa.eu";
   "mckinsey."; "deloitte."; "gartner."; "statista."; "oecd."; "imf."; "worldbank.";
   "wttc.org"; "unwto.org"; "iata.org"; "fda.gov"; "cdc.gov"; "eea.europa.eu"].

Definition tier2_indicators : list string :=
  ["reuters."; "bloomberg."; "wsj."; "ft.com"; "economist."; "harvard."; "stanford.";
   "mit.edu"; "pewresearch."; "weforum."; "booking.com"; "forbes."; "fortune.";
   "bbc.com"; "npr.org"; "guardian."; "nytimes."; "washingtonpost."].

(** The first loop of [_calculate_confidence]: what one result does to
    [content_match_score]. *)
Definition content_step (claim_keywords claim_percentages claim_numbers : list string)
  (content_match_score : Q) (r : Search.SearchResult) : Q :=
  let title_lower := PyStr.lower (fst r) in
  let title_keywords := PyStr.to_set (findall word3_re title_lower) in
  let keyword_overlap :=
    ratio (List.length (PyStr.inter claim_keywords title_keywords))
          (List.length claim_keywords) in
  let score := Qmax content_match_score (Qmult keyword_overlap (4 # 10)%Q) in
  let score :=
    fold_left
      (fun score pct =>
         if PyStr.contains pct title_lower
            || PyStr.contains (PyStr.replace "%" " percent" pct) title_lower
         then Qmax score (5 # 10)%Q else score)
      claim_percentages score in
  let score :=
    fold_left
      (fun score num =>
         if PyStr.contains (" " @@ num @@ " ") (" " @@ title_lower @@ " ")
            || PyStr.contains (num @@ "%") title_lower
         then Qmax score (4 # 10)%Q else score)
      claim_numbers score in
  score.

(** The second loop: the three tier scores after one more result. *)
Definition tier_step (tiers : Q * Q * Q) (r : Search.SearchResult) : Q * Q * Q :=
  let '(tier1_score, tier2_score, tier3_score) := tiers in
  let url_lower := PyStr.lower (snd r) in
  if existsb (fun indicator => PyStr.contains indicator url_lower) tier1_indicators
  then (Qmax tier1_score (4 # 10)%Q, tier2_score, tier3_score)
  else if existsb (fun indicator => PyStr.contains indicator url_lower) tier2_indicators
  then (tier1_score, Qmax tier2_score (25 # 100)%Q, tier3_score)
  else (tier1_score, tier2_score, Qmax tier3_score (1 # 10)%Q).

Definition _calculate_confidence (results : list Search.SearchResult) (claim : Claim.t) : Q :=
  match results with
  | [] => (1 # 10)%Q
  | _ =>
      let claim_text := PyStr.lower (Claim.text claim) in
      let relevant_results := _filter_relevant_results results claim_text in
      match relevant_results with
      | [] => (2 # 10)%Q
      | _ =>
          let base_confidence := (5 # 10)%Q in
          let claim_numbers := findall number_re claim_text in
          let claim_percentages := findall percentage_re claim_text in
          let claim_keywords := PyStr.to_set (findall word3_re claim_text) in
          let content_match_score :=
            fold_left (content_step claim_keywords claim_percentages claim_numbers)
              relevant_results (0 # 1)%Q in
          let base_confidence := Qplus base_confidence content_match_score in
          let '(tier1_score, tier2_score, tier3_score) :=
            fold_left tier_step relevant_results ((0 # 1)%Q, (0 # 1)%Q, (0 # 1)%Q) in
          let source_quality_score := Qplus (Qplus tier1_score tier2_score) tier3_score in
          let consistency_score :=
            if 3 <=? List.length relevant_results then (2 # 10)%Q
            else if 2 <=? List.length relevant_results then (1 # 10)%Q
            else (0 # 1)%Q in
          let final_confidence :=
            Qplus (Qplus base_confidence source_quality_score) consistency_score in
          Qmin final_confidence (95 # 100)%Q
      end
  end.

Definition _standardize_claim_language (claim_text : string) (confidence : Q) : string :=
  if Float.ltb confidence (4 # 10)%Q then
    if negb (existsb (fun word => PyStr.contains word (PyStr.lower claim_text))
               ["reportedly"; "suggests"; "indicates"; "appears"])
    then
      (* \d+% *)
      if search (Seq (Plus digit) (Chr "%")) claim_text
      then (* (\d+% of [^,]+)  ->  reportedly \1 *)
        sub (Group (Seq (Plus digit)
                      (Seq (Lit "% of ")
                           (Plus (Cls (fun c => negb (Ascii.eqb c ",")))))))
            (fun _ g => "reportedly " @@ grp1 g) claim_text
      else if negb (PyStr.contains "according to" (PyStr.lower claim_text))
      then "According to reports, " @@ PyStr.lower claim_text
      else claim_text
    else claim_text
  else if Float.geb confidence (7 # 10)%Q then
    (* ^reportedly  with re.IGNORECASE *)
    sub (Seq Bol (LitI "reportedly ")) (fun _ _ => EmptyString) claim_text
  else claim_text.

Section WithBackend.
Variable config : Config.t.
Variable backend : Search.Backend.

(** The choice of the provider in [_verify_single_claim]: the raw
    [search_results] for a query. *)
Definition provider_search (search_query : string) : list Search.SearchResult :=
  if String.eqb (Config.FACTCHECK_PROVIDER config) "wikipedia"
  then Search.search_wikipedia config backend search_query 5
  else if String.eqb (Config.FACTCHECK_PROVIDER config) "serpapi"
  then Search.search_duckduckgo backend search_query 5
  else Search.search_duckduckgo backend search_query 5.

Definition _verify_single_claim (claim : Claim.t) : Claim.t :=
  let search_query := _enhance_search_query (Claim.text claim) in
  let search_results := provider_search search_query in
  let filtered_results := _filter_search_results search_results (Claim.text claim) in
  let confidence := _calculate_confidence filtered_results claim in
  let sources := map snd (firstn 3 filtered_results) in
  let standardized_text := _standardize_claim_language (Claim.text claim) confidence in
  Claim.mk standardized_text (Claim.severity claim) sources confidence.

Definition verify_claims (claims : list Claim.t) : list Claim.t :=
  let unique_claims := _deduplicate_claims claims in
  map _verify_single_claim unique_claims.

End WithBackend.
End FactCheck.

(** ** The services the workflow calls *)

(** What the workflow asks of the outside.  The prompt templates of
    [app/prompts.py] are taken as formatting functions: their wording is
    data, only what is substituted into them is modelled.
    [json_loads] is [None] for a [JSONDecodeError]; [py_str] is the builtin
    [str] on a decoded value that is not a string and [float_str] the one
    on a float; [type_error_text] and
    [validation_error_text] are the messages of the [TypeError] /
    [AttributeError] and of pydantic's [ValidationError] for a rejected
    value; [analyze_content_embeddings] gives the dictionary of the
    analysis. *)
Record Services : Type := {
  chat_completion : string -> Exc string;
  llm_invoke : string -> Exc string;
  json_loads : string -> option Json;
  py_str : Json -> string;
  float_str : Q -> string;
  type_error_text : Json -> string;
  validation_error_text : Json -> string;
  suggest_times : list Platform -> string -> string -> Exc (list PostingTime.t);
  analyze_content_embeddings :
    string -> list KeyPoint.t -> list (string * PlatformPost.t)
    -> Exc (list (string * Json));
  KEYPOINTS_PROMPT_format : string -> string;
  PLATFORM_PROMPT_format : Platform -> string -> option string -> string;
  CLAIM_EXTRACT_PROMPT_format : string -> string -> string;
  EDIT_SUGGESTIONS_PROMPT_format : string -> string -> string
}.

(** ** A [dict] keyed by platform, in insertion order *)

Module Dict.

Definition t (V : Type) : Type := list (Platform * V).

Fixpoint get {V : Type} (d : t V) (k : Platform) : option V :=
  match d with
  | [] => None
  | (k', v) :: rest => if Platform_eqb k' k then Some v else get rest k
  end.

(** [d[k] = v]: an existing key keeps its place. *)
Fixpoint set {V : Type} (d : t V) (k : Platform) (v : V) : t V :=
  match d with
  | [] => [(k, v)]
  | (k', v') :: rest =>
      if Platform_eqb k' k then (k, v) :: rest else (k', v') :: set rest k v
  end.

Definition keys {V : Type} (d : t V) : list Platform := map fst d.

End Dict.

(** ** [app/graph.py] *)

Module Graph.

(** The workflow state.  [embedding_analysis] is [None] while the
    dictionary has no such entry, as in the initial state of the API. *)
Record State : Type := mkState {
  text : string;
  topic_hint : option string;
  key_points : list KeyPoint.t;
  drafts : Dict.t PlatformPost.t;
  claims : Dict.t (list Claim.t);
  reviews : Dict.t PostReview.t;
  timings : list PostingTime.t;
  errors : list string;
  embedding_analysis : option (list (string * Json))
}.

Definition set_key_points (st : State) (v : list KeyPoint.t) : State :=
  mkState (text st) (topic_hint st) v (drafts st) (claims st) (reviews st)
          (timings st) (errors st) (embedding_analysis st).
Definition set_drafts (st : State) (v : Dict.t PlatformPost.t) : State :=
  mkState (text st) (topic_hint st) (key_points st) v (claims st) (reviews st)
          (timings st) (errors st) (embedding_analysis st).
Definition set_claims (st : State) (v : Dict.t (list Claim.t)) : State :=
  mkState (text st) (topic_hint st) (key_points st) (drafts st) v (reviews st)
          (timings st) (errors st) (embedding_analysis st).
Definition set_reviews (st : State) (v : Dict.t PostReview.t) : State :=
  mkState (text st) (topic_hint st) (key_points st) (drafts st) (claims st) v
          (timings st) (errors st) (embedding_analysis st).
Definition set_timings (st : State) (v : list PostingTime.t) : State :=
  mkState (text st) (topic_hint st) (key_points st) (drafts st) (claims st)
          (reviews st) v (errors st) (embedding_analysis st).
(** [state["errors"].append(msg)] *)
Definition add_error (st : State) (msg : string) : State :=
  mkState (text st) (topic_hint st) (key_points st) (drafts st) (claims st)
          (reviews st) (timings st) (errors st ++ [msg]) (embedding_analysis st).
Definition set_embedding_analysis (st : State) (v : list (string * Json)) : State :=
  mkState (text st) (topic_hint st) (key_points st) (drafts st) (claims st)
          (reviews st) (timings st) (errors st) (Some v).

(** The calls to the compliance engine are recorded next to the state. *)
Inductive Event : Type :=
| ReviewCall (platform : Platform) (post_text : string).

Definition Traced (A : Type) : Type := (A * list Event)%type.

Definition ret {A : Type} (a : A) : Traced A := (a, []).

Definition bind {A B : Type} (m : Traced A) (f : A -> Traced B) : Traced B :=
  let '(a, t1) := m in
  let '(b, t2) := f a in
  (b, t1 ++ t2).

(** [for x in xs: st = body(st, x)] *)
Fixpoint for_each {A S : Type} (xs : list A) (body : S -> A -> Traced S) (st : S)
  : Traced S :=
  match xs with
  | [] => ret st
  | x :: rest => bind (body st x) (for_each rest body)
  end.

(** How often the compliance engine was called for a platform. *)
Definition review_calls (p : Platform) (trace : list Event) : nat :=
  List.length
    (filter (fun e => match e with ReviewCall q _ => Platform_eqb q p end) trace).

(** [str.title()]: the first letter of every run of letters in upper case,
    the others in lower case. *)
Definition upper_char (c : ascii) : ascii :=
  if PyStr.is_lower c then ascii_of_nat (nat_of_ascii c - 32) else c.

Fixpoint title_aux (s : string) (in_word : bool) : string :=
  match s with
  | EmptyString => EmptyString
  | String c r =>
      if PyStr.is_lower c || PyStr.is_upper c
      then String (if in_word then PyStr.lower_char c else upper_char c) (title_aux r true)
      else String c (title_aux r false)
  end.

Definition title (s : string) : string := title_aux s false.

Definition verified_handles : list (string * string) :=
  [("@deloitte", "Deloitte"); ("@fda", "FDA"); ("@who", "WHO"); ("@cdc", "CDC");
   ("@gartner_inc", "Gartner"); ("@bookingcom", "Booking.com"); ("@buffer", "Buffer");
   ("@statista", "Statista")].

Definition _validate_brand_mentions (mentions : list string) : list string :=
  map
    (fun mention =>
       let mention_lower := PyStr.strip (PyStr.lower mention) in
       if existsb (fun h => String.eqb (fst h) mention_lower) verified_handles
       then mention
       else if prefix "@" mention
       then title (PyStr.drop 1 mention)
       else mention)
    mentions.

(** [\{.*\}|\[.*\]] with [re.DOTALL] *)
Definition json_block_re : Re.re :=
  let any := Re.Cls (fun _ => true) in
  Re.Alt (Re.Seq (Re.Chr "{") (Re.Seq (Re.Star any) (Re.Chr "}")))
         (Re.Seq (Re.Chr "[") (Re.Seq (Re.Star any) (Re.Chr "]"))).

Section WithServices.
Variable config : Config.t.
Variable backend : Search.Backend.
Variable services : Services.

(** [None], the result for a text that does not parse, is [JNull]. *)
Definition _parse_json (text : string) : Json :=
  let matches := Re.findall json_block_re text in
  let source :=
    match List.rev matches with
    | m :: _ => m
    | [] => PyStr.strip text
    end in
  match json_loads services source with
  | Some v => v
  | None => JNull
  end.

(** One item of the parsed key-point list. *)
Definition key_point_of (item : Json) : list KeyPoint.t :=
  match item with
  | JObj fields =>
      match PyJson.obj_get fields "text" with
      | Some t =>
          let importance :=
            match PyJson.obj_get fields "importance" with
            | Some (JNum q) => q
            | Some (JBool b) => if b then (1 # 1)%Q else (0 # 1)%Q
            | _ => (5 # 10)%Q
            end in
          let importance := Qmax (0 # 1) (Qmin (1 # 1) importance) in
          let shown := match t with JStr s => s | _ => py_str services t end in
          [KeyPoint.mk (PyStr.strip shown) importance]
      | None => []
      end
  | _ => []
  end.

Definition extract_key_points (state : State) : State :=
  let blog_text := text state in
  if String.eqb blog_text EmptyString then
    set_key_points (add_error state "No text provided for key point extraction") []
  else
    match chat_completion services
            (KEYPOINTS_PROMPT_format services (PyStr.strip blog_text)) with
    | Raised e =>
        set_key_points (add_error state ("Key points extraction failed: " @@ e)) []
    | Ok content =>
        match _parse_json content with
        | JArr ((_ :: _) as parsed) =>
            match flat_map key_point_of parsed with
            | [] =>
                set_key_points
                  (add_error state "No valid key points found in parsed response") []
            | kps => set_key_points state kps
            end
        | _ =>
            set_key_points
              (add_error state
                 ("Failed to parse key points from response: "
                  @@ PyStr.take 100 content @@ "..."))
              []
        end
    end.

(** [for mention in raw_mentions]: what iterating the decoded value yields,
    up to the first element that has no [lower]. *)
Definition mentions_of (raw : option Json) : Exc (list string) :=
  match raw with
  | None => Ok []
  | Some (JArr items) =>
      fold_right
        (fun item acc =>
           match item, acc with
           | JStr s, Ok rest => Ok (s :: rest)
           | JStr _, Raised e => Raised e
           | other, _ => Raised (type_error_text services other)
           end)
        (Ok []) items
  | Some (JStr s) => Ok (map (fun c => String c EmptyString) (list_ascii_of_string s))
  | Some (JObj fields) => Ok (map fst fields)
  | Some other => Raised (type_error_text services other)
  end.

(** A decoded value as [List[str]]. *)
Definition str_list_of (v : Json) : option (list string) :=
  match v with
  | JArr items =>
      fold_right
        (fun item acc =>
           match item, acc with
           | JStr s, Some rest => Some (s :: rest)
           | _, _ => None
           end)
        (Some []) items
  | _ => None
  end.

(** [validate_character_limits] of [PlatformPost]. *)
Definition within_character_limits (platform : Platform) (v : string) : bool :=
  match platform with
  | twitter => negb (280 <? length v)
  | linkedin => negb ((length v <? 100) || (1300 <? length v))
  | instagram => negb ((length v <? 125) || (2200 <? length v))
  end.

(** [PlatformPost(platform=..., primary_text=parsed.get("primary_text", ""),
    thread=parsed.get("thread"), hashtags=parsed.get("hashtags", []),
    mentions=validated_mentions, notes=None, metadata=None)] *)
Definition make_post (platform : Platform) (fields : list (string * Json))
  (validated_mentions : list string) : Exc PlatformPost.t :=
  let invalid := Raised (validation_error_text services (JObj fields)) in
  let primary :=
    match PyJson.obj_get fields "primary_text" with
    | None => Some EmptyString
    | Some (JStr s) => Some s
    | Some _ => None
    end in
  let thread :=
    match PyJson.obj_get fields "thread" with
    | None | Some JNull => Some None
    | Some v => match str_list_of v with Some l => Some (Some l) | None => None end
    end in
  let hashtags :=
    match PyJson.obj_get fields "hashtags" with
    | None => Some []
    | Some v => str_list_of v
    end in
  match primary, thread, hashtags with
  | Some primary_text, Some thread, Some hashtags =>
      if within_character_limits platform primary_text
      then Ok (PlatformPost.mk platform primary_text thread hashtags validated_mentions
                 None None)
      else invalid
  | _, _, _ => invalid
  end.

(** [content_source]: the key points, or the opening of the blog text. *)
Definition content_source (state : State) : string :=
  match key_points state with
  | _ :: _ =>
      "Key insights:" @@ PyStr.newline
      @@ PyStr.join PyStr.newline
           (map (fun kp => "- " @@ KeyPoint.text kp @@ " (importance: "
                           @@ float_str services (KeyPoint.importance kp) @@ ")")
                (key_points state))
  | [] =>
      "Original blog content (extract key insights):" @@ PyStr.newline
      @@ PyStr.take 1000 (text state)
  end.

(** The body of the loop of [generate_posts], for one platform. *)
Definition generate_posts_step (content_source : string) (state : State)
  (platform : Platform) : State :=
  let failed e :=
    add_error state (Platform_str platform @@ " post generation failed: " @@ e) in
  let prompt :=
    PLATFORM_PROMPT_format services platform content_source (topic_hint state) in
  match llm_invoke services prompt with
  | Raised e => failed e
  | Ok content =>
      match _parse_json content with
      | JObj ((_ :: _) as parsed) =>
          match mentions_of (PyJson.obj_get parsed "mentions") with
          | Raised e => failed e
          | Ok raw_mentions =>
              match make_post platform parsed (_validate_brand_mentions raw_mentions) with
              | Raised e => failed e
              | Ok post => set_drafts state (Dict.set (drafts state) platform post)
              end
          end
      | _ =>
          add_error state
            ("Failed to parse " @@ Platform_str platform @@ " post: "
             @@ PyStr.take 100 content @@ "...")
      end
  end.

Definition generate_posts (state : State) : State :=
  let platforms := [twitter; linkedin; instagram] in
  let state := set_drafts state [] in
  fold_left (generate_posts_step (content_source state)) platforms state.

(** [key in v] for a decoded value [v] and a string [key]. *)
Definition contains_key (v : Json) (key : string) : Exc bool :=
  match v with
  | JObj fields =>
      Ok (match PyJson.obj_get fields key with Some _ => true | None => false end)
  | JArr items =>
      Ok (existsb (fun item => match item with JStr s => String.eqb s key | _ => false end)
            items)
  | JStr s => Ok (PyStr.contains key s)
  | other => Raised (type_error_text services other)
  end.

(** [post.metadata = post.metadata or {}], then the given entries. *)
Definition with_metadata (post : PlatformPost.t) (entries : list (string * Json))
  : PlatformPost.t :=
  let metadata :=
    match PlatformPost.metadata post with
    | Some (_ :: _ as m) => m
    | _ => []
    end in
  PlatformPost.mk (PlatformPost.platform post) (PlatformPost.primary_text post)
    (PlatformPost.thread post) (PlatformPost.hashtags post) (PlatformPost.mentions post)
    (PlatformPost.notes post)
    (Some (fold_left (fun m entry => PyJson.obj_set m (fst entry) (snd entry))
             entries metadata)).

(** The body of the loop that adds the quality scores, for one draft: the
    post as the loop leaves it and, when the body raises, the text of the
    exception.  A score that is no dictionary has no [get]; the post has
    then already received its (empty) metadata. *)
Definition add_quality_step (quality_scores : Json) (platform : Platform)
  (post : PlatformPost.t) : PlatformPost.t * option string :=
  match contains_key quality_scores (Platform_str platform) with
  | Raised e => (post, Some e)
  | Ok false => (post, None)
  | Ok true =>
      match quality_scores with
      | JObj scores =>
          match PyJson.obj_get scores (Platform_str platform) with
          | Some (JObj quality_score) =>
              let get key :=
                match PyJson.obj_get quality_score key with
                | Some v => v
                | None => JNum (5 # 10)%Q
                end in
              (with_metadata post
                 [("quality_score", get "overall_quality");
                  ("content_density", get "content_density");
                  ("semantic_coherence", get "semantic_coherence")],
               None)
          | Some other => (with_metadata post [], Some (type_error_text services other))
          | None => (post, None)
          end
      | other => (post, Some (type_error_text services other))
      end
  end.

(** The loop over the drafts; it stops at the first draft whose body
    raises, and the posts are the objects held in [drafts]. *)
Fixpoint add_quality (quality_scores : Json) (posts : Dict.t PlatformPost.t)
  : Dict.t PlatformPost.t * option string :=
  match posts with
  | [] => ([], None)
  | (platform, post) :: rest =>
      match add_quality_step quality_scores platform post with
      | (post, Some e) => ((platform, post) :: rest, Some e)
      | (post, None) =>
          let '(rest, failure) := add_quality quality_scores rest in
          ((platform, post) :: rest, failure)
      end
  end.

(** [analysis_results] is the dictionary [analyze_content_embeddings]
    returns. *)
Definition analyze_embeddings (state : State) : State :=
  let failed state e :=
    set_embedding_analysis (add_error state ("Embedding analysis failed: " @@ e))
      [("error", JStr e)] in
  match text state, drafts state with
  | EmptyString, _ | _, [] =>
      set_embedding_analysis state [("error", JStr "Insufficient content for analysis")]
  | original_text, platform_posts =>
      let string_key_posts := map (fun kv => (Platform_str (fst kv), snd kv)) platform_posts in
      match analyze_content_embeddings services original_text (key_points state)
              string_key_posts with
      | Raised e => failed state e
      | Ok analysis_results =>
          let state := set_embedding_analysis state analysis_results in
          match PyJson.obj_get analysis_results "quality_scores" with
          | None => state
          | Some quality_scores =>
              let '(posts, failure) := add_quality quality_scores (drafts state) in
              let state := set_drafts state posts in
              match failure with
              | None => state
              | Some e => failed state e
              end
          end
      end
  end.

(** [Claim(text=item.get("text", ""), severity=item.get("severity", "low"))] *)
Definition claim_of (fields : list (string * Json)) : Exc Claim.t :=
  let invalid := Raised (validation_error_text services (JObj fields)) in
  match PyJson.obj_get fields "text" with
  | Some (JStr t) =>
      let make sev := Ok (Claim.mk t sev [] (0 # 1)%Q) in
      match PyJson.obj_get fields "severity" with
      | None => make low
      | Some (JStr s) =>
          if String.eqb s "low" then make low
          else if String.eqb s "medium" then make medium
          else if String.eqb s "high" then make high
          else invalid
      | Some _ => invalid
      end
  | _ => invalid
  end.

(** The list comprehension of [extract_claims]; it stops at the first item
    the model rejects. *)
Fixpoint claims_of (parsed : list Json) : Exc (list Claim.t) :=
  match parsed with
  | [] => Ok []
  | JObj fields :: rest =>
      match PyJson.obj_get fields "text" with
      | Some _ =>
          match claim_of fields with
          | Raised e => Raised e
          | Ok c =>
              match claims_of rest with
              | Ok cs => Ok (c :: cs)
              | Raised e => Raised e
              end
          end
      | None => claims_of rest
      end
  | _ :: rest => claims_of rest
  end.

(** The body of the loop of [extract_claims], for one draft. *)
Definition extract_claims_step (original_text : string) (state : State)
  (kv : Platform * PlatformPost.t) : State :=
  let platform := fst kv in
  let post := snd kv in
  let put cs := set_claims state (Dict.set (claims state) platform cs) in
  let failed e :=
    set_claims
      (add_error state
         ("Claim extraction failed for " @@ Platform_str platform @@ ": " @@ e))
      (Dict.set (claims state) platform []) in
  let prompt :=
    CLAIM_EXTRACT_PROMPT_format services original_text (PlatformPost.primary_text post) in
  match llm_invoke services prompt with
  | Raised e => failed e
  | Ok content =>
      match _parse_json content with
      | JArr ((_ :: _) as parsed) =>
          match claims_of parsed with
          | Ok cs => put cs
          | Raised e => failed e
          end
      | _ => put []
      end
  end.

Definition extract_claims (state : State) : State :=
  let state := set_claims state [] in
  let original_text := text state in
  fold_left (extract_claims_step original_text) (drafts state) state.

(** [xs[start:stop]] *)
Definition slice {A : Type} (xs : list A) (start stop : nat) : list A :=
  firstn (stop - start) (skipn start xs).

(** The first loop of [fact_check]: all claims in one list, and where each
    platform's claims start in it. *)
Definition aggregate_step (acc : list Claim.t * Dict.t nat)
  (kv : Platform * list Claim.t) : list Claim.t * Dict.t nat :=
  let '(all_claims, platform_claim_map) := acc in
  (all_claims ++ snd kv, Dict.set platform_claim_map (fst kv) (List.length all_claims)).

(** The second loop: a platform gets the slice of the verified list at its
    old position and of its old length. *)
Definition redistribute (verified_claims : list Claim.t) (platform_claim_map : Dict.t nat)
  (state : State) (platform : Platform) : State :=
  match Dict.get platform_claim_map platform, Dict.get (claims state) platform with
  | Some start_idx, Some current =>
      let end_idx := start_idx + List.length current in
      set_claims state
        (Dict.set (claims state) platform (slice verified_claims start_idx end_idx))
  | _, _ => state (* no KeyError: the keys are those of the dict itself *)
  end.

(** [fact_check] around the call that verifies: [verify] is what
    [verify_claims(all_claims)] gives, a value or an exception. *)
Definition fact_check_with (verify : list Claim.t -> Exc (list Claim.t)) (state : State)
  : State :=
  let '(all_claims, platform_claim_map) :=
    fold_left aggregate_step (claims state) ([], []) in
  match verify all_claims with
  | Ok verified_claims =>
      fold_left (redistribute verified_claims platform_claim_map)
        (Dict.keys (claims state)) state
  | Raised e => add_error state ("Unified fact-checking failed: " @@ e)
  end.

(** [verify_claims] itself lets no exception out: the search functions
    catch those of their backends. *)
Definition fact_check (state : State) : State :=
  fact_check_with (fun all_claims => Ok (FactCheck.verify_claims config backend all_claims))
    state.

(** A call of [review_post], recorded. *)
Definition call_review_post (platform : Platform) (post_text : string)
  (claims : list Claim.t) : Traced PostReview.t :=
  (Compliance.review_post config platform post_text claims,
   [ReviewCall platform post_text]).

Definition claims_for (state : State) (platform : Platform) : list Claim.t :=
  match Dict.get (claims state) platform with
  | Some cs => cs
  | None => []
  end.

(** The body of the loop of [compliance], for one draft.  [review_post] is
    total on well-typed claims, so the [except] branch of the loop is never
    taken. *)
Definition compliance_step (state : State) (kv : Platform * PlatformPost.t)
  : Traced State :=
  let platform := fst kv in
  let post := snd kv in
  let claims := claims_for state platform in
  bind (call_review_post platform (PlatformPost.primary_text post) claims)
    (fun review => ret (set_reviews state (Dict.set (reviews state) platform review))).

Definition compliance (state : State) : Traced State :=
  let state := set_reviews state [] in
  for_each (drafts state) compliance_step state.

(** The prompt of the rewrite request: the issue summary and the post text
    in [EDIT_SUGGESTIONS_PROMPT]. *)
Definition edit_prompt (review : PostReview.t) (post : PlatformPost.t) : string :=
  let issues_text :=
    PyStr.join PyStr.newline
      (map (fun issue => "- " @@ ComplianceIssue.message issue @@ ": "
                         @@ ComplianceIssue.suggestion issue)
           (PostReview.issues review)) in
  EDIT_SUGGESTIONS_PROMPT_format services issues_text (PlatformPost.primary_text post).

(** The body of the loop of [remediate_if_blocked] for a blocked platform.
    The post is the object held in [drafts]: writing its fields writes the
    draft. *)
Definition remediate_one (state : State) (platform : Platform) (review : PostReview.t)
  : Traced State :=
  let failed e :=
    add_error state ("Remediation failed for " @@ Platform_str platform @@ ": " @@ e) in
  match Dict.get (drafts state) platform with
  | None => ret (failed ("'" @@ Platform_str platform @@ "'"))
  | Some post =>
      match llm_invoke services (edit_prompt review post) with
      | Raised e => ret (failed e)
      | Ok content =>
          let revised_text := PyStr.strip content in
          let post :=
            PlatformPost.mk (PlatformPost.platform post) revised_text
              (PlatformPost.thread post) (PlatformPost.hashtags post)
              (PlatformPost.mentions post) (Some "Automatically revised for compliance")
              (PlatformPost.metadata post) in
          let state := set_drafts state (Dict.set (drafts state) platform post) in
          let claims := claims_for state platform in
          bind (call_review_post platform revised_text claims)
            (fun new_review =>
               ret (set_reviews state (Dict.set (reviews state) platform new_review)))
      end
  end.

(** The body of the loop of [remediate_if_blocked], for one review. *)
Definition remediate_step (state : State) (kv : Platform * PostReview.t)
  : Traced State :=
  let platform := fst kv in
  let review := snd kv in
  match PostReview.status review with
  | block => remediate_one state platform review
  | _ => ret state
  end.

Definition remediate_if_blocked (state : State) : Traced State :=
  for_each (reviews state) remediate_step state.

Definition schedule (state : State) : State :=
  let platforms := Dict.keys (drafts state) in
  let content_text := text state in
  let topic_hint := match topic_hint state with Some h => h | None => EmptyString end in
  match suggest_times services platforms content_text topic_hint with
  | Ok timings => set_timings state timings
  | Raised e =>
      set_timings (add_error state ("Context-aware scheduling failed: " @@ e)) []
  end.

(** The nodes up to [fact_check], along the edges of [build_graph]. *)
Definition before_compliance (state : State) : State :=
  fact_check (extract_claims (analyze_embeddings (generate_posts (extract_key_points state)))).

(** [graph.invoke(initial_state)]: the eight nodes in the order of the edges. *)
Definition run_graph (state : State) : Traced State :=
  bind (compliance (before_compliance state))
    (fun state => bind (remediate_if_blocked state) (fun state => ret (schedule state))).

End WithServices.
End Graph.

(** ** Vocabulary of the statements *)

(** An issue with the given rule id among those a claim contributes to
    [_check_claim_confidence]. *)
Definition emits_rule (rule : string) (claim : Claim.t) : bool :=
  existsb (fun issue => String.eqb (ComplianceIssue.rule_id issue) rule)
    (Compliance.claim_confidence_issues claim).

(** All three tier scores are non-negative and, once a result has been
    seen, one of them has reached its weight. *)
Definition tiers_ok (started : bool) (tiers : Q * Q * Q) : Prop :=
  let '(t1, t2, t3) := tiers in
  (0 <= t1)%Q /\ (0 <= t2)%Q /\ (0 <= t3)%Q
  /\ (started = true -> ((4 # 10) <= t1 \/ (25 # 100) <= t2 \/ (1 # 10) <= t3)%Q).

(** The test of the loop of [_deduplicate_claims]: the claim is kept. *)
Definition dedup_accepts (seen_signatures : list string) (unique_claims : list Claim.t)
  (claim : Claim.t) : bool :=
  negb (PyStr.mem (FactCheck.claim_signature claim) seen_signatures)
  && negb (existsb
             (fun existing_claim =>
                FactCheck._are_claims_similar (Claim.text claim) (Claim.text existing_claim))
             unique_claims).

(** [seen_signatures] holds the signatures of the claims kept so far. *)
Definition seen_matches (unique_claims : list Claim.t) (seen_signatures : list string) : Prop :=
  forall s, PyStr.mem s seen_signatures
            = PyStr.mem s (map FactCheck.claim_signature unique_claims).

(** Every claim of the list passes the test against the claims before it. *)
Definition self_accepting (claims : list Claim.t) : Prop :=
  forall before claim after,
    claims = before ++ claim :: after ->
    dedup_accepts (map FactCheck.claim_signature before) before claim = true.

(** The search provider fails on every call: every request of either
    backend raises. *)
Definition search_always_fails (backend : Search.Backend) : Prop :=
  (forall query n, exists e, Search.ddgs_text backend query n = Raised e)
  /\ (forall query n, exists e, Search.wikipedia_search backend query n = Raised e).

(** Every claim the state holds has the floor confidence 0.1. *)
Definition claims_at_floor (state : Graph.State) : Prop :=
  Forall (fun kv => Forall (fun c => Claim.confidence c = (1 # 10)%Q) (snd kv))
    (Graph.claims state).

(** Whether the rewrite requested for a blocked platform arrives: the draft
    exists and the generation service answers. *)
Definition rewrite_arrives (services : Services) (state : Graph.State)
  (platform : Platform) (review : PostReview.t) : bool :=
  match Dict.get (Graph.drafts state) platform with
  | Some post =>
      match llm_invoke services (Graph.edit_prompt services review post) with
      | Ok _ => true
      | Raised _ => false
      end
  | None => false
  end.

Definition is_block (s : Status) : bool :=
  match s with block => true | _ => false end.

(** What the second loop of [fact_check] maintains: the keys are distinct,
    the platforms still to come are keys of the position map and of the
    state, and the lists of the others hold claims satisfying [P] only. *)
Definition redistribution_invariant (P : Claim.t -> Prop) (m : Dict.t nat)
  (todo : list Platform) (st : Graph.State) : Prop :=
  NoDup (Dict.keys (Graph.claims st))
  /\ (forall k, In k todo -> In k (Dict.keys m) /\ In k (Dict.keys (Graph.claims st)))
  /\ (forall kv, In kv (Graph.claims st) -> In (fst kv) todo \/ Forall P (snd kv)).

(** ** Concrete inputs *)

Module Sample.

Definition standard : Config.t := Config.mk "duckduckgo" "en" "standard".

(** The stand-in [DDGS] class of [search.py]: one fixed result for every
    query. *)
Definition fallback_backend : Search.Backend :=
  {| Search.DDGS_new := Ok tt;
     Search.ddgs_text := fun _ _ => Ok [("Test Result", "https://example.com")];
     Search.wikipedia_set_lang := fun _ => Ok tt;
     Search.wikipedia_search := fun _ _ => Ok ["Test Page"];
     Search.wikipedia_page := fun _ => Ok ("Test", "https://wikipedia.org/test") |}.

(** A search provider that fails on every call. *)
Definition failing_backend : Search.Backend :=
  {| Search.DDGS_new := Ok tt;
     Search.ddgs_text := fun _ _ => Raised "search unavailable";
     Search.wikipedia_set_lang := fun _ => Ok tt;
     Search.wikipedia_search := fun _ _ => Raised "search unavailable";
     Search.wikipedia_page := fun _ => Raised "search unavailable" |}.

Definition python_claim : Claim.t :=
  Claim.mk "Python is a programming language" low [] (0 # 1).

(** A claim naming a study, and two results about it, one of them on a
    government site. *)
Definition survey_claim : Claim.t :=
  Claim.mk "A Gartner survey found 48% of firms use AI" high [] (0 # 1).

Definition survey_results : list Search.SearchResult :=
  [("Gartner survey: 48% of firms use AI", "https://www.census.gov/ai-survey");
   ("Survey of firms and AI adoption, 48 percent", "https://news.example.com/ai")].

(** High severity, confidence 0.4, two sources. *)
Definition sourced_claim : Claim.t :=
  Claim.mk "Remote work rose" high ["https://a.example"; "https://b.example"] (4 # 10).

Definition strict : Config.t := Config.mk "duckduckgo" "en" "strict".

(** A blog text of the length the API accepts (at least 100 characters). *)
Definition blog_text : string :=
  "Remote work keeps growing across the technology sector, and a 2024 survey found that output rose 20% while commutes fell.".

Definition post_text (platform : Platform) : string :=
  match platform with
  | twitter => "Remote work is the cure for long commutes: output rose 20% in 2024."
  | linkedin =>
      "Remote work keeps growing across the technology sector. A 2024 survey found that output rose 20% while commutes fell, so teams keep the model."
  | instagram =>
      "Remote work keeps growing across the technology sector. A 2024 survey found that output rose 20% while commutes fell. Would you keep working from home next year?"
  end.

(** A JSON string literal (of a text without quote or backslash). *)
Definition quoted (s : string) : string := PyStr.dquote @@ s @@ PyStr.dquote.

(** The answers of the generation service, as JSON text, and what
    [json.loads] makes of each. *)
Definition key_points_json : string :=
  "[{" @@ quoted "text" @@ ": " @@ quoted "Output rose 20% in 2024" @@ ", "
  @@ quoted "importance" @@ ": 0.8}]".

Definition key_points_value : Json :=
  JArr [JObj [("text", JStr "Output rose 20% in 2024"); ("importance", JNum (8 # 10))]].

Definition post_json (platform : Platform) : string :=
  "{" @@ quoted "primary_text" @@ ": " @@ quoted (post_text platform) @@ ", "
  @@ quoted "hashtags" @@ ": [" @@ quoted "#remotework" @@ "], "
  @@ quoted "mentions" @@ ": [" @@ quoted "@buffer" @@ "]}".

Definition post_value (platform : Platform) : Json :=
  JObj [("primary_text", JStr (post_text platform));
        ("hashtags", JArr [JStr "#remotework"]);
        ("mentions", JArr [JStr "@buffer"])].

Definition claims_json : string :=
  "[{" @@ quoted "text" @@ ": " @@ quoted "Output rose 20% in 2024" @@ ", "
  @@ quoted "severity" @@ ": " @@ quoted "high" @@ "}]".

Definition claims_value : Json :=
  JArr [JObj [("text", JStr "Output rose 20% in 2024"); ("severity", JStr "high")]].

(** [json.loads] on the five texts above; any other text is rejected. *)
Definition loads (s : string) : option Json :=
  if String.eqb s key_points_json then Some key_points_value
  else if String.eqb s (post_json twitter) then Some (post_value twitter)
  else if String.eqb s (post_json linkedin) then Some (post_value linkedin)
  else if String.eqb s (post_json instagram) then Some (post_value instagram)
  else if String.eqb s claims_json then Some claims_value
  else None.

(** The generation service: it drafts the three posts and extracts one
    claim; a rewrite request is answered when [rewrites] is set and fails
    otherwise. *)
Definition generation (rewrites : bool) (prompt : string) : Exc string :=
  if prefix "Create a twitter post" prompt then Ok (post_json twitter)
  else if prefix "Create a linkedin post" prompt then Ok (post_json linkedin)
  else if prefix "Create a instagram post" prompt then Ok (post_json instagram)
  else if prefix "From both the original blog content" prompt then Ok claims_json
  else if rewrites
  then Ok "Remote work shortens long commutes: output rose 20% in 2024."
  else Raised "rate limit exceeded".

(** The analysis [analyze_content_embeddings] falls back to: a neutral
    quality score for every post. *)
Definition neutral_analysis (posts : list (string * PlatformPost.t))
  : list (string * Json) :=
  [("quality_scores",
    JObj (map (fun kv => (fst kv, JObj [("overall_quality", JNum (5 # 10)%Q)])) posts))].

(** A world in which everything but, possibly, the rewrite answers; the
    prompts carry the opening words of the templates and what is
    substituted into them. *)
Definition world (rewrites : bool) : Services :=
  {| chat_completion := fun _ => Ok key_points_json;
     llm_invoke := generation rewrites;
     json_loads := loads;
     py_str := fun _ => "None";
     float_str := fun _ => "0.8";
     type_error_text := fun _ => "object is not iterable";
     validation_error_text := fun _ => "validation error";
     suggest_times := fun _ _ _ => Ok [];
     analyze_content_embeddings := fun _ _ posts => Ok (neutral_analysis posts);
     KEYPOINTS_PROMPT_format :=
       fun t => "Extract 5-8 key bullet points from the blog text below. " @@ t;
     PLATFORM_PROMPT_format :=
       fun platform key_points _ =>
         "Create a " @@ Platform_str platform @@ " post using the key points below. "
         @@ key_points;
     CLAIM_EXTRACT_PROMPT_format :=
       fun original_text post_text =>
         "From both the original blog content and social media post below, extract up to 10 factual claims. "
         @@ original_text @@ " " @@ post_text;
     EDIT_SUGGESTIONS_PROMPT_format :=
       fun issues post_text =>
         "The following social media post has compliance issues. " @@ issues @@ " "
         @@ post_text |}.

(** A world in which every call raises. *)
Definition broken_world : Services :=
  {| chat_completion := fun _ => Raised "connection refused";
     llm_invoke := fun _ => Raised "connection refused";
     json_loads := fun _ => None;
     py_str := fun _ => "None";
     float_str := fun _ => "0.8";
     type_error_text := fun _ => "object is not iterable";
     validation_error_text := fun _ => "validation error";
     suggest_times := fun _ _ _ => Raised "connection refused";
     analyze_content_embeddings := fun _ _ _ => Raised "connection refused";
     KEYPOINTS_PROMPT_format := fun t => t;
     PLATFORM_PROMPT_format := fun _ key_points _ => key_points;
     CLAIM_EXTRACT_PROMPT_format := fun original_text _ => original_text;
     EDIT_SUGGESTIONS_PROMPT_format := fun issues _ => issues |}.

(** The state [create_content_plan] starts the graph with. *)
Definition initial_state : Graph.State :=
  Graph.mkState blog_text None [] [] [] [] [] [] None.

(** A state before [fact_check]: one extracted, unverified claim. *)
Definition unverified_state : Graph.State :=
  Graph.mkState blog_text None [] []
    [(twitter, [Claim.mk "Output rose 20% in 2024" high [] (0 # 1)])] [] [] [] None.

(** A run with the failing search provider, standard compliance mode. *)
Definition standard_run : Graph.Traced Graph.State :=
  Graph.run_graph standard failing_backend (world false) initial_state.

(** Runs in strict mode, where the twitter draft is blocked for the word
    [cure]; the rewrite arrives or not. *)
Definition strict_run (rewrites : bool) : Graph.Traced Graph.State :=
  Graph.run_graph strict failing_backend (world rewrites) initial_state.

(** The state after the compliance node in those runs. *)
Definition strict_first (rewrites : bool) : Graph.State :=
  fst (Graph.compliance strict
         (Graph.before_compliance strict failing_backend (world rewrites) initial_state)).

(** A state before [fact_check] with two platforms and two claims that
    share neither signature nor number: deduplication drops nothing. *)
Definition two_platform_state : Graph.State :=
  Graph.mkState blog_text None [] []
    [(twitter, [Claim.mk "Output rose 20% in 2024" high [] (0 # 1)]);
     (linkedin, [Claim.mk "Commutes fell by 35 minutes" medium [] (0 # 1)])]
    [] [] [] None.

(** A state after [generate_posts]: one twitter draft. *)
Definition drafted_state : Graph.State :=
  Graph.mkState blog_text None [] 
    [(twitter, PlatformPost.mk twitter (post_text twitter) None [] [] None None)]
    [] [] [] [] None.

(** Three claims; the third repeats the number and the entity of the
    first. *)
Definition buffer_claim : Claim.t :=
  Claim.mk "Buffer survey: 80% prefer remote" high [] (0 # 1).

Definition commute_claim : Claim.t :=
  Claim.mk "Commutes fell by 35 minutes" medium [] (0 # 1).

Definition three_claims : list Claim.t :=
  [buffer_claim; commute_claim;
   Claim.mk "80% of workers prefer remote, per Buffer" high [] (0 # 1)].

(** [fact_check] on a verification that raises. *)
Definition crashed_fact_check : Graph.State :=
  Graph.fact_check_with (fun _ => Raised "verification crashed") unverified_state.

End Sample.

(** ** Further vocabulary *)

(** [l1] is [l2] with some elements left out, the order kept. *)
Inductive subseq {A : Type} : list A -> list A -> Prop :=
| subseq_nil : subseq [] []
| subseq_skip (x : A) (l1 l2 : list A) : subseq l1 l2 -> subseq l1 (x :: l2)
| subseq_keep (x : A) (l1 l2 : list A) : subseq l1 l2 -> subseq (x :: l1) (x :: l2).

(** No result twice, no result without a URL. *)
Definition clean_results (results : list Search.SearchResult) : Prop :=
  NoDup results /\ Forall (fun r => snd r <> EmptyString) results.

(** The URL of a result names a tier-1 source. *)
Definition is_tier1 (r : Search.SearchResult) : bool :=
  existsb (fun indicator => PyStr.contains indicator (PyStr.lower (snd r)))
    FactCheck.tier1_indicators.

(** The lower-cased text contains one of the words. *)
Definition mentions_any (words : list string) (text : string) : bool :=
  existsb (fun word => PyStr.contains word (PyStr.lower text)) words.

(** Some high-severity claim has a confidence below 0.3. *)
Definition unsupported_high_claim (claims : list Claim.t) : bool :=
  existsb
    (fun c => match Claim.severity c with
              | high => Float.ltb (Claim.confidence c) (3 # 10)
              | _ => false
              end)
    claims.

Definition is_low (s : ClaimSeverity) : bool :=
  match s with low => true | _ => false end.

(** The compliance calls of a pass over the drafts, one per draft. *)
Definition one_call_per_draft (drafts : Dict.t PlatformPost.t) : list Graph.Event :=
  map (fun kv => Graph.ReviewCall (fst kv) (PlatformPost.primary_text (snd kv))) drafts.

(** A later state of the same run: the input text and the topic hint are
    the same, and the errors recorded earlier are still there, in place,
    before the new ones. *)
Definition extends (st st' : Graph.State) : Prop :=
  Graph.text st' = Graph.text st
  /\ Graph.topic_hint st' = Graph.topic_hint st
  /\ exists added, Graph.errors st' = Graph.errors st ++ added.

(** A draft as [generate_posts] stores it: filed under its own platform,
    within that platform's character limits, without notes. *)
Definition valid_draft (kv : Platform * PlatformPost.t) : Prop :=
  PlatformPost.platform (snd kv) = fst kv
  /\ Graph.within_character_limits (fst kv) (PlatformPost.primary_text (snd kv)) = true
  /\ PlatformPost.notes (snd kv) = None.

(** A claim as [extract_claims] creates it: no source, confidence 0. *)
Definition unverified (c : Claim.t) : Prop :=
  Claim.sources c = [] /\ Claim.confidence c = (0 # 1)%Q.

(** Every review of the state is the review of the draft the state holds
    for that platform, with the claims the state holds for it. *)
Definition reviews_current (config : Config.t) (st : Graph.State) : Prop :=
  forall p review,
    Dict.get (Graph.reviews st) p = Some review ->
    exists post,
      Dict.get (Graph.drafts st) p = Some post
      /\ review
         = Compliance.review_post config p (PlatformPost.primary_text post)
             (Graph.claims_for st p).

(** All claims of the state in one list, platform after platform: the
    [all_claims] of [fact_check]. *)
Definition all_claims (st : Graph.State) : list Claim.t :=
  List.concat (map snd (Graph.claims st)).

(** A key point as [extract_key_points] stores it: importance in [0, 1]. *)
Definition importance_in_range (kp : KeyPoint.t) : Prop :=
  (0 <= KeyPoint.importance kp)%Q /\ (KeyPoint.importance kp <= 1)%Q.

(** ** [app/tools/schedule.py] *)

Module Schedule.

(** A [datetime] as the scheduling code uses it: a reading of the wall clock
    of one time zone, given by the ordinal of its day ([toordinal()]) and its
    time of day.  All the values of one call carry the same [tzinfo], so they
    are compared and moved by a [timedelta] on these fields alone.  Days stay
    within the years a [datetime] can hold. *)
Record datetime : Type := mk_datetime {
  day : Z;
  hour : Z;
  minute : Z;
  second : Z;
  microsecond : Z
}.

(** [d.weekday()]: 0 is Monday, 6 is Sunday. *)
Definition weekday (d : datetime) : Z := ((day d + 6) mod 7)%Z.

(** [d.replace(hour=h, minute=m, second=0, microsecond=0)] *)
Definition replace_time (d : datetime) (h m : Z) : Exc datetime :=
  if negb ((0 <=? h) && (h <=? 23))%Z then Raised "hour must be in 0..23"
  else if negb ((0 <=? m) && (m <=? 59))%Z then Raised "minute must be in 0..59"
  else Ok (mk_datetime (day d) h m 0 0).

(** [d + timedelta(days=n)] *)
Definition add_days (d : datetime) (n : Z) : datetime :=
  mk_datetime (day d + n)%Z (hour d) (minute d) (second d) (microsecond d).

(** [d + timedelta(hours=n)] *)
Definition add_hours (d : datetime) (n : Z) : datetime :=
  let h := (hour d + n)%Z in
  mk_datetime (day d + h / 24)%Z (h mod 24)%Z (minute d) (second d) (microsecond d).

(** [d + timedelta(minutes=n)] *)
Definition add_minutes (d : datetime) (n : Z) : datetime :=
  let m := (minute d + n)%Z in
  let h := (hour d + m / 60)%Z in
  mk_datetime (day d + h / 24)%Z (h mod 24)%Z (m mod 60)%Z (second d) (microsecond d).

(** [a < b] on two readings of the same zone. *)
Definition ltb (a b : datetime) : bool :=
  if (day a =? day b)%Z then
    if (hour a =? hour b)%Z then
      if (minute a =? minute b)%Z then
        if (second a =? second b)%Z then (microsecond a <? microsecond b)%Z
        else (second a <? second b)%Z
      else (minute a <? minute b)%Z
    else (hour a <? hour b)%Z
  else (day a <? day b)%Z.

(** [a <= b] *)
Definition leb (a b : datetime) : bool := negb (ltb b a).

(** The clock and the zone database.  [now_in name] is [ZoneInfo(name)]
    followed by [datetime.now] in that zone, and fails when the zone is not
    found; [isoformat name d] is [d.isoformat()] for a reading [d] of the zone
    [name]. *)
Record Clock : Type := {
  now_in : string -> Exc datetime;
  isoformat : string -> datetime -> string
}.

(** [d.get(key)] on a dict with string keys. *)
Fixpoint lookup {V : Type} (key : string) (d : list (string * V)) : option V :=
  match d with
  | [] => None
  | (k, v) :: rest => if String.eqb k key then Some v else lookup key rest
  end.

Definition PLATFORM_OPTIMAL_TIMES (platform : Platform) : list (string * list string) :=
  match platform with
  | twitter =>
      [("weekday_primary", ["12:00"; "13:00"; "14:00"; "15:00"]);
       ("weekday_secondary", ["09:00"]);
       ("breaking_news", ["immediate"]);
       ("weekend", ["10:00"; "14:00"; "16:00"])]
  | linkedin =>
      [("tuesday_thursday",
        ["07:00"; "08:00"; "09:00"; "12:00"; "13:00"; "14:00"; "17:00"; "18:00"]);
       ("other_weekdays", ["08:00"; "13:00"; "17:00"]);
       ("professional_morning", ["07:00"; "08:00"; "09:00"]);
       ("weekend", [])]
  | instagram =>
      [("weekday_evening", ["18:00"; "19:00"; "20:00"; "21:00"]);
       ("weekend_morning", ["10:00"; "11:00"]);
       ("weekend_evening", ["18:00"; "19:00"; "20:00"; "21:00"]);
       ("visual_content", ["19:00"; "20:00"])]
  end.

(** For each content type, the value under ["platforms"] and the one under
    ["description"]. *)
Definition CONTENT_TYPE_PREFERENCES : list (string * (Dict.t string * string)) :=
  [("professional",
    ([(linkedin, "professional_morning"); (twitter, "weekday_secondary")],
     "Professional insights work best in morning business hours"));
   ("breaking_news",
    ([(twitter, "breaking_news")],
     "Breaking news should be posted immediately"));
   ("visual_lifestyle",
    ([(instagram, "weekday_evening")],
     "Visual content performs best during leisure browsing"));
   ("analytical",
    ([(linkedin, "tuesday_thursday"); (twitter, "weekday_primary")],
     "Data-driven content works best during professional hours"));
   ("travel",
    ([(instagram, "weekend_morning"); (twitter, "weekday_primary")],
     "Travel content engages well on weekends and lunch breaks"))].

Definition AUDIENCE_PATTERNS : list (string * list string) :=
  [("us", ["america"; "united states"; "us "; "usa"; "american"; "newark"; "miami";
           "california"]);
   ("europe", ["europe"; "european"; "eu "; "uk"; "britain"; "germany"; "france";
               "london"]);
   ("asia", ["asia"; "asian"; "china"; "japan"; "india"; "singapore"; "tokyo"]);
   ("nordics", ["greenland"; "iceland"; "denmark"; "norway"; "sweden"; "finland"]);
   ("global", ["global"; "worldwide"; "international"; "multinational"])].

Definition AUDIENCE_TIMEZONES : list (string * string) :=
  [("us", "US/Eastern");
   ("europe", "Europe/London");
   ("asia", "Asia/Singapore");
   ("nordics", "Europe/Copenhagen");
   ("global", "US/Eastern")].

(** The second assignment of the module, which replaces the first. *)
Definition REGULATED_INDUSTRIES : list (string * list string) :=
  [("healthcare", ["hospital"; "medical"; "health"; "patient"; "doctor"; "medicine";
                   "clinical"]);
   ("finance", ["bank"; "financial"; "investment"; "trading"; "crypto"; "payment";
                "fintech"]);
   ("aviation", ["airline"; "airport"; "flight"; "aircraft"; "aviation"; "faa"]);
   ("pharma", ["drug"; "pharmaceutical"; "medication"; "treatment"; "therapy"])].

(** [f"{content_text} {topic_hint}".lower()] *)
Definition combined_text (content_text topic_hint : string) : string :=
  PyStr.lower (content_text @@ " " @@ topic_hint).

(** [any(term in text for term in terms)] *)
Definition any_in (terms : list string) (text : string) : bool :=
  existsb (fun term => PyStr.contains term text) terms.

Definition _detect_content_type (content_text topic_hint : string) : string :=
  let combined_text := combined_text content_text topic_hint in
  if any_in ["breaking"; "alert"; "urgent"; "just announced"; "developing"] combined_text
  then "breaking_news"
  else if any_in ["travel"; "vacation"; "destination"; "tourism"; "flight"; "hotel"]
            combined_text
  then "travel"
  else if any_in ["study"; "research"; "analysis"; "data"; "report"; "survey"]
            combined_text
  then "analytical"
  else if any_in ["photos"; "images"; "beautiful"; "stunning"; "lifestyle"; "culture"]
            combined_text
  then "visual_lifestyle"
  else "professional".

(** The loop over the items of a table of patterns, in the order in which
    the table is written: the name of the first entry with a pattern in the
    text. *)
Fixpoint first_match (table : list (string * list string)) (text : string)
  : option string :=
  match table with
  | [] => None
  | (name, patterns) :: rest =>
      if any_in patterns text then Some name else first_match rest text
  end.

Definition _detect_audience_geography (content_text topic_hint : string) : string :=
  match first_match AUDIENCE_PATTERNS (combined_text content_text topic_hint) with
  | Some region => region
  | None => "global"
  end.

Definition _detect_regulated_industry (content_text topic_hint : string)
  : option string :=
  first_match REGULATED_INDUSTRIES (combined_text content_text topic_hint).

Definition _get_default_timing_key (platform : Platform) (now : datetime) : string :=
  let current_day := weekday now in
  match platform with
  | linkedin =>
      if ((1 <=? current_day) && (current_day <=? 3))%Z
      then "tuesday_thursday" else "other_weekdays"
  | instagram =>
      if (5 <=? current_day)%Z then "weekend_morning" else "weekday_evening"
  | twitter =>
      if (current_day <? 5)%Z then "weekday_primary" else "weekend"
  end.

(** [s.split(sep)] for a separator of one character. *)
Fixpoint split_on (sep : ascii) (s : string) : list string :=
  match s with
  | EmptyString => [EmptyString]
  | String c rest =>
      if Ascii.eqb c sep then EmptyString :: split_on sep rest
      else match split_on sep rest with
           | [] => [String c EmptyString]
           | first :: others => String c first :: others
           end
  end.

Fixpoint digits_value (s : string) (acc : Z) : option Z :=
  match s with
  | EmptyString => Some acc
  | String c rest =>
      if PyStr.is_digit c
      then digits_value rest (10 * acc + Z.of_nat (nat_of_ascii c - 48))%Z
      else None
  end.

(** [int(s)] on the fields of the slot tables: a run of decimal digits is
    its value, and a word that holds anything else is refused with a
    [ValueError]. *)
Definition py_int (s : string) : Exc Z :=
  match s with
  | EmptyString => Raised "invalid literal for int() with base 10: ''"
  | _ =>
      match digits_value s 0%Z with
      | Some n => Ok n
      | None => Raised ("invalid literal for int() with base 10: '" @@ s @@ "'")
      end
  end.

(** [hour, minute = map(int, time_slot.split(":"))]: the fields are converted
    one after the other as the two targets, and the test for a third one,
    ask for them. *)
Definition parse_slot (time_slot : string) : Exc (Z * Z) :=
  match split_on ":"%char time_slot with
  | [] => Raised "not enough values to unpack (expected 2, got 0)"
  | [a] =>
      match py_int a with
      | Raised e => Raised e
      | Ok _ => Raised "not enough values to unpack (expected 2, got 1)"
      end
  | a :: b :: rest =>
      match py_int a with
      | Raised e => Raised e
      | Ok hour =>
          match py_int b with
          | Raised e => Raised e
          | Ok minute =>
              match rest with
              | [] => Ok (hour, minute)
              | c :: _ =>
                  match py_int c with
                  | Raised e => Raised e
                  | Ok _ => Raised "too many values to unpack (expected 2)"
                  end
              end
          end
      end
  end.

(** The zone [timezone] is passed along and not read. *)
Definition _calculate_optimal_slot_time
    (time_slot : string) (now : datetime) (timezone : string) (timing_context : string)
  : Exc datetime :=
  match parse_slot time_slot with
  | Raised e => Raised e
  | Ok (hour, minute) =>
      match replace_time now hour minute with
      | Raised e => Raised e
      | Ok suggested_time =>
          if PyStr.contains "weekend" timing_context && (weekday now <? 5)%Z then
            let days_until_weekend := (5 - weekday now)%Z in
            Ok (add_days suggested_time days_until_weekend)
          else if leb suggested_time now then Ok (add_days suggested_time 1)
          else Ok suggested_time
      end
  end.

Definition upper_char (c : ascii) : ascii :=
  if PyStr.is_lower c then ascii_of_nat (nat_of_ascii c - 32) else c.

(** [s.upper()] *)
Fixpoint upper (s : string) : string :=
  match s with
  | EmptyString => EmptyString
  | String c rest => String (upper_char c) (upper rest)
  end.

Definition platform_reasons : list (string * string) :=
  [("07:00", "Early morning professional browsing");
   ("08:00", "Pre-work engagement peak");
   ("09:00", "Morning commute and coffee break");
   ("12:00", "Lunch break browsing peak");
   ("13:00", "Post-lunch professional activity");
   ("14:00", "Afternoon engagement window");
   ("15:00", "Late afternoon peak");
   ("17:00", "End-of-workday browsing");
   ("18:00", "Evening leisure browsing");
   ("19:00", "Prime evening engagement");
   ("20:00", "Peak evening social time");
   ("21:00", "Late evening browsing")].

Definition _generate_context_rationale
    (platform : Platform) (content_type time_slot : string)
    (regulated_industry : option string) : string :=
  let type_description :=
    match lookup content_type CONTENT_TYPE_PREFERENCES with
    | Some (_, description) => description
    | None => "Optimal engagement time"
    end in
  let timing_reason :=
    match lookup time_slot platform_reasons with
    | Some reason => reason
    | None => "Optimal engagement window"
    end in
  let base_rationale := timing_reason @@ " - " @@ type_description in
  match regulated_industry with
  | Some industry =>
      if String.eqb industry EmptyString then base_rationale
      else base_rationale @@ " [COMPLIANCE REVIEW REQUIRED: " @@ upper industry
                          @@ " content]"
  | None => base_rationale
  end.

(** The key of a used slot: [(t.date(), t.hour, t.minute // 30)]. *)
Definition time_slot_key (t : datetime) : Z * Z * Z :=
  (day t, hour t, (minute t / 30)%Z).

Definition key_eqb (a b : Z * Z * Z) : bool :=
  let '(d1, h1, m1) := a in
  let '(d2, h2, m2) := b in
  ((d1 =? d2) && (h1 =? h2) && (m1 =? m2))%Z.

(** [key in used_slots]; the set is kept as the list of the keys added. *)
Definition slot_used (key : Z * Z * Z) (used_slots : list (Z * Z * Z)) : bool :=
  existsb (key_eqb key) used_slots.

(** The timing key of [_get_context_aware_suggestions]: the preference of
    the content type for the platform, and the default of the day without
    one. *)
Definition timing_key (platform : Platform) (content_type : string) (now : datetime)
  : string :=
  let platforms :=
    match lookup content_type CONTENT_TYPE_PREFERENCES with
    | Some (platforms, _) => platforms
    | None => []
    end in
  match Dict.get platforms platform with
  | Some key =>
      if String.eqb key EmptyString then _get_default_timing_key platform now else key
  | None => _get_default_timing_key platform now
  end.

(** [PLATFORM_OPTIMAL_TIMES.get(platform, {}).get(platform_timing_key, ["12:00"])] *)
Definition optimal_times (platform : Platform) (platform_timing_key : string)
  : list string :=
  match lookup platform_timing_key (PLATFORM_OPTIMAL_TIMES platform) with
  | Some times => times
  | None => ["12:00"]
  end.

Section WithClock.
Variable clock : Clock.
Variable DEFAULT_TZ : string.

(** The suggestions of one platform and the set of used slots, which the
    caller shares between the platforms. *)
Definition Slots : Type := (list PostingTime.t * list (Z * Z * Z))%type.

(** One turn of the loop over [optimal_times[:2]]. *)
Definition slot_step
    (platform : Platform) (content_type : string) (now : datetime) (timezone : string)
    (platform_timing_key : string) (regulated_industry : option string)
    (acc : Exc Slots) (time_slot : string) : Exc Slots :=
  match acc with
  | Raised e => Raised e
  | Ok (suggestions, used_slots) =>
      match _calculate_optimal_slot_time time_slot now timezone platform_timing_key with
      | Raised e => Raised e
      | Ok suggested_time =>
          let suggested_time :=
            if slot_used (time_slot_key suggested_time) used_slots then
              let stagger_hours :=
                if Platform_eqb platform twitter then 1%Z else 2%Z in
              add_hours suggested_time stagger_hours
            else suggested_time in
          let used_slots := time_slot_key suggested_time :: used_slots in
          let rationale :=
            _generate_context_rationale platform content_type time_slot
              regulated_industry in
          Ok (suggestions
                ++ [PostingTime.mk platform (isoformat clock timezone suggested_time)
                      rationale],
              used_slots)
      end
  end.

Definition _get_context_aware_suggestions
    (platform : Platform) (content_type : string) (now : datetime) (timezone : string)
    (used_slots : list (Z * Z * Z)) (regulated_industry : option string) : Exc Slots :=
  let platform_timing_key := timing_key platform content_type now in
  let optimal_times := optimal_times platform platform_timing_key in
  if String.eqb platform_timing_key "immediate" then
    let immediate_time := add_minutes now 5 in
    let rationale := "Breaking news - post immediately for maximum engagement" in
    let rationale :=
      match regulated_industry with
      | Some industry =>
          if String.eqb industry EmptyString then rationale
          else rationale @@ " [COMPLIANCE REQUIRED: " @@ upper industry
                         @@ " content needs review]"
      | None => rationale
      end in
    Ok ([PostingTime.mk platform (isoformat clock timezone immediate_time) rationale],
        used_slots)
  else
    fold_left
      (slot_step platform content_type now timezone platform_timing_key
         regulated_industry)
      (firstn 2 optimal_times) (Ok ([], used_slots)).

(** [suggestions.sort(key=lambda x: x.local_datetime_iso)]: the sort is
    stable, an entry goes behind those whose key is not greater. *)
Fixpoint insert_by_iso (x : PostingTime.t) (sorted : list PostingTime.t)
  : list PostingTime.t :=
  match sorted with
  | [] => [x]
  | y :: rest =>
      if String.ltb (PostingTime.local_datetime_iso x) (PostingTime.local_datetime_iso y)
      then x :: y :: rest
      else y :: insert_by_iso x rest
  end.

Definition sort_by_iso (suggestions : list PostingTime.t) : list PostingTime.t :=
  fold_left (fun sorted x => insert_by_iso x sorted) suggestions [].

(** One turn of the loop over the platforms. *)
Definition platform_step
    (content_type : string) (now : datetime) (timezone : string)
    (regulated_industry : option string) (acc : Exc Slots) (platform : Platform)
  : Exc Slots :=
  match acc with
  | Raised e => Raised e
  | Ok (suggestions, used_time_slots) =>
      match _get_context_aware_suggestions platform content_type now timezone
              used_time_slots regulated_industry with
      | Raised e => Raised e
      | Ok (platform_suggestions, used_time_slots) =>
          Ok (suggestions ++ platform_suggestions, used_time_slots)
      end
  end.

(** The name of the zone of [suggest_times]. *)
Definition target_timezone (content_text topic_hint : string) : string :=
  let audience_region := _detect_audience_geography content_text topic_hint in
  match lookup audience_region AUDIENCE_TIMEZONES with
  | Some name => name
  | None => DEFAULT_TZ
  end.

Definition suggest_times
    (platforms : list Platform) (content_text topic_hint : string)
  : Exc (list PostingTime.t) :=
  let content_type := _detect_content_type content_text topic_hint in
  let regulated_industry := _detect_regulated_industry content_text topic_hint in
  let target_timezone := target_timezone content_text topic_hint in
  match now_in clock target_timezone with
  | Raised e => Raised e
  | Ok now =>
      match fold_left (platform_step content_type now target_timezone regulated_industry)
              platforms (Ok ([], [])) with
      | Raised e => Raised e
      | Ok (suggestions, _) =>
          let suggestions := sort_by_iso suggestions in
          let max_posts := if String.eqb content_type "breaking_news" then 3 else 6 in
          Ok (firstn max_posts suggestions)
      end
  end.

End WithClock.
End Schedule.

(** ** A sample clock *)

Module ScheduleSample.

(** 2024-04-24, a Wednesday, at 10:30:15. *)
Definition wednesday_morning : Schedule.datetime :=
  Schedule.mk_datetime 739000 10 30 15 0.

Fixpoint decimal (fuel : nat) (n : Z) (acc : string) : string :=
  match fuel with
  | 0 => acc
  | S fuel =>
      let acc := String (ascii_of_nat (48 + Z.to_nat (n mod 10))) acc in
      if (n / 10 =? 0)%Z then acc else decimal fuel (n / 10)%Z acc
  end.

Definition two_digits (n : Z) : string :=
  decimal 1 (n / 10)%Z EmptyString @@ decimal 1 n EmptyString.

(** The zones are all found and show the same time; a reading is written
    as the ordinal of its day followed by its time of day. *)
Definition clock : Schedule.Clock :=
  {| Schedule.now_in := fun _ => Ok wednesday_morning;
     Schedule.isoformat := fun _ d =>
       decimal 7 (Schedule.day d) EmptyString @@ "T" @@ two_digits (Schedule.hour d) @@ ":"
       @@ two_digits (Schedule.minute d) @@ ":" @@ two_digits (Schedule.second d) |}.

(** The sample world with the scheduler of [schedule.py] on this clock. *)
Definition world : Services :=
  let w := Sample.world false in
  {| chat_completion := chat_completion w;
     llm_invoke := llm_invoke w;
     json_loads := json_loads w;
     py_str := py_str w;
     float_str := float_str w;
     type_error_text := type_error_text w;
     validation_error_text := validation_error_text w;
     suggest_times := Schedule.suggest_times clock "Asia/Kolkata";
     analyze_content_embeddings := analyze_content_embeddings w;
     KEYPOINTS_PROMPT_format := KEYPOINTS_PROMPT_format w;
     PLATFORM_PROMPT_format := PLATFORM_PROMPT_format w;
     CLAIM_EXTRACT_PROMPT_format := CLAIM_EXTRACT_PROMPT_format w;
     EDIT_SUGGESTIONS_PROMPT_format := EDIT_SUGGESTIONS_PROMPT_format w |}.

(** The sample post, announced as urgent. *)
Definition urgent_state : Graph.State :=
  Graph.mkState Sample.blog_text (Some "urgent") [] [] [] [] [] [] None.

(** What the scheduler suggests for that post on LinkedIn and Instagram. *)
Definition urgent_timings : list PostingTime.t :=
  Eval vm_compute in
    match Schedule.suggest_times clock "Asia/Kolkata" [linkedin; instagram]
            Sample.blog_text "urgent" with
    | Ok timings => timings
    | Raised _ => []
    end.

End ScheduleSample.

(** ** Vocabulary of the scheduling statements *)

(** A slot of the tables that reads as a time of day. *)
Definition slot_ok (time_slot : string) : bool :=
  match Schedule.parse_slot time_slot with
  | Ok (h, m) => ((0 <=? h) && (h <=? 23) && ((0 <=? m) && (m <=? 59)))%Z
  | Raised _ => false
  end.

(** The five content types of [CONTENT_TYPE_PREFERENCES]. *)
Definition content_types : list string :=
  map fst Schedule.CONTENT_TYPE_PREFERENCES.

(** The content reads as breaking news and a tweet is among the posts to
    schedule. *)
Definition breaking_tweet (platforms : list Platform) (text hint : string) : Prop :=
  In twitter platforms /\ Schedule._detect_content_type text hint = "breaking_news".

(** The reading [t] shows the time of day [h]:[m]:00. *)
Definition time_of_day (t : Schedule.datetime) (h m : Z) : Prop :=
  Schedule.hour t = h /\ Schedule.minute t = m
  /\ Schedule.second t = 0%Z /\ Schedule.microsecond t = 0%Z.

(** Where the slot [h]:[m] is due.  Under a timing key for the weekend, on
    a weekday: on the Saturday ahead.  Otherwise: at the first [h]:[m] after
    [now], which is today's if it is still to come and tomorrow's if not. *)
Definition planned (now : Schedule.datetime) (timing_key : string) (h m : Z)
  (base : Schedule.datetime) : Prop :=
  time_of_day base h m
  /\ if PyStr.contains "weekend" timing_key && (Schedule.weekday now <? 5)%Z
     then Schedule.weekday base = 5%Z
          /\ (Schedule.day now < Schedule.day base <= Schedule.day now + 5)%Z
     else Schedule.ltb now base = true
          /\ forall t, time_of_day t h m -> Schedule.ltb now t = true ->
                       Schedule.leb base t = true.

(** The hours by which a slot that is already used is moved. *)
Definition stagger (p : Platform) : Z :=
  if Platform_eqb p twitter then 1%Z else 2%Z.

(** A suggestion for the platform [p] made from one of [slots]: its time is
    where the slot is due, or that moved later by the stagger, and it is
    later than [now]. *)
Definition suggestion_at
    (clock : Schedule.Clock) (timezone : string) (now : Schedule.datetime)
    (timing_key : string) (slots : list string)
    (p : Platform) (s : PostingTime.t) : Prop :=
  PostingTime.platform s = p
  /\ exists slot h m base t,
       In slot slots
       /\ Schedule.parse_slot slot = Ok (h, m)
       /\ planned now timing_key h m base
       /\ (t = base \/ t = Schedule.add_hours base (stagger p))
       /\ PostingTime.local_datetime_iso s = Schedule.isoformat clock timezone t
       /\ Schedule.ltb now t = true.

(** A suggestion for one of the platforms, made from one of the first two
    slots of that platform's timing key. *)
Definition planned_suggestion
    (clock : Schedule.Clock) (timezone : string) (now : Schedule.datetime)
    (content_type : string) (platforms : list Platform) (s : PostingTime.t) : Prop :=
  exists p,
    In p platforms
    /\ suggestion_at clock timezone now (Schedule.timing_key p content_type now)
         (firstn 2 (Schedule.optimal_times p (Schedule.timing_key p content_type now)))
         p s.

(** The suggestions for one platform, and how often a platform is asked
    for. *)
Definition suggestions_for (p : Platform) (timings : list PostingTime.t)
  : list PostingTime.t :=
  filter (fun s => Platform_eqb (PostingTime.platform s) p) timings.

Definition occurrences (p : Platform) (platforms : list Platform) : nat :=
  List.length (filter (fun q => Platform_eqb q p) platforms).

(** The message of the [ValueError] of [int("immediate")]. *)
Definition immediate_error : string :=
  "invalid literal for int() with base 10: 'immediate'".

(** [state.get("topic_hint", "") or ""] *)
Definition hint_of (st : Graph.State) : string :=
  match Graph.topic_hint st with
  | Some hint => hint
  | None => EmptyString
  end.

(** Two posts that differ at most in their [metadata]. *)
Definition same_post (a b : PlatformPost.t) : Prop :=
  PlatformPost.platform a = PlatformPost.platform b
  /\ PlatformPost.primary_text a = PlatformPost.primary_text b
  /\ PlatformPost.thread a = PlatformPost.thread b
  /\ PlatformPost.hashtags a = PlatformPost.hashtags b
  /\ PlatformPost.mentions a = PlatformPost.mentions b
  /\ PlatformPost.notes a = PlatformPost.notes b.

(** The same drafts under the same platforms, in the same order, up to
    their [metadata]. *)
Definition same_drafts (a b : Dict.t PlatformPost.t) : Prop :=
  Forall2 (fun x y => fst x = fst y /\ same_post (snd x) (snd y)) a b.

(** The record [{"error": msg}]. *)
Definition error_record (msg : string) : list (string * Json) := [("error", JStr msg)].

(** ** Vocabulary of the failing nodes *)

(** The work of [generate_posts] for one platform raises with the text [e]:
    the generation call, the reading of the mentions or the construction of
    the post. *)
Definition generation_raises (services : Services) (st : Graph.State)
  (p : Platform) (e : string) : Prop :=
  let prompt :=
    PLATFORM_PROMPT_format services p (Graph.content_source services st)
      (Graph.topic_hint st) in
  llm_invoke services prompt = Raised e
  \/ exists content parsed,
       llm_invoke services prompt = Ok content
       /\ Graph._parse_json services content = JObj parsed
       /\ parsed <> []
       /\ match Graph.mentions_of services (PyJson.obj_get parsed "mentions") with
          | Raised e' => e' = e
          | Ok raw_mentions =>
              Graph.make_post services p parsed
                (Graph._validate_brand_mentions raw_mentions)
              = Raised e
          end.

(** The work of [extract_claims] for one draft raises with the text [e]:
    the generation call or the construction of a claim. *)
Definition extraction_raises (services : Services) (original_text : string)
  (post : PlatformPost.t) (e : string) : Prop :=
  let prompt :=
    CLAIM_EXTRACT_PROMPT_format services original_text (PlatformPost.primary_text post) in
  llm_invoke services prompt = Raised e
  \/ exists content parsed,
       llm_invoke services prompt = Ok content
       /\ Graph._parse_json services content = JArr parsed
       /\ parsed <> []
       /\ Graph.claims_of services parsed = Raised e.

(** The work of [remediate_if_blocked] for one blocked review raises with
    the text [e]: the draft is missing (a [KeyError]) or the rewrite request
    fails. *)
Definition rewrite_raises (services : Services) (st : Graph.State)
  (p : Platform) (review : PostReview.t) (e : string) : Prop :=
  match Dict.get (Graph.drafts st) p with
  | None => e = "'" @@ Platform_str p @@ "'"
  | Some post => llm_invoke services (Graph.edit_prompt services review post) = Raised e
  end.

(** [errors] has grown, and [msg] is among the new entries. *)
Definition records (st st' : Graph.State) (msg : string) : Prop :=
  exists before after,
    Graph.errors st' = Graph.errors st ++ before ++ msg :: after.


(** ** A sample world with partial failures *)

Module FailureSample.

(** The generation service of the sample world, except that the request for
    the LinkedIn post times out; the rewrite requests fail as well. *)
Definition generation (prompt : string) : Exc string :=
  if prefix "Create a linkedin post" prompt then Raised "request timed out"
  else Sample.generation false prompt.

(** The embedding analysis answers with a bare number where the quality
    score of the tweet should be. *)
Definition world : Services :=
  let w := Sample.world false in
  {| chat_completion := chat_completion w;
     llm_invoke := generation;
     json_loads := json_loads w;
     py_str := py_str w;
     float_str := float_str w;
     type_error_text := fun _ => "'float' object has no attribute 'get'";
     validation_error_text := validation_error_text w;
     suggest_times := suggest_times w;
     analyze_content_embeddings :=
       fun _ _ _ => Ok [("quality_scores", JObj [("twitter", JNum (5 # 10)%Q)])];
     KEYPOINTS_PROMPT_format := KEYPOINTS_PROMPT_format w;
     PLATFORM_PROMPT_format := PLATFORM_PROMPT_format w;
     CLAIM_EXTRACT_PROMPT_format := CLAIM_EXTRACT_PROMPT_format w;
     EDIT_SUGGESTIONS_PROMPT_format := EDIT_SUGGESTIONS_PROMPT_format w |}.

(** The draft of [Sample.drafted_state]. *)
Definition tweet : PlatformPost.t :=
  PlatformPost.mk twitter (Sample.post_text twitter) None [] [] None None.

(** The same draft once the embedding node has given it its metadata. *)
Definition touched_tweet : PlatformPost.t :=
  PlatformPost.mk twitter (Sample.post_text twitter) None [] [] None (Some []).

(** The first review of the tweet in the strict runs, which is [block]. *)
Definition blocked_review : PostReview.t :=
  Eval vm_compute in
    match Dict.get (Graph.reviews (Sample.strict_first false)) twitter with
    | Some review => review
    | None => PostReview.mk pass [] []
    end.

End FailureSample.

(** The pages of the given titles that load, as (title, url) pairs, in the
    order of the titles. *)
Definition loaded_pages (backend : Search.Backend) (titles : list string)
  : list Search.SearchResult :=
  flat_map
    (fun title =>
       match Search.wikipedia_page backend title with
       | Ok page => [page]
       | Raised _ => []
       end)
    titles.

(** * Properties *)

(** ** Compliance status *)

Section StatusFacts.
Import Compliance.

Lemma has_severity_In (s : IssueSeverity) (issues : list ComplianceIssue.t) :
  has_severity s issues = true <->
  exists issue, In issue issues /\ ComplianceIssue.severity issue = s.
Proof.
  unfold has_severity. rewrite existsb_exists.
  split; intros [issue [Hin Hs]]; exists issue; split; trivial.
  - destruct (ComplianceIssue.severity issue), s; simpl in Hs; congruence.
  - rewrite Hs. destruct s; reflexivity.
Qed.


Lemma determine_status_cases (issues : list ComplianceIssue.t) :
  _determine_status issues =
  if has_severity critical issues then block
  else if has_severity major issues then flag else pass.
Proof. destruct issues; reflexivity. Qed.

(** C1. The status derived from a list of issues is [block] exactly when some
    issue is critical, [flag] exactly when none is critical and some issue is
    major, and [pass] in every other case; a list of minor issues only gives
    [pass]. *)
Theorem determine_status_spec (issues : list ComplianceIssue.t) :
  let some s := exists issue, In issue issues /\ ComplianceIssue.severity issue = s in
  (_determine_status issues = block <-> some critical)
  /\ (_determine_status issues = flag <-> ~ some critical /\ some major)
  /\ (_determine_status issues = pass <-> ~ some critical /\ ~ some major)
  /\ ((forall issue, In issue issues -> ComplianceIssue.severity issue = minor)
      -> _determine_status issues = pass).
Proof.
  cbv zeta. rewrite determine_status_cases.
  rewrite <- !has_severity_In.
  assert (Hminor : (forall issue, In issue issues -> ComplianceIssue.severity issue = minor)
                   -> has_severity critical issues = false
                      /\ has_severity major issues = false).
  { intros Hall. split.
    - destruct (has_severity critical issues) eqn:E; trivial.
      apply has_severity_In in E. destruct E as [i [Hin Hs]].
      rewrite (Hall i Hin) in Hs. discriminate.
    - destruct (has_severity major issues) eqn:E; trivial.
      apply has_severity_In in E. destruct E as [i [Hin Hs]].
      rewrite (Hall i Hin) in Hs. discriminate. }
  destruct (has_severity critical issues) eqn:Hc;
    destruct (has_severity major issues) eqn:Hm;
    repeat split; intros; try discriminate; try congruence; try tauto;
    try (destruct (Hminor ltac:(assumption)); congruence);
    try (intuition congruence).
Qed.

(** The last part on a list of one minor issue. *)
Lemma determine_status_spec_witness :
  _determine_status
    [ComplianceIssue.mk "profanity_check" minor "Potential profanity detected: 'damn'"
       "Consider replacing 'damn' with a more professional alternative"]
  = pass.
Proof.
  apply (proj2 (proj2 (proj2 (determine_status_spec
           [ComplianceIssue.mk "profanity_check" minor
              "Potential profanity detected: 'damn'"
              "Consider replacing 'damn' with a more professional alternative"])))).
  intros issue [<- | []]. reflexivity.
Defined.

End StatusFacts.

(** ** Confidence tiers of the compliance engine *)

Section TierFacts.
Import Compliance.

Lemma ltb_lt (x y : Q) : Float.ltb x y = true <-> (x < y)%Q.
Proof.
  unfold Float.ltb. rewrite negb_true_iff.
  split; intro H.
  - apply Qnot_le_lt. intro Hle. apply Qle_bool_iff in Hle. congruence.
  - destruct (Qle_bool y x) eqn:E; trivial.
    apply Qle_bool_iff in E. exfalso. apply (Qlt_not_le _ _ H E).
Qed.

Lemma ltb_ge (x y : Q) : Float.ltb x y = false <-> (y <= x)%Q.
Proof.
  unfold Float.ltb. rewrite negb_false_iff. apply Qle_bool_iff.
Qed.

(** C4, as the spec states it, fails: a high-severity claim with confidence
    0.4 and two sources gets an [attribution_note], so the note is not tied
    to a confidence in [0.5, 0.6). *)
Lemma attribution_note_below_half :
  ~ (emits_rule "attribution_note" Sample.sourced_claim = true <->
     ((5 # 10) <= Claim.confidence Sample.sourced_claim)%Q
     /\ (Claim.confidence Sample.sourced_claim < (6 # 10))%Q
     /\ 2 <= List.length (Claim.sources Sample.sourced_claim)).
Proof.
  intros [H _]. destruct (H eq_refl) as [Hge _].
  unfold Qle in Hge. simpl in Hge. lia.
Qed.

(** C4, amended. A claim gets an [attribution_note] exactly when its
    severity is high, its confidence lies in [0.3, 0.6) and it has at least
    two sources; none is emitted below 0.3; and an [attribution_note] is
    always a minor issue. *)
Theorem attribution_note_iff (claim : Claim.t) :
  (emits_rule "attribution_note" claim = true <->
   Claim.severity claim = high
   /\ ((3 # 10) <= Claim.confidence claim)%Q
   /\ (Claim.confidence claim < (6 # 10))%Q
   /\ 2 <= List.length (Claim.sources claim))
  /\ ((Claim.confidence claim < (3 # 10))%Q ->
      emits_rule "attribution_note" claim = false)
  /\ Forall (fun issue =>
               ComplianceIssue.rule_id issue = "attribution_note" ->
               ComplianceIssue.severity issue = minor)
       (claim_confidence_issues claim).
Proof.
  apply (proj1 (and_assoc _ _ _)). split.
  2: { unfold claim_confidence_issues. cbv zeta.
       destruct (Claim.severity claim);
         repeat match goal with
                | |- context [if ?b then _ else _] => destruct b
                end;
         repeat (apply Forall_cons || apply Forall_nil);
         cbn [ComplianceIssue.rule_id ComplianceIssue.severity];
         intro H; first [reflexivity | discriminate H]. }
  unfold emits_rule, claim_confidence_issues.
  destruct claim as [t sev srcs conf]; simpl.
  destruct sev; simpl.
  - split; [split; [discriminate | intros [H _]; discriminate] | reflexivity].
  - destruct (Float.ltb conf (25 # 100)); simpl;
      (split; [split; [discriminate | intros [H _]; discriminate] | reflexivity]).
  - destruct (Float.ltb conf (3 # 10)) eqn:H3; simpl.
    { apply ltb_lt in H3. split; [split; [discriminate|] | reflexivity].
      intros (_ & Hge & _). exfalso. apply (Qlt_not_le _ _ H3 Hge). }
    apply ltb_ge in H3.
    destruct (Float.ltb conf (5 # 10)) eqn:H5;
      destruct (Float.ltb conf (6 # 10)) eqn:H6;
      destruct srcs as [|s1 [|s2 srcs]]; simpl;
      try apply ltb_lt in H5; try apply ltb_ge in H5;
      try apply ltb_lt in H6; try apply ltb_ge in H6;
      (split;
       [ split;
         [ try discriminate; intros _; repeat split; trivial; simpl; lia
         | intros (_ & _ & Hlt & Hlen); simpl in Hlen; try lia; try reflexivity;
           exfalso; apply (Qlt_not_le _ _ Hlt H6) ]
       | intros Hlt; try reflexivity; exfalso; apply (Qlt_not_le _ _ Hlt H3) ]).
Qed.

(** The amended statement at the input of the counterexample. *)
Lemma attribution_note_iff_witness :
  emits_rule "attribution_note" Sample.sourced_claim = true.
Proof.
  apply (proj1 (attribution_note_iff Sample.sourced_claim)).
  simpl. repeat split; try discriminate; simpl; lia.
Defined.

End TierFacts.

(** ** The confidence score *)

Section ScoreFacts.
Import FactCheck.

Lemma fold_left_nonneg {A : Type} (f : Q -> A -> Q) (xs : list A) (s : Q) :
  (forall s a, (0 <= s)%Q -> (0 <= f s a)%Q) ->
  (0 <= s)%Q -> (0 <= fold_left f xs s)%Q.
Proof.
  intro Hf. revert s. induction xs as [|x xs IH]; intros s Hs; simpl; auto.
Qed.

Lemma max_nonneg (s w : Q) : (0 <= s)%Q -> (0 <= Qmax s w)%Q.
Proof. intro H. eapply Qle_trans; [exact H | apply Q.le_max_l]. Qed.

Lemma content_step_nonneg kw pc nm (score : Q) (r : Search.SearchResult) :
  (0 <= score)%Q -> (0 <= content_step kw pc nm score r)%Q.
Proof.
  intro H. unfold content_step.
  apply fold_left_nonneg.
  { intros s a Hs. destruct (_ || _); auto using max_nonneg. }
  apply fold_left_nonneg.
  { intros s a Hs. destruct (_ || _); auto using max_nonneg. }
  apply max_nonneg, H.
Qed.

Lemma content_fold_nonneg kw pc nm (rs : list Search.SearchResult) (score : Q) :
  (0 <= score)%Q -> (0 <= fold_left (content_step kw pc nm) rs score)%Q.
Proof.
  revert score. induction rs as [|r rs IH]; intros score H; simpl; trivial.
  apply IH. apply content_step_nonneg. exact H.
Qed.

Lemma tier_step_ok (b : bool) (tiers : Q * Q * Q) (r : Search.SearchResult) :
  tiers_ok b tiers -> tiers_ok true (tier_step tiers r).
Proof.
  destruct tiers as [[t1 t2] t3]. unfold tiers_ok, tier_step.
  intros (H1 & H2 & H3 & _).
  destruct (existsb _ tier1_indicators); [|destruct (existsb _ tier2_indicators)].
  - split; [apply max_nonneg, H1|]. split; [exact H2|]. split; [exact H3|].
    intros _. left. apply Q.le_max_r.
  - split; [exact H1|]. split; [apply max_nonneg, H2|]. split; [exact H3|].
    intros _. right; left. apply Q.le_max_r.
  - split; [exact H1|]. split; [exact H2|]. split; [apply max_nonneg, H3|].
    intros _. right; right. apply Q.le_max_r.
Qed.

Lemma tier_fold_ok (rs : list Search.SearchResult) (b : bool) (tiers : Q * Q * Q) :
  tiers_ok b tiers ->
  tiers_ok (b || FactCheck.nonempty rs) (fold_left tier_step rs tiers).
Proof.
  revert b tiers. induction rs as [|r rs IH]; intros b tiers H; simpl.
  - rewrite orb_false_r. exact H.
  - rewrite orb_true_r. specialize (IH true _ (tier_step_ok b tiers r H)).
    exact IH.
Qed.

(** The shape of the score: 0.1 without results, 0.2 without a relevant
    one, and from 0.6 to 0.95 otherwise. *)
Lemma calculate_confidence_shape (results : list Search.SearchResult) (claim : Claim.t) :
  (results = [] /\ _calculate_confidence results claim = (1 # 10)%Q)
  \/ (results <> []
      /\ _filter_relevant_results results (PyStr.lower (Claim.text claim)) = []
      /\ _calculate_confidence results claim = (2 # 10)%Q)
  \/ (results <> []
      /\ _filter_relevant_results results (PyStr.lower (Claim.text claim)) <> []
      /\ ((6 # 10) <= _calculate_confidence results claim)%Q
      /\ (_calculate_confidence results claim <= (95 # 100))%Q).
Proof.
  unfold _calculate_confidence.
  destruct results as [|r0 results]; [left; split; reflexivity|].
  right.
  destruct (_filter_relevant_results _ _) as [|x rel];
    [left; split; [discriminate | split; reflexivity]|].
  right. split; [discriminate|]. split; [discriminate|].
  set (cms := fold_left _ (x :: rel) (0 # 1)%Q).
  assert (Hc : (0 <= cms)%Q) by (apply content_fold_nonneg; apply Qle_refl).
  clearbody cms.
  pose proof (tier_fold_ok (x :: rel) false (0 # 1, 0 # 1, 0 # 1)%Q) as Ht.
  destruct (fold_left tier_step (x :: rel) (0 # 1, 0 # 1, 0 # 1)%Q) as [[t1 t2] t3].
  simpl in Ht.
  destruct Ht as (H1 & H2 & H3 & Hs).
  { repeat split; try apply Qle_refl. discriminate. }
  specialize (Hs eq_refl).
  set (cons := if 3 <=? _ then _ else _).
  assert (Hk : (0 <= cons)%Q).
  { unfold cons. destruct (3 <=? _); [discriminate|].
    destruct (2 <=? _); discriminate. }
  clearbody cons.
  split; [|apply Q.le_min_r].
  apply Q.min_glb; [|discriminate].
  destruct Hs as [Hs | [Hs | Hs]]; lra.
Qed.

End ScoreFacts.

(** ** Verified claims *)

Section VerifyFacts.
Import FactCheck.
Variable config : Config.t.
Variable backend : Search.Backend.

Lemma verified_confidence (claim : Claim.t) :
  Claim.confidence (_verify_single_claim config backend claim)
  = _calculate_confidence
      (_filter_search_results
         (provider_search config backend (_enhance_search_query (Claim.text claim)))
         (Claim.text claim))
      claim.
Proof. reflexivity. Qed.

(** C2. The confidence of a verified claim lies between 0.1 and 0.95, so it
    is never 1.0; this holds for the claim [_verify_single_claim] returns
    and for every claim of the list [verify_claims] returns. *)
Theorem verified_confidence_bounds (claim : Claim.t) (claims : list Claim.t) :
  let bounded c :=
    ((1 # 10) <= Claim.confidence c)%Q
    /\ (Claim.confidence c <= (95 # 100))%Q
    /\ ~ (Claim.confidence c == (1 # 1))%Q in
  bounded (_verify_single_claim config backend claim)
  /\ Forall bounded (verify_claims config backend claims).
Proof.
  cbv zeta.
  assert (H : forall c,
             ((1 # 10) <= Claim.confidence (_verify_single_claim config backend c))%Q
             /\ (Claim.confidence (_verify_single_claim config backend c) <= (95 # 100))%Q
             /\ ~ (Claim.confidence (_verify_single_claim config backend c) == (1 # 1))%Q).
  { intro c. rewrite verified_confidence.
    destruct (calculate_confidence_shape
                (_filter_search_results
                   (provider_search config backend (_enhance_search_query (Claim.text c)))
                   (Claim.text c)) c)
      as [[_ E] | [(_ & _ & E) | (_ & _ & Hlo & Hhi)]].
    - rewrite E. repeat split; discriminate.
    - rewrite E. repeat split; discriminate.
    - repeat split; lra. }
  split; [apply H|].
  unfold verify_claims. apply Forall_forall. intros v Hin.
  apply in_map_iff in Hin. destruct Hin as [c [<- _]]. apply H.
Qed.

(** C9. The claim returned by single-claim verification has the severity of
    the claim it was given (the text, the sources and the confidence are
    what verification computes); so the list [verify_claims] returns has,
    claim by claim, the severities of the deduplicated input. *)
Theorem verify_preserves_severity (claim : Claim.t) (claims : list Claim.t) :
  Claim.severity (_verify_single_claim config backend claim) = Claim.severity claim
  /\ map Claim.severity (verify_claims config backend claims)
     = map Claim.severity (_deduplicate_claims claims).
Proof.
  split; [reflexivity|].
  unfold verify_claims. rewrite map_map.
  apply map_ext. intro c. reflexivity.
Qed.

Lemma emits_rule_high_confidence (rule : string) (c : Claim.t) :
  ((6 # 10) <= Claim.confidence c)%Q -> emits_rule rule c = false.
Proof.
  intro H. unfold emits_rule, Compliance.claim_confidence_issues.
  assert (H3 : Float.ltb (Claim.confidence c) (3 # 10) = false) by (apply ltb_ge; lra).
  assert (H5 : Float.ltb (Claim.confidence c) (5 # 10) = false) by (apply ltb_ge; lra).
  assert (H6 : Float.ltb (Claim.confidence c) (6 # 10) = false) by (apply ltb_ge; lra).
  assert (H25 : Float.ltb (Claim.confidence c) (25 # 100) = false) by (apply ltb_ge; lra).
  destruct (Claim.severity c); rewrite ?H3, ?H5, ?H6, ?H25; reflexivity.
Qed.

Lemma emits_rule_floor (rule : string) (c : Claim.t) :
  Claim.confidence c = (1 # 10)%Q \/ Claim.confidence c = (2 # 10)%Q ->
  rule <> "low_confidence_claim" -> emits_rule rule c = false.
Proof.
  intros Hc Hr. unfold emits_rule, Compliance.claim_confidence_issues.
  assert (Hn : String.eqb "low_confidence_claim" rule = false).
  { apply String.eqb_neq. congruence. }
  destruct c as [t sev srcs conf]; simpl in *.
  destruct sev; destruct Hc as [-> | ->]; simpl; rewrite ?Hn; reflexivity.
Qed.

(** C10. The score is 0.1, 0.2 or at least 0.6, hence never strictly
    between 0.2 and 0.6; so a claim fresh from verification triggers
    neither the [unsourced_claim] tier (confidence in [0.3, 0.5)) nor the
    [attribution_note] tier. *)
Theorem confidence_gap (results : list Search.SearchResult) (claim : Claim.t) :
  (_calculate_confidence results claim = (1 # 10)%Q
   \/ _calculate_confidence results claim = (2 # 10)%Q
   \/ ((6 # 10) <= _calculate_confidence results claim)%Q)
  /\ ~ ((2 # 10) < _calculate_confidence results claim
        /\ _calculate_confidence results claim < (6 # 10))%Q
  /\ emits_rule "unsourced_claim" (_verify_single_claim config backend claim) = false
  /\ emits_rule "attribution_note" (_verify_single_claim config backend claim) = false.
Proof.
  assert (H : forall rs c,
             _calculate_confidence rs c = (1 # 10)%Q
             \/ _calculate_confidence rs c = (2 # 10)%Q
             \/ ((6 # 10) <= _calculate_confidence rs c)%Q).
  { intros rs c.
    destruct (calculate_confidence_shape rs c)
      as [[_ E] | [(_ & _ & E) | (_ & _ & Hlo & _)]]; auto. }
  split; [apply H|]. split.
  - intros [Hlo Hhi]. destruct (H results claim) as [E | [E | E]].
    + rewrite E in Hlo. revert Hlo. discriminate.
    + rewrite E in Hlo. revert Hlo. discriminate.
    + lra.
  - pose proof (verified_confidence claim) as Hv.
    set (v := _verify_single_claim config backend claim) in *.
    destruct (H (_filter_search_results
                   (provider_search config backend
                      (_enhance_search_query (Claim.text claim)))
                   (Claim.text claim)) claim) as [E | [E | E]];
      rewrite <- Hv in E.
    + split; apply emits_rule_floor; auto; discriminate.
    + split; apply emits_rule_floor; auto; discriminate.
    + split; apply emits_rule_high_confidence; exact E.
Qed.

(** C5, amended. What decides between the two floors is the list that
    [_filter_search_results] keeps, not the raw list: the confidence is 0.1
    when that filter keeps nothing, whether or not the search returned
    anything, and 0.2 when it keeps a result but the scorer finds none of
    the kept results relevant. *)
Theorem floor_confidence (claim : Claim.t) :
  let raw := provider_search config backend (_enhance_search_query (Claim.text claim)) in
  let kept := _filter_search_results raw (Claim.text claim) in
  (kept = [] ->
   Claim.confidence (_verify_single_claim config backend claim) = (1 # 10)%Q)
  /\ (kept <> [] ->
      _filter_relevant_results kept (PyStr.lower (Claim.text claim)) = [] ->
      Claim.confidence (_verify_single_claim config backend claim) = (2 # 10)%Q).
Proof.
  cbv zeta. rewrite verified_confidence.
  set (kept := _filter_search_results _ _).
  unfold _calculate_confidence.
  split.
  - intros ->. reflexivity.
  - intros Hne Hrel. destruct kept as [|k kept]; [congruence|].
    rewrite Hrel. reflexivity.
Qed.

End VerifyFacts.

(** C5, as the spec states it, fails: the search returns a result for the
    claim, no result survives the filter, and the confidence is 0.1, not
    0.2. *)
Lemma raw_result_yet_floor :
  FactCheck.provider_search Sample.standard Sample.fallback_backend
    (FactCheck._enhance_search_query (Claim.text Sample.python_claim))
  = [("Test Result", "https://example.com")]
  /\ FactCheck._filter_search_results
       (FactCheck.provider_search Sample.standard Sample.fallback_backend
          (FactCheck._enhance_search_query (Claim.text Sample.python_claim)))
       (Claim.text Sample.python_claim)
     = []
  /\ Claim.confidence
       (FactCheck._verify_single_claim Sample.standard Sample.fallback_backend
          Sample.python_claim)
     = (1 # 10)%Q
  /\ ~ ((1 # 10) == (2 # 10))%Q.
Proof.
  split; [vm_compute; reflexivity|].
  split; [vm_compute; reflexivity|].
  split; [vm_compute; reflexivity|].
  discriminate.
Qed.

(** The amended statement on that input: the filter keeps nothing. *)
Lemma floor_confidence_witness :
  Claim.confidence
    (FactCheck._verify_single_claim Sample.standard Sample.fallback_backend
       Sample.python_claim)
  = (1 # 10)%Q.
Proof.
  apply (proj1 (floor_confidence Sample.standard Sample.fallback_backend
                  Sample.python_claim)).
  vm_compute. reflexivity.
Defined.

(** ** Deduplication *)

Section DedupFacts.
Import FactCheck.

Lemma dedup_loop_step (claim : Claim.t) (rest unique_claims : list Claim.t)
  (seen : list string) :
  dedup_loop (claim :: rest) unique_claims seen
  = if dedup_accepts seen unique_claims claim
    then dedup_loop rest (unique_claims ++ [claim]) (claim_signature claim :: seen)
    else dedup_loop rest unique_claims seen.
Proof. reflexivity. Qed.

Lemma dedup_accepts_ext (seen seen' : list string) (kept : list Claim.t) (claim : Claim.t) :
  (forall s, PyStr.mem s seen = PyStr.mem s seen') ->
  dedup_accepts seen kept claim = dedup_accepts seen' kept claim.
Proof. intro H. unfold dedup_accepts. rewrite H. reflexivity. Qed.

Lemma seen_matches_nil : seen_matches [] [].
Proof. intro s. reflexivity. Qed.

Lemma seen_matches_snoc (kept : list Claim.t) (seen : list string) (claim : Claim.t) :
  seen_matches kept seen ->
  seen_matches (kept ++ [claim]) (claim_signature claim :: seen).
Proof.
  intros H s. specialize (H s). unfold PyStr.mem in *.
  rewrite map_app, existsb_app. simpl.
  rewrite H, orb_false_r. apply orb_comm.
Qed.


Lemma self_accepting_nil : self_accepting [].
Proof. intros before claim after H. destruct before; discriminate. Qed.

Lemma self_accepting_snoc (kept : list Claim.t) (claim : Claim.t) :
  self_accepting kept ->
  dedup_accepts (map claim_signature kept) kept claim = true ->
  self_accepting (kept ++ [claim]).
Proof.
  intros Hk Hc before c after Heq.
  destruct after as [|x after _] using rev_ind.
  - apply app_inj_tail in Heq. destruct Heq as [<- <-]. exact Hc.
  - change (before ++ c :: after ++ [x]) with (before ++ (c :: after) ++ [x]) in Heq.
    rewrite app_assoc in Heq. apply app_inj_tail in Heq. destruct Heq as [Heq _].
    apply (Hk before c after Heq).
Qed.

Lemma dedup_loop_self_accepting (claims kept : list Claim.t) (seen : list string) :
  seen_matches kept seen -> self_accepting kept ->
  self_accepting (dedup_loop claims kept seen).
Proof.
  revert kept seen. induction claims as [|c claims IH]; intros kept seen Hs Hk.
  - exact Hk.
  - rewrite dedup_loop_step.
    destruct (dedup_accepts seen kept c) eqn:E.
    + apply IH.
      * apply seen_matches_snoc, Hs.
      * apply self_accepting_snoc; trivial.
        rewrite <- (dedup_accepts_ext seen _ kept c Hs). exact E.
    + apply IH; assumption.
Qed.

Lemma dedup_loop_keeps_all (claims kept : list Claim.t) (seen : list string) :
  seen_matches kept seen -> self_accepting (kept ++ claims) ->
  dedup_loop claims kept seen = kept ++ claims.
Proof.
  revert kept seen. induction claims as [|c claims IH]; intros kept seen Hs Hk.
  - simpl. rewrite app_nil_r. reflexivity.
  - rewrite dedup_loop_step.
    rewrite (dedup_accepts_ext seen _ kept c Hs).
    rewrite (Hk kept c claims eq_refl).
    rewrite (IH (kept ++ [c]) (claim_signature c :: seen)).
    + rewrite <- app_assoc. reflexivity.
    + apply seen_matches_snoc, Hs.
    + rewrite <- app_assoc. exact Hk.
Qed.

(** C3. Deduplication is idempotent: run on its own output it returns that
    output unchanged. *)
Theorem deduplicate_idempotent (claims : list Claim.t) :
  _deduplicate_claims (_deduplicate_claims claims) = _deduplicate_claims claims.
Proof.
  unfold _deduplicate_claims at 1.
  apply (dedup_loop_keeps_all (_deduplicate_claims claims) [] []).
  - apply seen_matches_nil.
  - apply dedup_loop_self_accepting.
    + apply seen_matches_nil.
    + apply self_accepting_nil.
Qed.

End DedupFacts.

(** ** Dictionaries *)

Section DictFacts.
Context {V : Type}.

Lemma Platform_eqb_eq (a b : Platform) : Platform_eqb a b = true <-> a = b.
Proof. destruct a, b; simpl; split; congruence. Qed.

Lemma Platform_eqb_refl (a : Platform) : Platform_eqb a a = true.
Proof. destruct a; reflexivity. Qed.

Lemma Platform_eqb_neq (a b : Platform) : Platform_eqb a b = false <-> a <> b.
Proof. destruct a, b; simpl; split; congruence. Qed.

Lemma get_set_same (d : Dict.t V) (k : Platform) (v : V) :
  Dict.get (Dict.set d k v) k = Some v.
Proof.
  induction d as [|[k' v'] d IH]; simpl.
  - rewrite Platform_eqb_refl. reflexivity.
  - destruct (Platform_eqb k' k) eqn:E; simpl.
    + rewrite Platform_eqb_refl. reflexivity.
    + rewrite E. exact IH.
Qed.

Lemma get_set_other (d : Dict.t V) (k k' : Platform) (v : V) :
  k <> k' -> Dict.get (Dict.set d k v) k' = Dict.get d k'.
Proof.
  intro Hne. induction d as [|[k0 v0] d IH]; simpl.
  - apply Platform_eqb_neq in Hne. rewrite Hne. reflexivity.
  - destruct (Platform_eqb k0 k) eqn:E; simpl.
    + apply Platform_eqb_eq in E. subst k0.
      apply Platform_eqb_neq in Hne. rewrite Hne. reflexivity.
    + destruct (Platform_eqb k0 k'); trivial.
Qed.

Lemma get_Some_In_keys (d : Dict.t V) (k : Platform) :
  In k (Dict.keys d) <-> exists v, Dict.get d k = Some v.
Proof.
  induction d as [|[k' v'] d IH]; simpl.
  - split; [tauto | intros [v H]; discriminate].
  - destruct (Platform_eqb k' k) eqn:E.
    + apply Platform_eqb_eq in E. split; eauto.
    + apply Platform_eqb_neq in E. rewrite <- IH. tauto.
Qed.


Lemma keys_set_present (d : Dict.t V) (k : Platform) (v : V) :
  In k (Dict.keys d) -> Dict.keys (Dict.set d k v) = Dict.keys d.
Proof.
  induction d as [|[k' v'] d IH]; simpl; [tauto|].
  destruct (Platform_eqb k' k) eqn:E; simpl.
  - apply Platform_eqb_eq in E. subst. reflexivity.
  - apply Platform_eqb_neq in E. intros [H | H]; [congruence|].
    rewrite (IH H). reflexivity.
Qed.

Lemma keys_set_absent (d : Dict.t V) (k : Platform) (v : V) :
  ~ In k (Dict.keys d) -> Dict.keys (Dict.set d k v) = Dict.keys d ++ [k].
Proof.
  induction d as [|[k' v'] d IH]; simpl; [reflexivity|].
  intro Hn. destruct (Platform_eqb k' k) eqn:E; simpl.
  - apply Platform_eqb_eq in E. tauto.
  - rewrite IH; tauto.
Qed.

Lemma In_keys_dec (d : Dict.t V) (k : Platform) :
  In k (Dict.keys d) \/ ~ In k (Dict.keys d).
Proof.
  destruct (in_dec (fun a b : Platform =>
                      ltac:(decide equality) : {a = b} + {a <> b}) k (Dict.keys d));
    auto.
Qed.

Lemma NoDup_keys_set (d : Dict.t V) (k : Platform) (v : V) :
  NoDup (Dict.keys d) -> NoDup (Dict.keys (Dict.set d k v)).
Proof.
  intro H. destruct (In_keys_dec d k) as [Hin | Hout].
  - rewrite keys_set_present; trivial.
  - rewrite keys_set_absent; trivial.
    apply NoDup_app; [exact H | repeat constructor; simpl; tauto|].
    intros x Hx [<- | []]. tauto.
Qed.

(** With distinct keys, an entry of the updated dictionary is the new one
    or an old one under another key. *)
Lemma In_set_inv (d : Dict.t V) (k : Platform) (v : V) (kv : Platform * V) :
  NoDup (Dict.keys d) -> In kv (Dict.set d k v) ->
  kv = (k, v) \/ (In kv d /\ fst kv <> k).
Proof.
  induction d as [|[k' v'] d IH]; simpl; intros Hnd Hin.
  - destruct Hin as [<- | []]. auto.
  - inversion Hnd as [|? ? Hnotin Hnd']; subst.
    destruct (Platform_eqb k' k) eqn:E.
    + apply Platform_eqb_eq in E. subst k'.
      destruct Hin as [<- | Hin]; auto.
      right. split; auto. intro Hk. apply Hnotin.
      rewrite <- Hk. apply in_map, Hin.
    + apply Platform_eqb_neq in E.
      destruct Hin as [<- | Hin]; [right; split; simpl; auto|].
      destruct (IH Hnd' Hin) as [-> | [H1 H2]]; auto.
Qed.

Lemma Forall_set (P : Platform * V -> Prop) (d : Dict.t V) (k : Platform) (v : V) :
  Forall P d -> P (k, v) -> Forall P (Dict.set d k v).
Proof.
  intros Hd Hv. induction d as [|[k' v'] d IH]; simpl.
  - constructor; trivial.
  - inversion Hd; subst. destruct (Platform_eqb k' k); constructor; auto.
Qed.

End DictFacts.

(** ** A search provider that always fails *)

Section FailingSearch.
Variable config : Config.t.
Variable backend : Search.Backend.
Hypothesis Hfail : search_always_fails backend.

Lemma add_results_failing (n : nat) (results : list Search.SearchResult) (q : string) :
  Search.add_results backend n results q = results.
Proof.
  unfold Search.add_results. destruct Hfail as [Hd _].
  destruct (Hd q n) as [e ->]. reflexivity.
Qed.

Lemma search_duckduckgo_failing (query : string) (n : nat) :
  Search.search_duckduckgo backend query n = [].
Proof.
  unfold Search.search_duckduckgo.
  destruct (Search.DDGS_new backend); [|reflexivity].
  match goal with
  | |- firstn _ (fold_left _ ?qs []) = [] =>
      assert (H : fold_left (Search.add_results backend n) qs [] = [])
  end.
  { match goal with |- fold_left _ ?qs _ = _ => generalize qs end.
    intro qs. induction qs as [|q qs IH]; simpl; trivial.
    rewrite add_results_failing. exact IH. }
  rewrite H. apply firstn_nil.
Qed.

Lemma search_wikipedia_failing (query : string) (n : nat) :
  Search.search_wikipedia config backend query n = [].
Proof.
  unfold Search.search_wikipedia. destruct Hfail as [_ Hw].
  destruct (Search.wikipedia_set_lang backend _); [|reflexivity].
  destruct (Hw query n) as [e ->]. reflexivity.
Qed.

Lemma provider_search_failing (query : string) :
  FactCheck.provider_search config backend query = [].
Proof.
  unfold FactCheck.provider_search.
  destruct (String.eqb _ "wikipedia"); [apply search_wikipedia_failing|].
  destruct (String.eqb _ "serpapi"); apply search_duckduckgo_failing.
Qed.

Lemma verify_single_failing (claim : Claim.t) :
  Claim.confidence (FactCheck._verify_single_claim config backend claim) = (1 # 10)%Q.
Proof.
  rewrite verified_confidence, provider_search_failing. reflexivity.
Qed.

Lemma verify_claims_failing (claims : list Claim.t) :
  Forall (fun c => Claim.confidence c = (1 # 10)%Q)
    (FactCheck.verify_claims config backend claims).
Proof.
  unfold FactCheck.verify_claims. apply Forall_forall. intros v Hin.
  apply in_map_iff in Hin. destruct Hin as [c [<- _]]. apply verify_single_failing.
Qed.

End FailingSearch.

(** ** The workflow nodes *)

Section LoopFacts.

Lemma fold_left_invariant {A B : Type} (P : A -> Prop) (f : A -> B -> A)
  (xs : list B) (a : A) :
  P a -> (forall a x, P a -> P (f a x)) -> P (fold_left f xs a).
Proof.
  intros Ha Hf. revert a Ha. induction xs as [|x xs IH]; intros a Ha; simpl; auto.
Qed.

Lemma for_each_invariant {A S : Type} (P : S -> Prop)
  (body : S -> A -> Graph.Traced S) (xs : list A) (st : S) :
  P st -> (forall s x, P s -> P (fst (body s x))) ->
  P (fst (Graph.for_each xs body st)).
Proof.
  intros Hst Hbody. revert st Hst.
  induction xs as [|x xs IH]; intros st Hst; simpl; trivial.
  unfold Graph.bind. specialize (Hbody st x Hst).
  destruct (body st x) as [s1 t1]. specialize (IH s1 Hbody).
  destruct (Graph.for_each xs body s1) as [s2 t2]. exact IH.
Qed.

Lemma for_each_cons {A S : Type} (body : S -> A -> Graph.Traced S)
  (x : A) (xs : list A) (st : S) :
  Graph.for_each (x :: xs) body st
  = (fst (Graph.for_each xs body (fst (body st x))),
     snd (body st x) ++ snd (Graph.for_each xs body (fst (body st x)))).
Proof.
  simpl. unfold Graph.bind. destruct (body st x) as [s1 t1]. simpl.
  destruct (Graph.for_each xs body s1); reflexivity.
Qed.

Lemma review_calls_app (p : Platform) (t1 t2 : list Graph.Event) :
  Graph.review_calls p (t1 ++ t2) = Graph.review_calls p t1 + Graph.review_calls p t2.
Proof.
  unfold Graph.review_calls. rewrite filter_app. apply length_app.
Qed.

End LoopFacts.

Section FactCheckNode.
Import Graph.

Lemma aggregate_keys (d : Dict.t (list Claim.t)) (acc : list Claim.t * Dict.t nat)
  (k : Platform) :
  In k (Dict.keys d) \/ In k (Dict.keys (snd acc)) ->
  In k (Dict.keys (snd (fold_left aggregate_step d acc))).
Proof.
  revert acc. induction d as [|[k' cs] d IH]; intros [all m] H; simpl in *.
  - tauto.
  - apply IH. simpl.
    destruct H as [[-> | H] | H]; auto; right.
    + apply get_Some_In_keys. eexists. apply get_set_same.
    + destruct (In_keys_dec m k') as [Hin | Hout].
      * rewrite keys_set_present; trivial.
      * rewrite keys_set_absent; trivial. apply in_or_app. auto.
Qed.

Lemma redistribute_errors verified m (st : State) (k : Platform) :
  errors (redistribute verified m st k) = errors st.
Proof.
  unfold redistribute.
  destruct (Dict.get m k); trivial. destruct (Dict.get (claims st) k); reflexivity.
Qed.

Lemma slice_Forall {A : Type} (P : A -> Prop) (xs : list A) (a b : nat) :
  Forall P xs -> Forall P (slice xs a b).
Proof.
  intro H. unfold slice.
  rewrite <- (firstn_skipn a xs) in H. apply Forall_app in H. destruct H as [_ H].
  rewrite <- (firstn_skipn (b - a) (skipn a xs)) in H.
  apply Forall_app in H. tauto.
Qed.

Section Redistribution.
Variable P : Claim.t -> Prop.
Variable verified : list Claim.t.
Variable m : Dict.t nat.
Hypothesis Hverified : Forall P verified.

Lemma redistribute_step (k : Platform) (todo : list Platform) (st : State) :
  ~ In k todo ->
  redistribution_invariant P m (k :: todo) st ->
  redistribution_invariant P m todo (redistribute verified m st k).
Proof.
  intros Hk (Hnd & Hkeys & Hgood).
  destruct (Hkeys k (or_introl eq_refl)) as [Hm Hc].
  apply get_Some_In_keys in Hm. destruct Hm as [i Hi].
  pose proof Hc as Hc'. apply get_Some_In_keys in Hc'. destruct Hc' as [cur Hcur].
  unfold redistribute. rewrite Hi, Hcur.
  unfold redistribution_invariant. simpl.
  split; [apply NoDup_keys_set, Hnd|]. split.
  - intros k' Hk'. rewrite keys_set_present; trivial.
    apply Hkeys. right. exact Hk'.
  - intros kv Hin. apply In_set_inv in Hin; trivial.
    destruct Hin as [-> | [Hin Hne]].
    + right. simpl. apply slice_Forall, Hverified.
    + destruct (Hgood kv Hin) as [[Heq | Ht] | Hp]; auto. congruence.
Qed.

Lemma redistribute_all (todo : list Platform) (st : State) :
  NoDup todo ->
  redistribution_invariant P m todo st ->
  redistribution_invariant P m [] (fold_left (redistribute verified m) todo st).
Proof.
  revert st. induction todo as [|k todo IH]; intros st Hnd Hinv; simpl; trivial.
  inversion Hnd; subst. apply IH; trivial. apply redistribute_step; trivial.
Qed.

End Redistribution.

Variable config : Config.t.
Variable backend : Search.Backend.

(** The verification node records no error of its own. *)
Lemma fact_check_errors (st : State) :
  errors (fact_check config backend st) = errors st.
Proof.
  unfold fact_check, fact_check_with.
  destruct (fold_left aggregate_step (claims st) ([], [])) as [all m].
  apply (fold_left_invariant (fun s => errors s = errors st)); trivial.
  intros s k Hs. rewrite redistribute_errors. exact Hs.
Qed.

Lemma fact_check_drafts (st : State) :
  drafts (fact_check config backend st) = drafts st.
Proof.
  unfold fact_check, fact_check_with.
  destruct (fold_left aggregate_step (claims st) ([], [])) as [all m].
  apply (fold_left_invariant (fun s => drafts s = drafts st)); trivial.
  intros s k Hs. unfold redistribute.
  destruct (Dict.get m k); trivial. destruct (Dict.get (claims s) k); trivial.
Qed.

Lemma fact_check_floor (st : State) :
  search_always_fails backend ->
  NoDup (Dict.keys (claims st)) ->
  claims_at_floor (fact_check config backend st).
Proof.
  intros Hfail Hnd. unfold fact_check, fact_check_with.
  pose proof (fun k => aggregate_keys (claims st) ([], []) k) as Hm.
  destruct (fold_left aggregate_step (claims st) ([], [])) as [all m]. simpl in Hm.
  set (P := fun c : Claim.t => Claim.confidence c = (1 # 10)%Q).
  destruct (redistribute_all P (FactCheck.verify_claims config backend all) m
              (verify_claims_failing config backend Hfail all)
              (Dict.keys (claims st)) st Hnd) as (_ & _ & Hgood).
  { split; [exact Hnd|]. split.
    - intros k Hk. split; auto.
    - intros kv Hin. left. apply in_map, Hin. }
  unfold claims_at_floor. apply Forall_forall. intros kv Hin.
  destruct (Hgood kv Hin) as [[] | H]. exact H.
Qed.

End FactCheckNode.

Section OtherNodes.
Import Graph.
Variable config : Config.t.
Variable backend : Search.Backend.
Variable services : Services.

Lemma generate_posts_NoDup (st : State) :
  NoDup (Dict.keys (drafts (generate_posts services st))).
Proof.
  unfold generate_posts.
  apply (fold_left_invariant (fun s => NoDup (Dict.keys (drafts s)))).
  - simpl. constructor.
  - intros s p Hs. unfold generate_posts_step.
    destruct (llm_invoke services _); [|exact Hs].
    destruct (_parse_json services _) as [| | | | |[|f fs]]; try exact Hs.
    destruct (mentions_of services _); [|exact Hs].
    destruct (make_post services _ _ _); [|exact Hs].
    simpl. apply NoDup_keys_set, Hs.
Qed.

Lemma same_post_refl (post : PlatformPost.t) : same_post post post.
Proof. repeat split. Qed.

Lemma same_drafts_refl (posts : Dict.t PlatformPost.t) : same_drafts posts posts.
Proof.
  induction posts as [|kv posts IH]; constructor; trivial.
  split; [reflexivity | apply same_post_refl].
Qed.

Lemma same_drafts_keys (a b : Dict.t PlatformPost.t) :
  same_drafts a b -> Dict.keys a = Dict.keys b.
Proof.
  induction 1 as [|x y a b [Hk _] _ IH]; [reflexivity|].
  unfold Dict.keys in *. cbn [map]. rewrite Hk, IH. reflexivity.
Qed.

Lemma add_quality_step_same (scores : Json) (p : Platform) (post : PlatformPost.t) :
  same_post post (fst (add_quality_step services scores p post)).
Proof.
  unfold add_quality_step.
  destruct (contains_key services scores _) as [[|]|]; try apply same_post_refl.
  destruct scores; try apply same_post_refl.
  destruct (PyJson.obj_get fields _) as [[]|]; try apply same_post_refl;
    repeat split.
Qed.

Lemma add_quality_same (scores : Json) (posts : Dict.t PlatformPost.t) :
  same_drafts posts (fst (add_quality services scores posts)).
Proof.
  induction posts as [|[p post] posts IH]; [constructor|].
  cbn [add_quality].
  pose proof (add_quality_step_same scores p post) as Hs.
  destruct (add_quality_step services scores p post) as [post' [e|]]; cbn [fst] in *.
  - constructor; [split; [reflexivity|exact Hs] | apply same_drafts_refl].
  - destruct (add_quality services scores posts) as [rest failure]; cbn [fst] in *.
    constructor; [split; [reflexivity|exact Hs] | exact IH].
Qed.

Lemma analyze_embeddings_fields (st : State) :
  same_drafts (drafts st) (drafts (analyze_embeddings services st))
  /\ claims (analyze_embeddings services st) = claims st.
Proof.
  unfold analyze_embeddings.
  destruct (text st); [split; [apply same_drafts_refl|reflexivity]|].
  remember (drafts st) as posts eqn:E.
  destruct posts as [|kv posts].
  { split; [cbn [drafts set_embedding_analysis]; rewrite <- E; constructor|reflexivity]. }
  destruct (analyze_content_embeddings services _ _ _) as [results|e].
  2: { split; [cbn; rewrite <- E; apply same_drafts_refl|reflexivity]. }
  destruct (PyJson.obj_get results _) as [scores|].
  2: { split; [cbn; rewrite <- E; apply same_drafts_refl|reflexivity]. }
  cbn [drafts set_embedding_analysis]. rewrite <- E.
  pose proof (add_quality_same scores (kv :: posts)) as Hs.
  destruct (add_quality services scores (kv :: posts)) as [posts' [e|]];
    (split; [exact Hs|reflexivity]).
Qed.

Lemma extract_claims_fields (st : State) :
  drafts (extract_claims services st) = drafts st
  /\ NoDup (Dict.keys (claims (extract_claims services st))).
Proof.
  unfold extract_claims.
  apply (fold_left_invariant
           (fun s => drafts s = drafts st /\ NoDup (Dict.keys (claims s)))).
  - simpl. split; [reflexivity | constructor].
  - intros s kv [Hd Hn]. unfold extract_claims_step.
    destruct (llm_invoke services _).
    + destruct (_parse_json services _) as [| | | | [|j js] |];
        try (split; [exact Hd | apply NoDup_keys_set, Hn]).
      destruct (claims_of services (j :: js));
        (split; [exact Hd | apply NoDup_keys_set, Hn]).
    + split; [exact Hd | apply NoDup_keys_set, Hn].
Qed.

(** The drafts the compliance node sees are those [generate_posts] built,
    with the metadata the embedding node added. *)
Lemma before_compliance_drafts (st : State) :
  same_drafts
    (drafts (generate_posts services (extract_key_points services st)))
    (drafts (before_compliance config backend services st)).
Proof.
  unfold before_compliance.
  rewrite fact_check_drafts.
  rewrite (proj1 (extract_claims_fields _)).
  apply (proj1 (analyze_embeddings_fields _)).
Qed.

Lemma before_compliance_NoDup (st : State) :
  NoDup (Dict.keys (drafts (before_compliance config backend services st))).
Proof.
  rewrite <- (same_drafts_keys _ _ (before_compliance_drafts st)).
  apply generate_posts_NoDup.
Qed.

Lemma before_compliance_floor (st : State) :
  search_always_fails backend ->
  claims_at_floor (before_compliance config backend services st).
Proof.
  intro Hfail. unfold before_compliance.
  apply fact_check_floor; trivial. apply extract_claims_fields.
Qed.

(** One turn of the loop of [compliance]. *)
Lemma compliance_claims (st : State) :
  claims (fst (compliance config st)) = claims st
  /\ drafts (fst (compliance config st)) = drafts st
  /\ errors (fst (compliance config st)) = errors st.
Proof.
  unfold compliance.
  apply (for_each_invariant
           (fun s => claims s = claims st /\ drafts s = drafts st /\ errors s = errors st));
    [simpl; auto|].
  intros s kv H. exact H.
Qed.

Lemma remediate_one_claims (st : State) (p : Platform) (review : PostReview.t) :
  claims (fst (remediate_one config services st p review)) = claims st.
Proof.
  unfold remediate_one.
  destruct (Dict.get (drafts st) p); [|reflexivity].
  destruct (llm_invoke services _); reflexivity.
Qed.

Lemma remediate_claims (st : State) :
  claims (fst (remediate_if_blocked config services st)) = claims st.
Proof.
  unfold remediate_if_blocked.
  apply (for_each_invariant (fun s => claims s = claims st)); trivial.
  intros s kv Hs. unfold remediate_step.
  destruct (PostReview.status (snd kv)); trivial.
  rewrite remediate_one_claims. exact Hs.
Qed.

Lemma schedule_claims (st : State) : claims (schedule services st) = claims st.
Proof.
  unfold schedule. destruct (suggest_times services _ _ _); reflexivity.
Qed.

Lemma run_graph_unfold (st : State) :
  run_graph config backend services st
  = let pre := before_compliance config backend services st in
    let first := compliance config pre in
    let second := remediate_if_blocked config services (fst first) in
    (schedule services (fst second), snd first ++ snd second).
Proof.
  unfold run_graph, bind, ret. cbv zeta.
  destruct (compliance config _) as [s1 t1]. simpl.
  destruct (remediate_if_blocked config services s1) as [s2 t2]. simpl.
  rewrite app_nil_r. reflexivity.
Qed.

(** C6, amended. When the search provider fails on every call, every claim
    of the final state has confidence exactly 0.1; the search functions
    catch the failure, so the verification node itself adds nothing to
    [errors], whatever the state it runs on. *)
Theorem failing_search_floor (st0 st : State) :
  search_always_fails backend ->
  claims_at_floor (fst (run_graph config backend services st0))
  /\ errors (fact_check config backend st) = errors st.
Proof.
  intro Hfail. split; [|apply fact_check_errors].
  rewrite run_graph_unfold. cbv zeta. cbn [fst].
  unfold claims_at_floor.
  rewrite schedule_claims, remediate_claims, (proj1 (compliance_claims _)).
  apply before_compliance_floor, Hfail.
Qed.

End OtherNodes.

(** ** A node whose work raises *)

Section FailingNodes.
Import Graph.
Variable config : Config.t.
Variable services : Services.


Lemma records_here (s s' : State) (msg : string) :
  errors s' = errors s ++ [msg] -> records s s' msg.
Proof. intro H. exists [], []. exact H. Qed.

Lemma records_later (s s1 s2 : State) (msg : string) :
  records s s1 msg -> (exists added, errors s2 = errors s1 ++ added) -> records s s2 msg.
Proof.
  intros (before & after & H) (added & H2). exists before, (after ++ added).
  rewrite H2, H, <- !app_assoc. reflexivity.
Qed.

Lemma records_earlier (s s1 s2 : State) (msg : string) :
  (exists added, errors s1 = errors s ++ added) -> records s1 s2 msg -> records s s2 msg.
Proof.
  intros (added & H1) (before & after & H). exists (added ++ before), after.
  rewrite H, H1, <- !app_assoc. reflexivity.
Qed.

Lemma get_In_NoDup {V : Type} (d : Dict.t V) (k : Platform) (v : V) :
  NoDup (Dict.keys d) -> In (k, v) d -> Dict.get d k = Some v.
Proof.
  induction d as [|[k' v'] d IH]; intros Hnd Hin; [destruct Hin|].
  unfold Dict.keys in Hnd. cbn [map fst] in Hnd.
  inversion Hnd as [|? ? Hq Hnd']; subst. cbn [Dict.get].
  destruct Hin as [E|Hin].
  - injection E as -> ->. rewrite Platform_eqb_refl. reflexivity.
  - destruct (Platform_eqb k' k) eqn:E.
    + apply Platform_eqb_eq in E. subst k'. exfalso. apply Hq.
      apply (in_map fst) in Hin. exact Hin.
    + apply IH; trivial.
Qed.

(** *** [generate_posts] *)

Lemma generate_step_frame (cs : string) (s : State) (q : Platform) :
  topic_hint (generate_posts_step services cs s q) = topic_hint s
  /\ (exists added, errors (generate_posts_step services cs s q) = errors s ++ added)
  /\ (forall p, p <> q ->
        Dict.get (drafts (generate_posts_step services cs s q)) p = Dict.get (drafts s) p).
Proof.
  unfold generate_posts_step.
  assert (Hkeep : forall msg,
             topic_hint (add_error s msg) = topic_hint s
             /\ (exists added, errors (add_error s msg) = errors s ++ added)
             /\ (forall p, p <> q ->
                   Dict.get (drafts (add_error s msg)) p = Dict.get (drafts s) p)).
  { intro msg. split; [reflexivity|]. split; [eexists; reflexivity|]. reflexivity. }
  destruct (llm_invoke services _); [|apply Hkeep].
  destruct (_parse_json services _) as [| | | | |[|f fs]]; try apply Hkeep.
  destruct (mentions_of services _); [|apply Hkeep].
  destruct (make_post services _ _ _); [|apply Hkeep].
  split; [reflexivity|]. split; [exists []; symmetry; apply app_nil_r|].
  intros p Hp. cbn [drafts set_drafts]. apply get_set_other. congruence.
Qed.

Lemma generate_step_raises (st s : State) (p : Platform) (e : string) :
  generation_raises services st p e ->
  topic_hint s = topic_hint st ->
  generate_posts_step services (content_source services st) s p
  = add_error s (Platform_str p @@ " post generation failed: " @@ e).
Proof.
  unfold generation_raises, generate_posts_step. cbv zeta. intros H Hh. rewrite Hh.
  destruct H as [-> | (content & parsed & -> & -> & Hne & H)]; [reflexivity|].
  destruct parsed as [|f fs]; [contradiction|].
  destruct (mentions_of services _) as [raw|e']; [rewrite H|subst e']; reflexivity.
Qed.

Lemma generate_loop_skips (cs : string) (p : Platform) (ps : list Platform) (s : State) :
  ~ In p ps ->
  topic_hint (fold_left (generate_posts_step services cs) ps s) = topic_hint s
  /\ (exists added,
        errors (fold_left (generate_posts_step services cs) ps s) = errors s ++ added)
  /\ Dict.get (drafts (fold_left (generate_posts_step services cs) ps s)) p
     = Dict.get (drafts s) p.
Proof.
  revert s. induction ps as [|q ps IH]; intros s Hout.
  - split; [reflexivity|]. split; [exists []; symmetry; apply app_nil_r|reflexivity].
  - cbn [fold_left].
    destruct (generate_step_frame cs s q) as (F1 & (a1 & F2) & F3).
    destruct (IH (generate_posts_step services cs s q)) as (I1 & (a2 & I2) & I3).
    { intro H. apply Hout. right. exact H. }
    split; [congruence|]. split.
    + exists (a1 ++ a2). rewrite I2, F2, app_assoc. reflexivity.
    + rewrite I3. apply F3. intro E. apply Hout. left. congruence.
Qed.

Lemma generate_loop_raises (st : State) (p : Platform) (e : string)
    (ps : list Platform) (s : State) :
  generation_raises services st p e ->
  NoDup ps -> In p ps ->
  topic_hint s = topic_hint st ->
  Dict.get (drafts s) p = None ->
  Dict.get (drafts (fold_left (generate_posts_step services (content_source services st))
                      ps s)) p = None
  /\ records s (fold_left (generate_posts_step services (content_source services st)) ps s)
       (Platform_str p @@ " post generation failed: " @@ e).
Proof.
  intro Hr. revert s. induction ps as [|q ps IH]; intros s Hnd Hin Hh Hget; [destruct Hin|].
  inversion Hnd as [|? ? Hq Hnd']; subst. cbn [fold_left].
  destruct Hin as [->|Hin].
  - rewrite (generate_step_raises st s p e Hr Hh).
    destruct (generate_loop_skips (content_source services st) p ps
                (add_error s (Platform_str p @@ " post generation failed: " @@ e)) Hq)
      as (_ & Ha & Hd).
    split; [rewrite Hd; exact Hget|].
    eapply records_later; [|exact Ha]. apply records_here. reflexivity.
  - destruct (generate_step_frame (content_source services st) s q) as (F1 & F2 & F3).
    destruct (IH (generate_posts_step services (content_source services st) s q))
      as (I1 & I2); trivial.
    + congruence.
    + rewrite F3; [exact Hget|]. intros ->. contradiction.
    + split; [exact I1|]. eapply records_earlier; [exact F2|exact I2].
Qed.

(** *** [extract_claims] *)

Lemma extract_step_frame (t : string) (s : State) (kv : Platform * PlatformPost.t) :
  (exists added, errors (extract_claims_step services t s kv) = errors s ++ added)
  /\ (forall p, p <> fst kv ->
        Dict.get (claims (extract_claims_step services t s kv)) p
        = Dict.get (claims s) p).
Proof.
  unfold extract_claims_step. cbv zeta.
  assert (Hput : forall cs,
            (exists added,
               errors (set_claims s (Dict.set (claims s) (fst kv) cs)) = errors s ++ added)
            /\ (forall p, p <> fst kv ->
                  Dict.get (claims (set_claims s (Dict.set (claims s) (fst kv) cs))) p
                  = Dict.get (claims s) p)).
  { intro cs. split; [exists []; symmetry; apply app_nil_r|].
    intros p Hp. cbn [claims set_claims]. apply get_set_other. congruence. }
  assert (Hfail : forall msg,
            (exists added,
               errors (set_claims (add_error s msg) (Dict.set (claims s) (fst kv) []))
               = errors s ++ added)
            /\ (forall p, p <> fst kv ->
                  Dict.get (claims (set_claims (add_error s msg)
                                      (Dict.set (claims s) (fst kv) []))) p
                  = Dict.get (claims s) p)).
  { intro msg. split; [eexists; reflexivity|].
    intros p Hp. cbn [claims set_claims]. apply get_set_other. congruence. }
  destruct (llm_invoke services _); [|apply Hfail].
  destruct (_parse_json services _) as [| | | | [|j js] |]; try apply Hput.
  destruct (claims_of services _); [apply Hput|apply Hfail].
Qed.

Lemma extract_step_raises (t : string) (s : State) (p : Platform) (post : PlatformPost.t)
    (e : string) :
  extraction_raises services t post e ->
  extract_claims_step services t s (p, post)
  = set_claims
      (add_error s ("Claim extraction failed for " @@ Platform_str p @@ ": " @@ e))
      (Dict.set (claims s) p []).
Proof.
  unfold extraction_raises, extract_claims_step. cbv zeta. cbn [fst snd].
  intros [-> | (content & parsed & -> & -> & Hne & ->)]; [reflexivity|].
  destruct parsed; [contradiction|reflexivity].
Qed.

Lemma extract_loop_skips (t : string) (p : Platform) (ds : Dict.t PlatformPost.t)
    (s : State) :
  ~ In p (Dict.keys ds) ->
  (exists added, errors (fold_left (extract_claims_step services t) ds s) = errors s ++ added)
  /\ Dict.get (claims (fold_left (extract_claims_step services t) ds s)) p
     = Dict.get (claims s) p.
Proof.
  revert s. induction ds as [|kv ds IH]; intros s Hout.
  - split; [exists []; symmetry; apply app_nil_r|reflexivity].
  - cbn [fold_left].
    destruct (extract_step_frame t s kv) as ((a1 & F2) & F3).
    destruct (IH (extract_claims_step services t s kv)) as ((a2 & I2) & I3).
    { intro H. apply Hout. right. exact H. }
    split.
    + exists (a1 ++ a2). rewrite I2, F2, app_assoc. reflexivity.
    + rewrite I3. apply F3. intro E. apply Hout. left. congruence.
Qed.

Lemma extract_loop_raises (t : string) (p : Platform) (post : PlatformPost.t) (e : string)
    (ds : Dict.t PlatformPost.t) (s : State) :
  extraction_raises services t post e ->
  NoDup (Dict.keys ds) -> In (p, post) ds ->
  Dict.get (claims (fold_left (extract_claims_step services t) ds s)) p = Some []
  /\ records s (fold_left (extract_claims_step services t) ds s)
       ("Claim extraction failed for " @@ Platform_str p @@ ": " @@ e).
Proof.
  intro Hr. revert s. induction ds as [|kv ds IH]; intros s Hnd Hin; [destruct Hin|].
  unfold Dict.keys in Hnd. cbn [map] in Hnd.
  inversion Hnd as [|? ? Hq Hnd']; subst. cbn [fold_left].
  destruct Hin as [->|Hin].
  - rewrite (extract_step_raises t s p post e Hr).
    match goal with
    | |- context [fold_left _ ds ?s1] =>
        destruct (extract_loop_skips t p ds s1 Hq) as (Ha & Hd)
    end.
    split.
    + rewrite Hd. cbn [claims set_claims]. apply get_set_same.
    + eapply records_later; [|exact Ha]. apply records_here. reflexivity.
  - destruct (extract_step_frame t s kv) as (F2 & F3).
    destruct (IH (extract_claims_step services t s kv) Hnd' Hin) as (I1 & I2).
    split; [exact I1|]. eapply records_earlier; [exact F2|exact I2].
Qed.

(** *** [remediate_if_blocked] *)

Lemma review_calls_other (p q : Platform) (text : string) :
  p <> q -> review_calls p [ReviewCall q text] = 0.
Proof.
  intro H. unfold review_calls. cbn [filter].
  apply not_eq_sym in H. apply Platform_eqb_neq in H. rewrite H. reflexivity.
Qed.

Lemma remediate_step_frame (s : State) (kv : Platform * PostReview.t) :
  (exists added,
     errors (fst (remediate_step config services s kv)) = errors s ++ added)
  /\ (forall p, p <> fst kv ->
        Dict.get (reviews (fst (remediate_step config services s kv))) p
        = Dict.get (reviews s) p
        /\ Dict.get (drafts (fst (remediate_step config services s kv))) p
           = Dict.get (drafts s) p
        /\ review_calls p (snd (remediate_step config services s kv)) = 0).
Proof.
  assert (Hsame : (exists added, errors s = errors s ++ added)
                  /\ (forall p, p <> fst kv ->
                        Dict.get (reviews s) p = Dict.get (reviews s) p
                        /\ Dict.get (drafts s) p = Dict.get (drafts s) p
                        /\ review_calls p [] = 0)).
  { split; [exists []; symmetry; apply app_nil_r|]. repeat split. }
  assert (Hfail : forall msg,
            (exists added, errors (add_error s msg) = errors s ++ added)
            /\ (forall p, p <> fst kv ->
                  Dict.get (reviews (add_error s msg)) p = Dict.get (reviews s) p
                  /\ Dict.get (drafts (add_error s msg)) p = Dict.get (drafts s) p
                  /\ review_calls p [] = 0)).
  { intro msg. split; [eexists; reflexivity|]. repeat split. }
  unfold remediate_step. destruct (PostReview.status (snd kv)); try exact Hsame.
  unfold remediate_one. cbv zeta.
  destruct (Dict.get (drafts s) (fst kv)) as [post|]; [|apply Hfail].
  destruct (llm_invoke services _); [|apply Hfail].
  cbn [call_review_post bind ret fst snd app reviews drafts errors set_reviews set_drafts].
  split; [exists []; symmetry; apply app_nil_r|].
  intros p Hp. split; [apply get_set_other; congruence|].
  split; [apply get_set_other; congruence|].
  apply review_calls_other. exact Hp.
Qed.

Lemma remediate_loop_skips (p : Platform) (rs : Dict.t PostReview.t) (s : State) :
  ~ In p (Dict.keys rs) ->
  (exists added,
     errors (fst (for_each rs (remediate_step config services) s)) = errors s ++ added)
  /\ Dict.get (reviews (fst (for_each rs (remediate_step config services) s))) p
     = Dict.get (reviews s) p
  /\ Dict.get (drafts (fst (for_each rs (remediate_step config services) s))) p
     = Dict.get (drafts s) p
  /\ review_calls p (snd (for_each rs (remediate_step config services) s)) = 0.
Proof.
  revert s. induction rs as [|kv rs IH]; intros s Hout.
  - split; [exists []; symmetry; apply app_nil_r|]. repeat split.
  - rewrite for_each_cons. cbn [fst snd].
    destruct (remediate_step_frame s kv) as ((a1 & F1) & F2).
    destruct (F2 p) as (G1 & G2 & G3).
    { intro E. apply Hout. left. congruence. }
    destruct (IH (fst (remediate_step config services s kv)))
      as ((a2 & I1) & I2 & I3 & I4).
    { intro H. apply Hout. right. exact H. }
    split; [exists (a1 ++ a2); rewrite I1, F1, app_assoc; reflexivity|].
    split; [congruence|]. split; [congruence|].
    rewrite review_calls_app, G3, I4. reflexivity.
Qed.

Lemma remediate_step_raises (st s : State) (p : Platform) (review : PostReview.t)
    (e : string) :
  PostReview.status review = block ->
  rewrite_raises services st p review e ->
  Dict.get (drafts s) p = Dict.get (drafts st) p ->
  remediate_step config services s (p, review)
  = (add_error s ("Remediation failed for " @@ Platform_str p @@ ": " @@ e), []).
Proof.
  unfold rewrite_raises, remediate_step, remediate_one. cbv zeta. cbn [fst snd].
  intros -> H ->.
  destruct (Dict.get (drafts st) p) as [post|]; [rewrite H|subst e]; reflexivity.
Qed.

Lemma remediate_loop_raises (st : State) (p : Platform) (review : PostReview.t)
    (e : string) (rs : Dict.t PostReview.t) (s : State) :
  PostReview.status review = block ->
  rewrite_raises services st p review e ->
  NoDup (Dict.keys rs) -> In (p, review) rs ->
  Dict.get (drafts s) p = Dict.get (drafts st) p ->
  Dict.get (reviews (fst (for_each rs (remediate_step config services) s))) p
  = Dict.get (reviews s) p
  /\ Dict.get (drafts (fst (for_each rs (remediate_step config services) s))) p
     = Dict.get (drafts st) p
  /\ records s (fst (for_each rs (remediate_step config services) s))
       ("Remediation failed for " @@ Platform_str p @@ ": " @@ e)
  /\ review_calls p (snd (for_each rs (remediate_step config services) s)) = 0.
Proof.
  intros Hb Hr. revert s. induction rs as [|kv rs IH]; intros s Hnd Hin Hd; [destruct Hin|].
  unfold Dict.keys in Hnd. cbn [map] in Hnd.
  inversion Hnd as [|? ? Hq Hnd']; subst. rewrite for_each_cons. cbn [fst snd].
  destruct Hin as [->|Hin].
  - rewrite (remediate_step_raises st s p review e Hb Hr Hd). cbn [fst snd app].
    match goal with
    | |- context [for_each rs _ ?s1] =>
        destruct (remediate_loop_skips p rs s1 Hq) as (Ha & H1 & H2 & H3)
    end.
    split; [rewrite H1; reflexivity|]. split; [rewrite H2; exact Hd|].
    split; [|exact H3].
    eapply records_later; [|exact Ha]. apply records_here. reflexivity.
  - assert (Hne : p <> fst kv).
    { intros ->. apply Hq. apply (in_map fst) in Hin. exact Hin. }
    destruct (remediate_step_frame s kv) as (F1 & F2).
    destruct (F2 p Hne) as (G1 & G2 & G3).
    destruct (IH (fst (remediate_step config services s kv)) Hnd' Hin)
      as (I1 & I2 & I3 & I4); [congruence|].
    split; [congruence|]. split; [exact I2|].
    split; [eapply records_earlier; [exact F1|exact I3]|].
    rewrite review_calls_app, G3, I4. reflexivity.
Qed.


(** C7, amended. When the work of a node raises, the node appends the text
    of the exception, after a prefix naming the node, to [errors].
    [extract_key_points] and [schedule] then reset their field to the empty
    list.  [generate_posts], [extract_claims] and [remediate_if_blocked]
    catch the exception platform by platform: the platform whose work
    raises gets no draft, an empty claim list, or keeps its blocked review
    and its draft without a further call of the compliance engine, whatever
    happens to the other platforms.  The embedding node stores an error
    record in [embedding_analysis] and leaves the drafts as they are up to
    the metadata already written; [fact_check] leaves [claims] as it found
    it. *)
Theorem node_failure (st : State) (e : string) :
  (text st <> EmptyString ->
   chat_completion services (KEYPOINTS_PROMPT_format services (PyStr.strip (text st)))
   = Raised e ->
   extract_key_points services st
   = set_key_points (add_error st ("Key points extraction failed: " @@ e)) [])
  /\ (forall p,
        generation_raises services st p e ->
        Dict.get (drafts (generate_posts services st)) p = None
        /\ records st (generate_posts services st)
             (Platform_str p @@ " post generation failed: " @@ e))
  /\ (text st <> EmptyString -> drafts st <> [] ->
      (analyze_content_embeddings services (text st) (key_points st)
         (map (fun kv => (Platform_str (fst kv), snd kv)) (drafts st))
       = Raised e ->
       analyze_embeddings services st
       = set_embedding_analysis
           (add_error st ("Embedding analysis failed: " @@ e)) (error_record e))
      /\ (forall results scores posts,
            analyze_content_embeddings services (text st) (key_points st)
              (map (fun kv => (Platform_str (fst kv), snd kv)) (drafts st))
            = Ok results ->
            PyJson.obj_get results "quality_scores" = Some scores ->
            add_quality services scores (drafts st) = (posts, Some e) ->
            same_drafts (drafts st) posts
            /\ analyze_embeddings services st
               = set_embedding_analysis
                   (add_error (set_drafts st posts) ("Embedding analysis failed: " @@ e))
                   (error_record e)))
  /\ (NoDup (Dict.keys (drafts st)) ->
      forall p post,
        In (p, post) (drafts st) ->
        extraction_raises services (text st) post e ->
        Dict.get (claims (extract_claims services st)) p = Some []
        /\ records st (extract_claims services st)
             ("Claim extraction failed for " @@ Platform_str p @@ ": " @@ e))
  /\ (forall verify,
        verify (fst (fold_left aggregate_step (claims st) ([], []))) = Raised e ->
        fact_check_with verify st
        = add_error st ("Unified fact-checking failed: " @@ e))
  /\ (NoDup (Dict.keys (reviews st)) ->
      forall p review,
        In (p, review) (reviews st) ->
        PostReview.status review = block ->
        rewrite_raises services st p review e ->
        Dict.get (reviews (fst (remediate_if_blocked config services st))) p = Some review
        /\ Dict.get (drafts (fst (remediate_if_blocked config services st))) p
           = Dict.get (drafts st) p
        /\ records st (fst (remediate_if_blocked config services st))
             ("Remediation failed for " @@ Platform_str p @@ ": " @@ e)
        /\ review_calls p (snd (remediate_if_blocked config services st)) = 0)
  /\ (suggest_times services (Dict.keys (drafts st)) (text st) (hint_of st) = Raised e ->
      schedule services st
      = set_timings (add_error st ("Context-aware scheduling failed: " @@ e)) []).
Proof.
  split; [|split; [|split; [|split; [|split; [|split]]]]].
  - intros Ht Hc. unfold extract_key_points.
    destruct (String.eqb (text st) EmptyString) eqn:E.
    + apply String.eqb_eq in E. contradiction.
    + rewrite Hc. reflexivity.
  - intros p Hr. unfold generate_posts. cbv zeta.
    change (content_source services (set_drafts st [])) with (content_source services st).
    assert (Hnd : NoDup [twitter; linkedin; instagram])
      by (repeat constructor; simpl; intuition discriminate).
    assert (Hin : In p [twitter; linkedin; instagram]) by (destruct p; simpl; auto).
    apply (generate_loop_raises st p e [twitter; linkedin; instagram]
             (set_drafts st []) Hr Hnd Hin eq_refl eq_refl).
  - intros Ht Hd. split.
    + intro Ha. unfold analyze_embeddings.
      destruct (text st); [contradiction|].
      destruct (drafts st); [contradiction|].
      rewrite Ha. reflexivity.
    + intros results scores posts Ha Hs Hq.
      split.
      * pose proof (add_quality_same services scores (drafts st)) as H.
        rewrite Hq in H. exact H.
      * unfold analyze_embeddings.
        destruct (text st); [contradiction|].
        destruct (drafts st) eqn:D; [contradiction|].
        rewrite Ha, Hs. cbn [drafts set_embedding_analysis]. rewrite D, Hq. reflexivity.
  - intros Hnd p post Hin Hr. unfold extract_claims. cbv zeta.
    destruct (extract_loop_raises (text (set_claims st [])) p post e
                (drafts (set_claims st [])) (set_claims st []) Hr Hnd Hin) as [H1 H2].
    split; [exact H1|exact H2].
  - intros verify Hv. unfold fact_check_with.
    destruct (fold_left aggregate_step (claims st) ([], [])) as [all m].
    cbn [fst] in Hv. rewrite Hv. reflexivity.
  - intros Hnd p review Hin Hb Hr. unfold remediate_if_blocked.
    destruct (remediate_loop_raises st p review e (reviews st) st Hb Hr Hnd Hin eq_refl)
      as (H1 & H2 & H3 & H4).
    split; [|split; [exact H2|split; [exact H3|exact H4]]].
    rewrite H1. apply get_In_NoDup; trivial.
  - intro Hs. unfold schedule. cbv zeta. fold (hint_of st). rewrite Hs. reflexivity.
Qed.

End FailingNodes.

(** ** Counting the calls of the compliance engine *)

Section ReviewCalls.
Import Graph.
Variable config : Config.t.
Variable backend : Search.Backend.
Variable services : Services.

Lemma compliance_step_trace (s : State) (kv : Platform * PlatformPost.t) :
  snd (compliance_step config s kv)
  = [ReviewCall (fst kv) (PlatformPost.primary_text (snd kv))].
Proof. reflexivity. Qed.

Lemma compliance_step_reviews (s : State) (kv : Platform * PlatformPost.t) :
  exists review,
    reviews (fst (compliance_step config s kv)) = Dict.set (reviews s) (fst kv) review.
Proof. eexists. reflexivity. Qed.

Lemma compliance_loop_calls (p : Platform) (ds : Dict.t PlatformPost.t) (s : State) :
  review_calls p (snd (for_each ds (compliance_step config) s))
  = List.length (filter (fun kv => Platform_eqb (fst kv) p) ds).
Proof.
  revert s. induction ds as [|kv ds IH]; intro s; [reflexivity|].
  rewrite for_each_cons. cbn [snd]. rewrite review_calls_app, IH.
  rewrite compliance_step_trace. unfold review_calls. simpl.
  destruct (Platform_eqb (fst kv) p); reflexivity.
Qed.

Lemma count_key_NoDup {V : Type} (p : Platform) (d : Dict.t V) :
  NoDup (Dict.keys d) ->
  List.length (filter (fun kv => Platform_eqb (fst kv) p) d)
  = match Dict.get d p with Some _ => 1 | None => 0 end.
Proof.
  induction d as [|[k v] d IH]; intro Hnd; [reflexivity|].
  inversion Hnd as [|? ? Hout Hnd']; subst. simpl.
  destruct (Platform_eqb k p) eqn:E; simpl.
  - apply Platform_eqb_eq in E. subst k.
    rewrite (IH Hnd'). destruct (Dict.get d p) eqn:G; trivial.
    exfalso. apply Hout. apply get_Some_In_keys. eauto.
  - apply IH, Hnd'.
Qed.

Lemma compliance_loop_reviews (ds : Dict.t PlatformPost.t) (s : State) :
  let r := reviews (fst (for_each ds (compliance_step config) s)) in
  (NoDup (Dict.keys (reviews s)) -> NoDup (Dict.keys r))
  /\ (forall p, In p (Dict.keys r) <-> In p (Dict.keys ds) \/ In p (Dict.keys (reviews s))).
Proof.
  revert s. induction ds as [|kv ds IH]; intro s; cbv zeta.
  - simpl. split; [auto | intro p; tauto].
  - rewrite for_each_cons. cbn [fst].
    destruct (compliance_step_reviews s kv) as [review Hr].
    destruct (IH (fst (compliance_step config s kv))) as [IH1 IH2].
    rewrite Hr in IH1, IH2. split.
    + intro Hnd. apply IH1, NoDup_keys_set, Hnd.
    + intro p. rewrite IH2. simpl.
      destruct (In_keys_dec (reviews s) (fst kv)) as [Hin | Hout].
      * rewrite keys_set_present; trivial.
        split; [tauto|]. intros [[<- | H] | H]; auto.
      * rewrite keys_set_absent; trivial. rewrite in_app_iff. simpl. tauto.
Qed.

Lemma remediate_step_trace (s : State) (kv : Platform * PostReview.t) :
  snd (remediate_step config services s kv)
  = if is_block (PostReview.status (snd kv))
       && rewrite_arrives services s (fst kv) (snd kv)
    then [ReviewCall (fst kv)
            (match Dict.get (drafts s) (fst kv) with
             | Some post =>
                 match llm_invoke services (edit_prompt services (snd kv) post) with
                 | Ok content => PyStr.strip content
                 | Raised _ => EmptyString
                 end
             | None => EmptyString
             end)]
    else [].
Proof.
  unfold remediate_step, rewrite_arrives, remediate_one.
  destruct (PostReview.status (snd kv)); simpl; trivial.
  destruct (Dict.get (drafts s) (fst kv)); simpl; trivial.
  destruct (llm_invoke services _); reflexivity.
Qed.

Lemma remediate_step_drafts (s : State) (kv : Platform * PostReview.t) (p : Platform) :
  fst kv <> p ->
  Dict.get (drafts (fst (remediate_step config services s kv))) p
  = Dict.get (drafts s) p.
Proof.
  intro Hne. unfold remediate_step, remediate_one.
  destruct (PostReview.status (snd kv)); simpl; trivial.
  destruct (Dict.get (drafts s) (fst kv)); simpl; trivial.
  destruct (llm_invoke services _); simpl; trivial.
  apply get_set_other, Hne.
Qed.

Lemma remediate_loop_others (p : Platform) (rs : Dict.t PostReview.t) (s : State) :
  ~ In p (Dict.keys rs) ->
  review_calls p (snd (for_each rs (remediate_step config services) s)) = 0.
Proof.
  revert s. induction rs as [|kv rs IH]; intros s Hout; [reflexivity|].
  rewrite for_each_cons. cbn [snd]. rewrite review_calls_app.
  rewrite IH by (simpl in Hout; tauto).
  rewrite remediate_step_trace.
  assert (Hne : Platform_eqb (fst kv) p = false).
  { apply Platform_eqb_neq. simpl in Hout. tauto. }
  destruct (_ && _); unfold review_calls; simpl; rewrite ?Hne; reflexivity.
Qed.

Lemma remediate_loop_calls (p : Platform) (rs : Dict.t PostReview.t) (s : State) :
  NoDup (Dict.keys rs) ->
  review_calls p (snd (for_each rs (remediate_step config services) s))
  = match Dict.get rs p with
    | Some review =>
        if is_block (PostReview.status review) && rewrite_arrives services s p review
        then 1 else 0
    | None => 0
    end.
Proof.
  revert s. induction rs as [|[q rv] rs IH]; intros s Hnd; [reflexivity|].
  inversion Hnd as [|? ? Hout Hnd']; subst.
  rewrite for_each_cons. cbn [snd]. rewrite review_calls_app.
  rewrite remediate_step_trace. simpl Dict.get.
  destruct (Platform_eqb q p) eqn:E.
  - apply Platform_eqb_eq in E. subst q.
    rewrite remediate_loop_others by exact Hout.
    cbn [fst snd]. destruct (_ && _); unfold review_calls; simpl;
      rewrite ?Platform_eqb_refl; reflexivity.
  - rewrite IH by exact Hnd'.
    assert (Hhead : forall t,
              review_calls p
                (if is_block (PostReview.status (snd (q, rv)))
                    && rewrite_arrives services s (fst (q, rv)) (snd (q, rv))
                 then [ReviewCall (fst (q, rv)) t] else []) = 0).
    { intro t. destruct (_ && _); unfold review_calls; simpl; rewrite ?E; reflexivity. }
    rewrite Hhead. simpl.
    destruct (Dict.get rs p) as [review|]; trivial.
    unfold rewrite_arrives.
    rewrite (remediate_step_drafts s (q, rv) p).
    + reflexivity.
    + simpl. apply Platform_eqb_neq, E.
Qed.

Lemma compliance_calls (p : Platform) (st : State) :
  NoDup (Dict.keys (drafts st)) ->
  review_calls p (snd (compliance config st))
  = match Dict.get (drafts st) p with Some _ => 1 | None => 0 end.
Proof.
  intro Hnd. unfold compliance. rewrite compliance_loop_calls.
  apply (count_key_NoDup p (drafts st) Hnd).
Qed.

(** The compliance node leaves one review per draft. *)
Lemma compliance_reviews (st : State) :
  NoDup (Dict.keys (reviews (fst (compliance config st))))
  /\ (forall p, In p (Dict.keys (reviews (fst (compliance config st))))
                <-> In p (Dict.keys (drafts st))).
Proof.
  destruct (compliance_loop_reviews (drafts (set_reviews st [])) (set_reviews st []))
    as [H1 H2].
  split.
  - apply H1. constructor.
  - intro p. unfold compliance. rewrite (H2 p). simpl. tauto.
Qed.

(** C8, amended. In a run of the graph the compliance engine is called, for
    a platform with a first review, twice when that review is [block] and
    the rewrite that remediation requests arrives, and once otherwise
    (first review not blocked, or rewrite request failed); it is not called
    for a platform without a draft.  The new status plays no part. *)
Theorem compliance_invocations (st0 : State) (p : Platform) :
  let first := fst (compliance config (before_compliance config backend services st0)) in
  let trace := snd (run_graph config backend services st0) in
  match Dict.get (reviews first) p with
  | Some review =>
      review_calls p trace
      = if is_block (PostReview.status review) && rewrite_arrives services first p review
        then 2 else 1
  | None => review_calls p trace = 0
  end.
Proof.
  cbv zeta. rewrite run_graph_unfold. cbv zeta. cbn [snd].
  set (pre := before_compliance config backend services st0).
  rewrite review_calls_app.
  pose proof (before_compliance_NoDup config backend services st0) as Hnd.
  fold pre in Hnd.
  destruct (compliance_reviews pre) as [Hr1 Hr2].
  unfold remediate_if_blocked.
  rewrite (remediate_loop_calls p _ _ Hr1).
  rewrite (compliance_calls p pre Hnd).
  destruct (Dict.get (reviews (fst (compliance config pre))) p) as [review|] eqn:G.
  - assert (Hin : In p (Dict.keys (drafts pre))).
    { apply (proj1 (Hr2 p)). apply get_Some_In_keys. eauto. }
    apply get_Some_In_keys in Hin. destruct Hin as [post ->].
    destruct (_ && _); reflexivity.
  - destruct (Dict.get (drafts pre) p) as [post|] eqn:D; trivial.
    exfalso.
    assert (Hin : In p (Dict.keys (reviews (fst (compliance config pre))))).
    { apply (proj2 (Hr2 p)). apply get_Some_In_keys. eauto. }
    apply get_Some_In_keys in Hin. destruct Hin as [r Hr]. congruence.
Qed.

End ReviewCalls.

(** ** The statements on concrete runs *)

Section Runs.
Import Graph.

(** C6, as the spec states it, fails: the search provider fails on every
    call, the run ends with the one verified claim at 0.1 and with an empty
    [errors] list. *)
Lemma failing_search_no_error :
  search_always_fails Sample.failing_backend
  /\ claims (fst Sample.standard_run)
     = [(twitter, [Claim.mk "Output rose 20% in 2024" high [] (1 # 10)]);
        (linkedin, []); (instagram, [])]
  /\ errors (fst Sample.standard_run) = [].
Proof.
  split.
  - split; intros query n; eexists; reflexivity.
  - split; vm_compute; reflexivity.
Qed.

(** The amended statement on that run. *)
Lemma failing_search_floor_witness :
  claims_at_floor (fst Sample.standard_run)
  /\ errors (fact_check Sample.standard Sample.failing_backend Sample.unverified_state)
     = errors Sample.unverified_state.
Proof.
  apply (failing_search_floor Sample.standard Sample.failing_backend (Sample.world false)
           Sample.initial_state Sample.unverified_state).
  split; intros query n; eexists; reflexivity.
Defined.

(** C7, as the spec states it, fails: when verification raises, the text is
    appended to [errors], but [claims] keeps the unverified claims it held
    before the node ran; it is not reset to an empty map. *)
Lemma fact_check_keeps_stale_claims :
  errors Sample.crashed_fact_check
  = ["Unified fact-checking failed: verification crashed"]
  /\ claims Sample.crashed_fact_check = claims Sample.unverified_state
  /\ claims Sample.crashed_fact_check <> [].
Proof. repeat split; try reflexivity. discriminate. Qed.

(** The amended statement on the samples: the LinkedIn request times out
    while the other posts are generated; claim extraction, verification,
    scheduling and the embedding service fail; the rewrite of the blocked
    tweet is refused. *)
Lemma node_failure_witness :
  extract_key_points Sample.broken_world Sample.initial_state
  = set_key_points
      (add_error Sample.initial_state "Key points extraction failed: connection refused") []
  /\ (Dict.get (drafts (generate_posts FailureSample.world Sample.initial_state)) linkedin
   = None
   /\ records Sample.initial_state
        (generate_posts FailureSample.world Sample.initial_state)
        ("linkedin post generation failed: request timed out"))
  /\ (same_drafts (drafts Sample.drafted_state) [(twitter, FailureSample.touched_tweet)]
      /\ analyze_embeddings FailureSample.world Sample.drafted_state
         = set_embedding_analysis
             (add_error
                (set_drafts Sample.drafted_state [(twitter, FailureSample.touched_tweet)])
                ("Embedding analysis failed: '" @@ "float' object has no attribute 'get'"))
             (error_record "'float' object has no attribute 'get'"))
  /\ (Dict.get (claims (extract_claims Sample.broken_world Sample.drafted_state)) twitter
      = Some []
      /\ records Sample.drafted_state
           (extract_claims Sample.broken_world Sample.drafted_state)
           "Claim extraction failed for twitter: connection refused")
  /\ fact_check_with (fun _ => Raised "connection refused") Sample.unverified_state
     = add_error Sample.unverified_state
         "Unified fact-checking failed: connection refused"
  /\ (Dict.get
        (reviews (fst (remediate_if_blocked Sample.strict (Sample.world false)
                         (Sample.strict_first false)))) twitter
      = Some FailureSample.blocked_review
      /\ Dict.get
           (drafts (fst (remediate_if_blocked Sample.strict (Sample.world false)
                           (Sample.strict_first false)))) twitter
         = Dict.get (drafts (Sample.strict_first false)) twitter
      /\ records (Sample.strict_first false)
           (fst (remediate_if_blocked Sample.strict (Sample.world false)
                   (Sample.strict_first false)))
           "Remediation failed for twitter: rate limit exceeded"
      /\ review_calls twitter
           (snd (remediate_if_blocked Sample.strict (Sample.world false)
                   (Sample.strict_first false))) = 0)
  /\ schedule Sample.broken_world Sample.initial_state
     = set_timings
         (add_error Sample.initial_state
            "Context-aware scheduling failed: connection refused") [].
Proof.
  split; [|split; [|split; [|split; [|split; [|split]]]]].
  - apply (proj1 (node_failure Sample.standard Sample.broken_world Sample.initial_state
                    "connection refused")).
    + discriminate.
    + reflexivity.
  - apply (proj1 (proj2
             (node_failure Sample.standard FailureSample.world Sample.initial_state
                "request timed out")) linkedin).
    left. reflexivity.
  - apply (proj2 (proj1 (proj2 (proj2
             (node_failure Sample.standard FailureSample.world Sample.drafted_state
                "'float' object has no attribute 'get'")))
             ltac:(discriminate) ltac:(discriminate))
             [("quality_scores", JObj [("twitter", JNum (5 # 10)%Q)])]
             (JObj [("twitter", JNum (5 # 10)%Q)])
             [(twitter, FailureSample.touched_tweet)]);
      reflexivity.
  - apply (proj1 (proj2 (proj2 (proj2
             (node_failure Sample.standard Sample.broken_world Sample.drafted_state
                "connection refused"))))
             ltac:(repeat constructor; simpl; tauto) twitter FailureSample.tweet).
    + left. reflexivity.
    + left. reflexivity.
  - apply (proj1 (proj2 (proj2 (proj2 (proj2
             (node_failure Sample.standard Sample.broken_world Sample.unverified_state
                "connection refused")))))).
    reflexivity.
  - assert (Hnd : NoDup (Dict.keys (reviews (Sample.strict_first false))))
      by (vm_compute; repeat constructor; simpl; intuition discriminate).
    assert (Hin : In (twitter, FailureSample.blocked_review)
                    (reviews (Sample.strict_first false)))
      by (vm_compute; left; reflexivity).
    apply (proj1 (proj2 (proj2 (proj2 (proj2 (proj2
             (node_failure Sample.strict (Sample.world false) (Sample.strict_first false)
                "rate limit exceeded"))))))
             Hnd twitter FailureSample.blocked_review Hin).
    + reflexivity.
    + vm_compute. reflexivity.
  - apply (proj2 (proj2 (proj2 (proj2 (proj2 (proj2
             (node_failure Sample.standard Sample.broken_world Sample.initial_state
                "connection refused"))))))).
    reflexivity.
Defined.

(** C8, as the spec states it, fails: the first review of the twitter draft
    is [block], the rewrite request fails, and the compliance engine has
    been called once for twitter, not twice. *)
Lemma blocked_platform_reviewed_once :
  option_map PostReview.status (Dict.get (reviews (Sample.strict_first false)) twitter)
  = Some block
  /\ review_calls twitter (snd (Sample.strict_run false)) = 1
  /\ errors (fst (Sample.strict_run false))
     = ["Remediation failed for twitter: rate limit exceeded"].
Proof. repeat split; vm_compute; reflexivity. Qed.

(** When the rewrite arrives, the blocked draft is reviewed twice and the
    other drafts once. *)
Example blocked_platform_reviewed_twice :
  review_calls twitter (snd (Sample.strict_run true)) = 2
  /\ review_calls linkedin (snd (Sample.strict_run true)) = 1
  /\ review_calls instagram (snd (Sample.strict_run true)) = 1.
Proof. repeat split; vm_compute; reflexivity. Qed.

End Runs.

(** ** The examples of the specification *)

(** The two Buffer claims collapse into one. *)
Example buffer_claims_deduplicated :
  List.length
    (FactCheck._deduplicate_claims
       [Claim.mk "Buffer survey: 80% prefer remote" high [] (0 # 1);
        Claim.mk "80% of workers prefer remote, per Buffer" high [] (0 # 1)])
  = 1.
Proof. vm_compute. reflexivity. Qed.

(** [guaranteed] and [100%] in standard mode: flagged. *)
Example absolute_claims_flagged :
  PostReview.status
    (Compliance.review_post Sample.standard twitter "Results guaranteed, 100% of the time" [])
  = flag.
Proof. vm_compute. reflexivity. Qed.

(** The same text with [diagnose], in strict mode: blocked. *)
Example restricted_term_blocked :
  PostReview.status
    (Compliance.review_post Sample.strict twitter
       "Results guaranteed, 100% of the time: we diagnose it" [])
  = block.
Proof. vm_compute. reflexivity. Qed.

(** A high-severity claim at confidence 0.2 gives a major
    [low_confidence_claim] issue. *)
Example low_confidence_major :
  map (fun i => (ComplianceIssue.rule_id i, ComplianceIssue.severity i))
    (Compliance._check_claim_confidence [Claim.mk "Output rose" high [] (2 # 10)])
  = [("low_confidence_claim", major)].
Proof. vm_compute. reflexivity. Qed.

(** * Further properties of the modelled code *)

(** ** What deduplication keeps *)

Section DedupShape.
Import FactCheck.

Lemma subseq_refl {A : Type} (l : list A) : subseq l l.
Proof. induction l; [apply subseq_nil | apply subseq_keep; trivial]. Qed.

Lemma subseq_nil_l {A : Type} (l : list A) : subseq [] l.
Proof. induction l; [apply subseq_nil | apply subseq_skip; trivial]. Qed.

Lemma subseq_length {A : Type} (l1 l2 : list A) :
  subseq l1 l2 -> List.length l1 <= List.length l2.
Proof. induction 1; simpl; lia. Qed.

Lemma subseq_incl {A : Type} (l1 l2 : list A) : subseq l1 l2 -> incl l1 l2.
Proof.
  induction 1; intros a Ha; simpl in *; auto.
  destruct Ha; auto.
Qed.

Lemma subseq_filter {A : Type} (f : A -> bool) (l : list A) : subseq (filter f l) l.
Proof.
  induction l as [|x l IH]; simpl; [constructor|].
  destruct (f x); [apply subseq_keep | apply subseq_skip]; exact IH.
Qed.

Lemma subseq_trans {A : Type} (l1 l2 l3 : list A) :
  subseq l1 l2 -> subseq l2 l3 -> subseq l1 l3.
Proof.
  intros H12 H23. revert l1 H12.
  induction H23 as [|x l2 l3 H IH|x l2 l3 H IH]; intros l1 H12.
  - exact H12.
  - apply subseq_skip. apply IH, H12.
  - inversion H12; subst.
    + apply subseq_skip. apply IH. assumption.
    + apply subseq_keep. apply IH. assumption.
Qed.

Lemma subseq_firstn {A : Type} (n : nat) (l : list A) : subseq (firstn n l) l.
Proof.
  revert n. induction l as [|x l IH]; intros [|n]; simpl.
  - apply subseq_nil.
  - apply subseq_nil.
  - apply subseq_nil_l.
  - apply subseq_keep, IH.
Qed.

Lemma subseq_map {A B : Type} (f : A -> B) (l1 l2 : list A) :
  subseq l1 l2 -> subseq (map f l1) (map f l2).
Proof.
  induction 1; simpl;
    [apply subseq_nil | apply subseq_skip | apply subseq_keep]; trivial.
Qed.

Lemma mem_In (x : string) (xs : list string) : PyStr.mem x xs = true <-> In x xs.
Proof.
  unfold PyStr.mem. rewrite existsb_exists. split.
  - intros [y [Hy E]]. apply String.eqb_eq in E. congruence.
  - intro H. exists x. split; trivial. apply String.eqb_refl.
Qed.

(** The loop appends to the claims kept so far a subsequence of the claims
    it reads. *)
Lemma dedup_loop_appends (claims kept : list Claim.t) (seen : list string) :
  exists added, dedup_loop claims kept seen = kept ++ added /\ subseq added claims.
Proof.
  revert kept seen. induction claims as [|c claims IH]; intros kept seen.
  - exists []. simpl. rewrite app_nil_r. split; [reflexivity | constructor].
  - rewrite dedup_loop_step. destruct (dedup_accepts seen kept c).
    + destruct (IH (kept ++ [c]) (claim_signature c :: seen)) as [added [E S]].
      exists (c :: added). rewrite E, <- app_assoc. split; [reflexivity|].
      apply subseq_keep. exact S.
    + destruct (IH kept seen) as [added [E S]].
      exists added. split; [exact E | apply subseq_skip; exact S].
Qed.

(** X1. Deduplication only drops claims: its result is the input with some
    claims left out, in the input's order, and the first claim of a
    non-empty input is always retained. *)
Theorem deduplicate_subsequence (claims : list Claim.t) :
  subseq (_deduplicate_claims claims) claims
  /\ List.length (_deduplicate_claims claims) <= List.length claims
  /\ match claims with
     | [] => _deduplicate_claims claims = []
     | first :: _ => exists rest, _deduplicate_claims claims = first :: rest
     end.
Proof.
  unfold _deduplicate_claims.
  destruct (dedup_loop_appends claims [] []) as [added [E S]]. simpl in E.
  split; [rewrite E; exact S|].
  split; [rewrite E; apply subseq_length, S|].
  destruct claims as [|c claims]; [reflexivity|].
  rewrite dedup_loop_step.
  assert (Hacc : dedup_accepts [] [] c = true) by reflexivity.
  rewrite Hacc.
  destruct (dedup_loop_appends claims ([] ++ [c]) [claim_signature c])
    as [added' [E' _]].
  exists added'. exact E'.
Qed.

Lemma self_accepting_tail (c : Claim.t) (cs : list Claim.t) :
  self_accepting (cs ++ [c]) -> self_accepting cs.
Proof.
  intros H before x after E. apply (H before x (after ++ [c])).
  rewrite E, <- app_assoc. reflexivity.
Qed.

Lemma self_accepting_distinct (claims : list Claim.t) :
  self_accepting claims ->
  NoDup (map claim_signature claims)
  /\ (forall before claim after,
        claims = before ++ claim :: after ->
        forall earlier, In earlier before ->
          _are_claims_similar (Claim.text claim) (Claim.text earlier) = false).
Proof.
  intro H. split.
  - induction claims as [|c claims IH] using rev_ind; [constructor|].
    rewrite map_app. simpl. apply NoDup_app.
    + apply IH. eapply self_accepting_tail, H.
    + repeat constructor. simpl. tauto.
    + intros s Hs [<- | []].
      specialize (H claims c [] eq_refl). unfold dedup_accepts in H.
      apply andb_true_iff in H. destruct H as [H _].
      apply negb_true_iff in H. apply mem_In in Hs. congruence.
  - intros before claim after E earlier Hin.
    specialize (H before claim after E). unfold dedup_accepts in H.
    apply andb_true_iff in H. destruct H as [_ H]. apply negb_true_iff in H.
    destruct (_are_claims_similar (Claim.text claim) (Claim.text earlier)) eqn:S; trivial.
    assert (Hex : existsb
                    (fun existing_claim =>
                       _are_claims_similar (Claim.text claim) (Claim.text existing_claim))
                    before = true).
    { apply existsb_exists. exists earlier. auto. }
    congruence.
Qed.

(** X2. The retained claims are pairwise distinct in the sense of the
    code: no two of them have the same signature, and no retained claim is
    similar (a shared number and a shared entity) to one retained before
    it. *)
Theorem deduplicate_distinct (claims : list Claim.t) :
  NoDup (map claim_signature (_deduplicate_claims claims))
  /\ (forall before claim after,
        _deduplicate_claims claims = before ++ claim :: after ->
        forall earlier, In earlier before ->
          _are_claims_similar (Claim.text claim) (Claim.text earlier) = false).
Proof.
  apply self_accepting_distinct.
  unfold _deduplicate_claims. apply dedup_loop_self_accepting.
  - apply seen_matches_nil.
  - apply self_accepting_nil.
Qed.

End DedupShape.

(** ** What the search functions return *)

Section SearchShape.
Variable config : Config.t.
Variable backend : Search.Backend.

Lemma result_eqb_eq (a b : Search.SearchResult) :
  Search.result_eqb a b = true <-> a = b.
Proof.
  destruct a as [t u], b as [t' u']. unfold Search.result_eqb. simpl.
  rewrite andb_true_iff, !String.eqb_eq. split; [intros [-> ->] | intros [= -> ->]]; auto.
Qed.

Lemma add_results_clean (n : nat) (results : list Search.SearchResult) (q : string) :
  clean_results results -> clean_results (Search.add_results backend n results q).
Proof.
  unfold Search.add_results.
  destruct (Search.ddgs_text backend q n) as [found|]; [|trivial].
  revert results. induction found as [|[t u] found IH]; intros results H; simpl; trivial.
  apply IH.
  destruct (String.eqb u EmptyString) eqn:Eu; simpl; trivial.
  destruct (existsb (Search.result_eqb (t, u)) results) eqn:Ex; simpl; trivial.
  destruct H as [Hnd Hurl]. split.
  - apply NoDup_app; trivial.
    + repeat constructor. simpl. tauto.
    + intros r Hr [<- | []].
      assert (existsb (Search.result_eqb (t, u)) results = true); [|congruence].
      apply existsb_exists. exists (t, u). split; trivial. apply result_eqb_eq. reflexivity.
  - apply Forall_app. split; trivial. repeat constructor. simpl.
    apply String.eqb_neq. exact Eu.
Qed.

Lemma clean_firstn (n : nat) (results : list Search.SearchResult) :
  clean_results results -> clean_results (firstn n results).
Proof.
  intros [Hnd Hurl]. split.
  - rewrite <- (firstn_skipn n results) in Hnd. apply NoDup_app_remove_r in Hnd. exact Hnd.
  - rewrite <- (firstn_skipn n results) in Hurl. apply Forall_app in Hurl. tauto.
Qed.

(** X3. [search_duckduckgo] returns at most twice [max_results] results,
    never the same (title, url) pair twice and never a result with an empty
    URL, whatever the backend answers. *)
Theorem search_duckduckgo_shape (query : string) (max_results : nat) :
  List.length (Search.search_duckduckgo backend query max_results) <= max_results * 2
  /\ NoDup (Search.search_duckduckgo backend query max_results)
  /\ Forall (fun r => snd r <> EmptyString)
       (Search.search_duckduckgo backend query max_results).
Proof.
  unfold Search.search_duckduckgo.
  destruct (Search.DDGS_new backend).
  - match goal with
    | |- context [fold_left (Search.add_results backend max_results) ?qs []] =>
        assert (H : clean_results (fold_left (Search.add_results backend max_results) qs []))
    end.
    { apply fold_left_invariant.
      - split; constructor.
      - intros rs q Hrs. apply add_results_clean, Hrs. }
    split; [rewrite length_firstn; apply Nat.le_min_l|].
    apply (clean_firstn (max_results * 2)), H.
  - simpl. split; [lia|]. split; constructor.
Qed.

Lemma loaded_pages_fold (titles : list string) (acc : list Search.SearchResult) :
  fold_left
    (fun results title =>
       match Search.wikipedia_page backend title with
       | Ok page => results ++ [page]
       | Raised _ => results
       end) titles acc
  = acc ++ loaded_pages backend titles.
Proof.
  revert acc. induction titles as [|t titles IH]; intro acc; cbn [fold_left].
  - symmetry. apply app_nil_r.
  - rewrite IH. unfold loaded_pages. cbn [flat_map].
    destruct (Search.wikipedia_page backend t); [|reflexivity].
    rewrite <- app_assoc. reflexivity.
Qed.

Lemma loaded_pages_length (titles : list string) :
  List.length (loaded_pages backend titles) <= List.length titles.
Proof.
  unfold loaded_pages. induction titles as [|t titles IH]; [apply Nat.le_refl|].
  cbn [flat_map]. rewrite length_app.
  destruct (Search.wikipedia_page backend t); simpl.
  - apply le_n_S. exact IH.
  - apply le_S. exact IH.
Qed.

(** X4. [search_wikipedia] returns the pages of the first [max_results]
    titles the search found, in the order of the titles: one result, the
    page's title and URL, for each title whose page loads, and none for a
    title whose page fails.  When the language cannot be set or the search
    itself fails the result is empty.  So there are never more than
    [max_results] results. *)
Theorem search_wikipedia_pages (query : string) (max_results : nat) :
  match Search.wikipedia_set_lang backend (Config.WIKIPEDIA_LANG config),
        Search.wikipedia_search backend query max_results with
  | Ok _, Ok titles =>
      Search.search_wikipedia config backend query max_results
      = loaded_pages backend (firstn max_results titles)
  | _, _ => Search.search_wikipedia config backend query max_results = []
  end
  /\ List.length (Search.search_wikipedia config backend query max_results)
     <= max_results.
Proof.
  unfold Search.search_wikipedia.
  destruct (Search.wikipedia_set_lang backend _); [|split; [reflexivity|simpl; lia]].
  destruct (Search.wikipedia_search backend query max_results) as [titles|];
    [|split; [reflexivity|simpl; lia]].
  rewrite loaded_pages_fold. cbn [app]. split; [reflexivity|].
  eapply Nat.le_trans; [apply loaded_pages_length|].
  rewrite length_firstn. apply Nat.le_min_l.
Qed.

Lemma filter_search_results_subseq (results : list Search.SearchResult) (text : string) :
  subseq (FactCheck._filter_search_results results text) results.
Proof. unfold FactCheck._filter_search_results. apply subseq_filter. Qed.

(** X5. A verified claim carries at most three sources, each the URL of a
    result the search provider returned for the claim's query, in the
    provider's order; it carries no source exactly when its confidence is
    the floor 0.1. *)
Theorem verified_sources (claim : Claim.t) :
  let verified := FactCheck._verify_single_claim config backend claim in
  let raw :=
    FactCheck.provider_search config backend
      (FactCheck._enhance_search_query (Claim.text claim)) in
  List.length (Claim.sources verified) <= 3
  /\ subseq (Claim.sources verified) (map snd raw)
  /\ (Claim.sources verified = [] <-> Claim.confidence verified = (1 # 10)%Q).
Proof.
  cbv zeta.
  pose proof (verified_confidence config backend claim) as Hv.
  set (raw := FactCheck.provider_search config backend _) in *.
  set (kept := FactCheck._filter_search_results raw (Claim.text claim)) in *.
  assert (Hs : Claim.sources (FactCheck._verify_single_claim config backend claim)
               = map snd (firstn 3 kept)) by reflexivity.
  rewrite Hs, Hv.
  split; [rewrite length_map, length_firstn; apply Nat.le_min_l|].
  split.
  - apply subseq_map. eapply subseq_trans; [apply subseq_firstn|].
    apply filter_search_results_subseq.
  - assert (Hnil : map snd (firstn 3 kept) = [] <-> kept = []).
    { destruct kept; simpl; split; trivial; discriminate. }
    rewrite Hnil.
    destruct (calculate_confidence_shape kept claim)
      as [[E C] | [(N & _ & C) | (N & _ & Hlo & _)]].
    + rewrite C. tauto.
    + rewrite C. split; [contradiction | discriminate].
    + split; [contradiction|].
      intro C. rewrite C in Hlo. exfalso. revert Hlo. unfold Qle. simpl. lia.
Qed.

End SearchShape.

(** ** Bonuses of the confidence score *)

Section ScoreBonuses.
Import FactCheck.

Lemma tier_step_first (tiers : Q * Q * Q) (r : Search.SearchResult) :
  (fst (fst tiers) <= fst (fst (tier_step tiers r)))%Q
  /\ (is_tier1 r = true -> ((4 # 10) <= fst (fst (tier_step tiers r)))%Q).
Proof.
  destruct tiers as [[t1 t2] t3]. unfold tier_step, is_tier1.
  destruct (existsb (fun indicator => PyStr.contains indicator (PyStr.lower (snd r)))
              tier1_indicators); cbn [fst snd].
  - split; [apply Q.le_max_l | intros _; apply Q.le_max_r].
  - destruct (existsb (fun indicator => PyStr.contains indicator (PyStr.lower (snd r)))
                tier2_indicators); cbn [fst snd];
      (split; [apply Qle_refl | discriminate]).
Qed.

Lemma tier_fold_first (rs : list Search.SearchResult) (tiers : Q * Q * Q) :
  (fst (fst tiers) <= fst (fst (fold_left tier_step rs tiers)))%Q
  /\ (existsb is_tier1 rs = true ->
      ((4 # 10) <= fst (fst (fold_left tier_step rs tiers)))%Q).
Proof.
  revert tiers. induction rs as [|r rs IH]; intro tiers; simpl.
  - split; [apply Qle_refl | discriminate].
  - destruct (tier_step_first tiers r) as [H1 H2].
    destruct (IH (tier_step tiers r)) as [I1 I2].
    split; [eapply Qle_trans; eassumption|].
    intro H. apply orb_true_iff in H. destruct H as [H | H].
    + eapply Qle_trans; [apply H2, H | exact I1].
    + apply I2, H.
Qed.

(** X6. Beyond the 0.6 that one relevant result gives, a second relevant
    result brings the score to at least 0.7, a third to at least 0.8, and a
    relevant result on a tier-1 domain to at least 0.9. *)
Theorem confidence_bonuses (results : list Search.SearchResult) (claim : Claim.t) :
  let relevant := _filter_relevant_results results (PyStr.lower (Claim.text claim)) in
  (2 <= List.length relevant -> ((7 # 10) <= _calculate_confidence results claim)%Q)
  /\ (3 <= List.length relevant -> ((8 # 10) <= _calculate_confidence results claim)%Q)
  /\ (existsb is_tier1 relevant = true ->
      ((9 # 10) <= _calculate_confidence results claim)%Q).
Proof.
  cbv zeta. unfold _calculate_confidence.
  destruct results as [|r0 results].
  { simpl. repeat split; intro H; try lia; discriminate. }
  destruct (_filter_relevant_results (r0 :: results) _) as [|x rel].
  { simpl. repeat split; intro H; try lia; discriminate. }
  set (cms := fold_left _ (x :: rel) (0 # 1)%Q).
  assert (Hc : (0 <= cms)%Q) by (apply content_fold_nonneg; apply Qle_refl).
  clearbody cms.
  pose proof (tier_fold_ok (x :: rel) false (0 # 1, 0 # 1, 0 # 1)%Q) as Ht.
  pose proof (tier_fold_first (x :: rel) (0 # 1, 0 # 1, 0 # 1)%Q) as [_ Hfirst].
  destruct (fold_left tier_step (x :: rel) (0 # 1, 0 # 1, 0 # 1)%Q) as [[t1 t2] t3].
  simpl in Ht, Hfirst.
  destruct Ht as (H1 & H2 & H3 & Hs).
  { repeat split; try apply Qle_refl. discriminate. }
  specialize (Hs eq_refl).
  repeat split.
  - intro Hlen. apply Q.min_glb; [|discriminate].
    assert (Hk : ((1 # 10) <= (if 3 <=? List.length (x :: rel) then 2 # 10
                               else if 2 <=? List.length (x :: rel) then 1 # 10
                               else 0 # 1))%Q).
    { destruct (3 <=? List.length (x :: rel)); [discriminate|].
      destruct (2 <=? List.length (x :: rel)) eqn:E; [discriminate|].
      apply Nat.leb_gt in E. lia. }
    destruct Hs as [Hs | [Hs | Hs]]; lra.
  - intro Hlen. apply Q.min_glb; [|discriminate].
    assert (Hk : ((2 # 10) <= (if 3 <=? List.length (x :: rel) then 2 # 10
                               else if 2 <=? List.length (x :: rel) then 1 # 10
                               else 0 # 1))%Q).
    { destruct (3 <=? List.length (x :: rel)) eqn:E; [discriminate|].
      apply Nat.leb_gt in E. lia. }
    destruct Hs as [Hs | [Hs | Hs]]; lra.
  - intro Htier. specialize (Hfirst Htier). apply Q.min_glb; [|discriminate].
    assert (Hk : ((0 # 1) <= (if 3 <=? List.length (x :: rel) then 2 # 10
                              else if 2 <=? List.length (x :: rel) then 1 # 10
                              else 0 # 1))%Q).
    { destruct (3 <=? List.length (x :: rel)); [discriminate|].
      destruct (2 <=? List.length (x :: rel)); discriminate. }
    lra.
Qed.

(** Both results are relevant and one is on a [.gov] site. *)
Lemma confidence_bonuses_witness :
  ((7 # 10) <= _calculate_confidence Sample.survey_results Sample.survey_claim)%Q
  /\ ((9 # 10) <= _calculate_confidence Sample.survey_results Sample.survey_claim)%Q.
Proof.
  split.
  - apply (proj1 (confidence_bonuses Sample.survey_results Sample.survey_claim)).
    vm_compute. lia.
  - apply (proj2 (proj2 (confidence_bonuses Sample.survey_results Sample.survey_claim))).
    vm_compute. reflexivity.
Defined.

End ScoreBonuses.

(** ** The outcome of a review in terms of its inputs *)

Section ReviewOutcome.
Import Compliance.

Lemma has_severity_app (s : IssueSeverity) (a b : list ComplianceIssue.t) :
  has_severity s (a ++ b) = has_severity s a || has_severity s b.
Proof. unfold has_severity. apply existsb_app. Qed.

Lemma has_severity_words (s s' : IssueSeverity) (issue : string -> ComplianceIssue.t)
  (hit : string -> bool) (words : list string) :
  (forall w, ComplianceIssue.severity (issue w) = s') ->
  has_severity s (flat_map (fun w => if hit w then [issue w] else []) words)
  = IssueSeverity_eqb s' s && existsb hit words.
Proof.
  intro H. induction words as [|w words IH]; simpl.
  - rewrite andb_false_r. reflexivity.
  - rewrite has_severity_app, IH. destruct (hit w); simpl.
    + unfold has_severity. simpl. rewrite H.
      destruct (IssueSeverity_eqb s' s); reflexivity.
    + reflexivity.
Qed.

Lemma profanity_severity (s : IssueSeverity) (text : string) :
  has_severity s (_check_profanity text)
  = IssueSeverity_eqb minor s && mentions_any PROFANITY_WORDS text.
Proof.
  unfold _check_profanity, mentions_any. cbv zeta.
  apply (has_severity_words s minor
           (fun word => ComplianceIssue.mk "profanity_check" minor _ _)
           (fun word => PyStr.contains word (PyStr.lower text))).
  reflexivity.
Qed.

Lemma absolute_severity (s : IssueSeverity) (text : string) :
  has_severity s (_check_absolute_claims text)
  = IssueSeverity_eqb major s && mentions_any ABSOLUTE_PHRASES text.
Proof.
  unfold _check_absolute_claims, mentions_any. cbv zeta.
  apply (has_severity_words s major
           (fun phrase => ComplianceIssue.mk "absolute_claims" major _ _)
           (fun phrase => PyStr.contains phrase (PyStr.lower text))).
  reflexivity.
Qed.

Lemma strict_severity (s : IssueSeverity) (text : string) :
  has_severity s (_check_strict_mode text)
  = IssueSeverity_eqb critical s && mentions_any STRICT_RESTRICTED text.
Proof.
  unfold _check_strict_mode, mentions_any. cbv zeta.
  apply (has_severity_words s critical
           (fun word => ComplianceIssue.mk "strict_mode_restricted" critical _ _)
           (fun word => PyStr.contains word (PyStr.lower text))).
  reflexivity.
Qed.

(** The issues of one claim: at most one, never critical, major exactly for
    a high-severity claim below 0.3. *)
Lemma claim_issue_cases (c : Claim.t) :
  List.length (claim_confidence_issues c) <= (if is_low (Claim.severity c) then 0 else 1)
  /\ has_severity critical (claim_confidence_issues c) = false
  /\ has_severity major (claim_confidence_issues c)
     = match Claim.severity c with
       | high => Float.ltb (Claim.confidence c) (3 # 10)
       | _ => false
       end
  /\ Forall (fun issue =>
               In (ComplianceIssue.rule_id issue)
                  ["low_confidence_claim"; "unsourced_claim"; "attribution_note"])
       (claim_confidence_issues c).
Proof.
  unfold claim_confidence_issues. destruct c as [t sev srcs conf]. simpl.
  destruct sev; simpl;
    repeat match goal with
           | |- context [if ?b then _ else _] => destruct b; simpl
           end;
    (split; [lia|]; split; [reflexivity|]; split; [reflexivity|];
     repeat (apply Forall_cons || apply Forall_nil); simpl; auto 6).
Qed.

Lemma claims_severity_critical (claims : list Claim.t) :
  has_severity critical (_check_claim_confidence claims) = false.
Proof.
  unfold _check_claim_confidence. induction claims as [|c claims IH]; simpl; trivial.
  rewrite has_severity_app, IH.
  destruct (claim_issue_cases c) as (_ & -> & _). reflexivity.
Qed.

Lemma claims_severity_major (claims : list Claim.t) :
  has_severity major (_check_claim_confidence claims) = unsupported_high_claim claims.
Proof.
  unfold _check_claim_confidence, unsupported_high_claim.
  induction claims as [|c claims IH]; simpl; trivial.
  rewrite has_severity_app, IH.
  destruct (claim_issue_cases c) as (_ & _ & -> & _). reflexivity.
Qed.

Lemma review_post_status (config : Config.t) (platform : Platform) (text : string)
  (claims : list Claim.t) :
  PostReview.status (review_post config platform text claims)
  = if String.eqb (Config.COMPLIANCE_MODE config) "strict"
       && mentions_any STRICT_RESTRICTED text
    then block
    else if mentions_any ABSOLUTE_PHRASES text || unsupported_high_claim claims
    then flag
    else pass.
Proof.
  unfold review_post. cbn [PostReview.status].
  rewrite determine_status_cases.
  destruct (String.eqb (Config.COMPLIANCE_MODE config) "strict"); cbn [andb].
  - rewrite !has_severity_app, !profanity_severity, !absolute_severity,
      !strict_severity, claims_severity_critical, claims_severity_major.
    cbn [IssueSeverity_eqb andb orb].
    destruct (mentions_any STRICT_RESTRICTED text); cbn [andb orb]; [reflexivity|].
    rewrite orb_false_r. reflexivity.
  - rewrite !has_severity_app, !profanity_severity, !absolute_severity,
      claims_severity_critical, claims_severity_major.
    cbn [IssueSeverity_eqb andb orb]. reflexivity.
Qed.

(** X7. The status of a review is decided by three facts about its
    inputs: it is [block] exactly in strict mode on a text that contains a
    restricted term; otherwise [flag] exactly when the text contains an
    absolute-claim phrase or a high-severity claim has a confidence below
    0.3; otherwise [pass].  Profanity, medium- and low-severity claims and
    the platform never change the status. *)
Theorem review_status_decided (config : Config.t) (platform : Platform) (text : string)
  (claims : list Claim.t) :
  let status := PostReview.status (review_post config platform text claims) in
  let strict := String.eqb (Config.COMPLIANCE_MODE config) "strict" in
  (status = block <-> strict && mentions_any STRICT_RESTRICTED text = true)
  /\ (status = flag <->
      strict && mentions_any STRICT_RESTRICTED text = false
      /\ mentions_any ABSOLUTE_PHRASES text || unsupported_high_claim claims = true)
  /\ (status = pass <->
      strict && mentions_any STRICT_RESTRICTED text = false
      /\ mentions_any ABSOLUTE_PHRASES text || unsupported_high_claim claims = false).
Proof.
  cbv zeta. rewrite review_post_status.
  destruct (String.eqb (Config.COMPLIANCE_MODE config) "strict"
            && mentions_any STRICT_RESTRICTED text);
    destruct (mentions_any ABSOLUTE_PHRASES text || unsupported_high_claim claims);
    repeat split; intros; try discriminate; try tauto;
    try (destruct H; discriminate).
Qed.

(** X8. The confidence check raises at most one issue per claim and none
    for a low-severity claim; its issues are never critical and carry one
    of three rule ids. *)
Theorem claim_confidence_issues_shape (claims : list Claim.t) :
  List.length (_check_claim_confidence claims)
  <= List.length (filter (fun c => negb (is_low (Claim.severity c))) claims)
  /\ Forall (fun issue =>
               ComplianceIssue.severity issue <> critical
               /\ In (ComplianceIssue.rule_id issue)
                    ["low_confidence_claim"; "unsourced_claim"; "attribution_note"])
       (_check_claim_confidence claims).
Proof.
  unfold _check_claim_confidence. split.
  - induction claims as [|c claims IH]; simpl; [lia|].
    rewrite length_app. destruct (claim_issue_cases c) as (Hlen & _).
    destruct (is_low (Claim.severity c)); simpl in *; lia.
  - apply Forall_forall. intros issue Hin. apply in_flat_map in Hin.
    destruct Hin as [c [_ Hin]].
    destruct (claim_issue_cases c) as (_ & Hcrit & _ & Hids). split.
    + intro Hs.
      assert (has_severity critical (claim_confidence_issues c) = true); [|congruence].
      apply has_severity_In. eauto.
    + apply (proj1 (Forall_forall _ _) Hids issue Hin).
Qed.

End ReviewOutcome.

(** ** What a run keeps *)

Section RunFrame.
Import Graph.
Variable config : Config.t.
Variable backend : Search.Backend.
Variable services : Services.

Lemma extends_refl (st : State) : extends st st.
Proof. repeat split. exists []. rewrite app_nil_r. reflexivity. Qed.

Lemma extends_trans (a b c : State) : extends a b -> extends b c -> extends a c.
Proof.
  intros (T1 & H1 & [x E1]) (T2 & H2 & [y E2]). repeat split; try congruence.
  exists (x ++ y). rewrite E2, E1, app_assoc. reflexivity.
Qed.

Lemma extends_same (st s s' : State) :
  text s' = text s -> topic_hint s' = topic_hint s -> errors s' = errors s ->
  extends st s -> extends st s'.
Proof.
  intros T H E (T1 & H1 & [x E1]). repeat split; try congruence.
  exists x. congruence.
Qed.

Lemma extends_add_error (st s : State) (msg : string) :
  extends st s -> extends st (add_error s msg).
Proof.
  intros (T1 & H1 & [x E1]). repeat split; trivial.
  exists (x ++ [msg]). simpl. rewrite E1, app_assoc. reflexivity.
Qed.

Lemma extract_key_points_extends (st : State) :
  extends st (extract_key_points services st).
Proof.
  unfold extract_key_points.
  destruct (String.eqb (text st) EmptyString).
  { eapply extends_same; [| | |apply extends_add_error, extends_refl]; reflexivity. }
  destruct (chat_completion services _) as [content|e].
  - destruct (_parse_json services content) as [| | | |[|j js]|];
      try (eapply extends_same; [| | |apply extends_add_error, extends_refl]; reflexivity).
    destruct (flat_map (key_point_of services) (j :: js)).
    + eapply extends_same; [| | |apply extends_add_error, extends_refl]; reflexivity.
    + eapply extends_same; [| | |apply extends_refl]; reflexivity.
  - eapply extends_same; [| | |apply extends_add_error, extends_refl]; reflexivity.
Qed.

Lemma generate_posts_extends (st : State) : extends st (generate_posts services st).
Proof.
  unfold generate_posts.
  apply (fold_left_invariant (extends st)).
  - eapply extends_same; [| | |apply extends_refl]; reflexivity.
  - intros s p Hs. unfold generate_posts_step.
    destruct (llm_invoke services _); [|apply extends_add_error, Hs].
    destruct (_parse_json services _) as [| | | | |[|f fs]];
      try (apply extends_add_error, Hs).
    destruct (mentions_of services _); [|apply extends_add_error, Hs].
    destruct (make_post services _ _ _); [|apply extends_add_error, Hs].
    eapply extends_same; [| | |exact Hs]; reflexivity.
Qed.

Lemma analyze_embeddings_extends (st : State) :
  extends st (analyze_embeddings services st).
Proof.
  unfold analyze_embeddings.
  assert (Hsame : forall s v, extends st s -> extends st (set_embedding_analysis s v)).
  { intros s v Hs. eapply extends_same; [| | |exact Hs]; reflexivity. }
  destruct (text st) eqn:T; [apply Hsame, extends_refl|].
  destruct (drafts st) eqn:D; [apply Hsame, extends_refl|].
  destruct (analyze_content_embeddings services _ _ _) as [results|e];
    [|apply Hsame, extends_add_error, extends_refl].
  destruct (PyJson.obj_get results _) as [scores|]; [|apply Hsame, extends_refl].
  destruct (add_quality services scores _) as [posts [e|]].
  - apply Hsame, extends_add_error.
    eapply extends_same; [| | |apply extends_refl]; reflexivity.
  - eapply extends_same; [| | |apply extends_refl]; reflexivity.
Qed.

Lemma extract_claims_extends (st : State) : extends st (extract_claims services st).
Proof.
  unfold extract_claims.
  apply (fold_left_invariant (extends st)).
  - eapply extends_same; [| | |apply extends_refl]; reflexivity.
  - intros s kv Hs. unfold extract_claims_step.
    destruct (llm_invoke services _).
    + destruct (_parse_json services _) as [| | | | [|j js] |];
        try (eapply extends_same; [| | |exact Hs]; reflexivity).
      destruct (claims_of services (j :: js)).
      * eapply extends_same; [| | |exact Hs]; reflexivity.
      * eapply extends_same; [| | |apply extends_add_error, Hs]; reflexivity.
    + eapply extends_same; [| | |apply extends_add_error, Hs]; reflexivity.
Qed.

Lemma fact_check_with_extends (verify : list Claim.t -> Exc (list Claim.t)) (st : State) :
  extends st (fact_check_with verify st).
Proof.
  unfold fact_check_with.
  destruct (fold_left aggregate_step (claims st) ([], [])) as [all m].
  destruct (verify all); [|apply extends_add_error, extends_refl].
  apply (fold_left_invariant (extends st)); [apply extends_refl|].
  intros s k Hs. unfold redistribute.
  destruct (Dict.get m k); trivial. destruct (Dict.get (claims s) k); trivial.
Qed.

Lemma compliance_extends (st : State) : extends st (fst (compliance config st)).
Proof.
  unfold compliance.
  apply (for_each_invariant (extends st)).
  - eapply extends_same; [| | |apply extends_refl]; reflexivity.
  - intros s kv Hs. eapply extends_same; [| | |exact Hs]; reflexivity.
Qed.

Lemma remediate_extends (st : State) :
  extends st (fst (remediate_if_blocked config services st)).
Proof.
  unfold remediate_if_blocked.
  apply (for_each_invariant (extends st)); [apply extends_refl|].
  intros s kv Hs. unfold remediate_step, remediate_one.
  destruct (PostReview.status (snd kv)); trivial.
  destruct (Dict.get (drafts s) (fst kv)); [|apply extends_add_error, Hs].
  destruct (llm_invoke services _); [|apply extends_add_error, Hs].
  eapply extends_same; [| | |exact Hs]; reflexivity.
Qed.

Lemma schedule_extends (st : State) : extends st (schedule services st).
Proof.
  unfold schedule. destruct (suggest_times services _ _ _).
  - eapply extends_same; [| | |apply extends_refl]; reflexivity.
  - eapply extends_same; [| | |apply extends_add_error, extends_refl]; reflexivity.
Qed.

(** X9. A run of the graph never touches the input text or the topic hint
    and never drops, reorders or rewrites an error already recorded: the
    final [errors] list is the initial one followed by the new entries. *)
Theorem run_graph_extends (st0 : State) :
  Graph.text (fst (run_graph config backend services st0)) = Graph.text st0
  /\ Graph.topic_hint (fst (run_graph config backend services st0)) = Graph.topic_hint st0
  /\ exists added,
       Graph.errors (fst (run_graph config backend services st0))
       = Graph.errors st0 ++ added.
Proof.
  change (extends st0 (fst (run_graph config backend services st0))).
  rewrite run_graph_unfold. cbv zeta. cbn [fst].
  eapply extends_trans; [|apply schedule_extends].
  eapply extends_trans; [|apply remediate_extends].
  eapply extends_trans; [|apply compliance_extends].
  unfold before_compliance, fact_check.
  eapply extends_trans; [|apply fact_check_with_extends].
  eapply extends_trans; [|apply extract_claims_extends].
  eapply extends_trans; [|apply analyze_embeddings_extends].
  eapply extends_trans; [|apply generate_posts_extends].
  apply extract_key_points_extends.
Qed.

End RunFrame.

(** ** The drafts and the claims the generation nodes store *)

Section GeneratedState.
Import Graph.
Variable services : Services.

Lemma make_post_valid (p : Platform) (fields : list (string * Json))
  (mentions : list string) (post : PlatformPost.t) :
  make_post services p fields mentions = Ok post -> valid_draft (p, post).
Proof.
  unfold make_post.
  destruct (match PyJson.obj_get fields "primary_text" with
            | Some (JStr s) => Some s
            | Some _ => None
            | None => Some EmptyString
            end) as [primary|]; [|discriminate].
  destruct (match PyJson.obj_get fields "thread" with
            | Some JNull => Some None
            | Some v =>
                match str_list_of v with
                | Some l => Some (Some l)
                | None => None
                end
            | None => Some None
            end) as [thread|]; [|discriminate].
  destruct (match PyJson.obj_get fields "hashtags" with
            | Some v => str_list_of v
            | None => Some []
            end) as [hashtags|]; [|discriminate].
  destruct (within_character_limits p primary) eqn:W; [|discriminate].
  intros [= <-]. repeat split. exact W.
Qed.

Lemma subseq_app_skip {A : Type} (l a b : list A) (x : A) :
  subseq l (a ++ b) -> subseq l (a ++ x :: b).
Proof.
  revert l. induction a as [|y a IH]; simpl; intros l H.
  - apply subseq_skip, H.
  - inversion H; subst.
    + apply subseq_skip. apply IH. assumption.
    + apply subseq_keep. apply IH. assumption.
Qed.

Lemma generate_fold (f : State -> Platform -> State) :
  (forall s p,
      (exists post, valid_draft (p, post)
                    /\ f s p = set_drafts s (Dict.set (drafts s) p post))
      \/ (exists msg, f s p = add_error s msg)) ->
  forall ps s,
    NoDup ps ->
    (forall p, In p ps -> ~ In p (Dict.keys (drafts s))) ->
    Forall valid_draft (drafts s) ->
    Forall valid_draft (drafts (fold_left f ps s))
    /\ subseq (Dict.keys (drafts (fold_left f ps s))) (Dict.keys (drafts s) ++ ps)
    /\ List.length (drafts (fold_left f ps s)) + List.length (errors (fold_left f ps s))
       = List.length (drafts s) + List.length (errors s) + List.length ps.
Proof.
  intro Hf. induction ps as [|p ps IH]; intros s Hnd Hout Hgood.
  - simpl. rewrite app_nil_r. split; [exact Hgood|]. split; [apply subseq_refl | lia].
  - inversion Hnd as [|? ? Hp Hnd']; subst. cbn [fold_left].
    destruct (Hf s p) as [[post [Hv E]] | [msg E]]; rewrite E.
    + destruct (IH (set_drafts s (Dict.set (drafts s) p post)) Hnd') as (I1 & I2 & I3).
      * intros q Hq. cbn [drafts set_drafts].
        rewrite keys_set_absent by (apply Hout; left; reflexivity).
        rewrite in_app_iff. intros [H | [<- | []]]; [|contradiction].
        apply (Hout q); [right; exact Hq | exact H].
      * cbn [drafts set_drafts]. apply Forall_set; trivial.
      * cbn [drafts set_drafts errors] in *.
        rewrite keys_set_absent in I2 by (apply Hout; left; reflexivity).
        rewrite <- app_assoc in I2. simpl in I2.
        repeat split; trivial.
        rewrite I3.
        assert (Hl : List.length (Dict.set (drafts s) p post) = S (List.length (drafts s))).
        { rewrite <- !(length_map fst). change (map fst) with (@Dict.keys PlatformPost.t).
          rewrite keys_set_absent by (apply Hout; left; reflexivity).
          rewrite length_app. simpl. lia. }
        rewrite Hl. simpl. lia.
    + destruct (IH (add_error s msg) Hnd') as (I1 & I2 & I3).
      * intros q Hq. apply Hout. right. exact Hq.
      * exact Hgood.
      * cbn [drafts add_error errors] in *.
        repeat split; trivial.
        -- apply subseq_app_skip, I2.
        -- rewrite I3, length_app. simpl. lia.
Qed.

(** X10. [generate_posts] starts from an empty draft map and, for each of
    the three platforms in turn, stores a draft or records one error.  So
    the drafts are filed under distinct platforms in the order twitter,
    linkedin, instagram, every stored draft carries its own platform and a
    text within that platform's character limits, and the number of drafts
    plus the number of errors added is three. *)
Theorem generate_posts_drafts (st : State) :
  Forall valid_draft (drafts (generate_posts services st))
  /\ subseq (Dict.keys (drafts (generate_posts services st)))
            [twitter; linkedin; instagram]
  /\ List.length (drafts (generate_posts services st))
     + List.length (errors (generate_posts services st))
     = List.length (errors st) + 3.
Proof.
  unfold generate_posts.
  match goal with
  | |- context [fold_left ?f [twitter; linkedin; instagram] ?s0] =>
      destruct (generate_fold f) with (ps := [twitter; linkedin; instagram]) (s := s0)
        as (H1 & H2 & H3)
  end.
  - intros s p. unfold generate_posts_step.
    destruct (llm_invoke services _); [|right; eexists; reflexivity].
    destruct (_parse_json services _) as [| | | | |[|f fs]];
      try (right; eexists; reflexivity).
    destruct (mentions_of services _); [|right; eexists; reflexivity].
    destruct (make_post services p (f :: fs) _) as [post|] eqn:M;
      [|right; eexists; reflexivity].
    left. exists post. split; [|reflexivity].
    eapply make_post_valid, M.
  - repeat constructor; simpl; intuition discriminate.
  - intros p _ [].
  - constructor.
  - repeat split; trivial.
Qed.

Lemma claim_of_unverified (fields : list (string * Json)) (c : Claim.t) :
  claim_of services fields = Ok c -> unverified c.
Proof.
  unfold claim_of.
  destruct (PyJson.obj_get fields "text") as [[| | |t| |]|]; try discriminate.
  destruct (PyJson.obj_get fields "severity") as [[| | |s| |]|]; try discriminate.
  - destruct (String.eqb s "low"); [intros [= <-]; split; reflexivity|].
    destruct (String.eqb s "medium"); [intros [= <-]; split; reflexivity|].
    destruct (String.eqb s "high"); [intros [= <-]; split; reflexivity|].
    discriminate.
  - intros [= <-]. split; reflexivity.
Qed.

Lemma claims_of_unverified (parsed : list Json) (cs : list Claim.t) :
  claims_of services parsed = Ok cs -> Forall unverified cs.
Proof.
  revert cs. induction parsed as [|item parsed IH]; intros cs; simpl.
  - intros [= <-]. constructor.
  - destruct item as [| | | | |fields]; try apply IH.
    destruct (PyJson.obj_get fields "text"); [|apply IH].
    destruct (claim_of services fields) as [c|] eqn:C; [|discriminate].
    destruct (claims_of services parsed) as [rest|]; [|discriminate].
    intros [= <-]. constructor.
    + eapply claim_of_unverified, C.
    + apply IH. reflexivity.
Qed.

Lemma extract_claims_step_sets (t : string) (s : State) (kv : Platform * PlatformPost.t) :
  exists cs,
    Forall unverified cs
    /\ claims (extract_claims_step services t s kv) = Dict.set (claims s) (fst kv) cs
    /\ drafts (extract_claims_step services t s kv) = drafts s.
Proof.
  unfold extract_claims_step.
  destruct (llm_invoke services _);
    [|exists []; repeat split; constructor].
  destruct (_parse_json services _) as [| | | | [|j js] |];
    try (exists []; repeat split; constructor).
  destruct (claims_of services (j :: js)) as [cs|] eqn:E.
  - exists cs. repeat split. eapply claims_of_unverified, E.
  - exists []. repeat split; constructor.
Qed.

Lemma extract_claims_fold (t : string) (ds : Dict.t PlatformPost.t) (s : State) :
  NoDup (Dict.keys ds) ->
  (forall p, In p (Dict.keys ds) -> ~ In p (Dict.keys (claims s))) ->
  Forall (fun kv => Forall unverified (snd kv)) (claims s) ->
  Dict.keys (claims (fold_left (extract_claims_step services t) ds s))
  = Dict.keys (claims s) ++ Dict.keys ds
  /\ Forall (fun kv => Forall unverified (snd kv))
       (claims (fold_left (extract_claims_step services t) ds s)).
Proof.
  revert s. induction ds as [|kv ds IH]; intros s Hnd Hout Hgood.
  - simpl. rewrite app_nil_r. auto.
  - inversion Hnd as [|? ? Hk Hnd']; subst. cbn [fold_left].
    destruct (extract_claims_step_sets t s kv) as [cs (Hcs & Hc & _)].
    assert (Hkeys : Dict.keys (claims (extract_claims_step services t s kv))
                    = Dict.keys (claims s) ++ [fst kv]).
    { rewrite Hc. apply keys_set_absent. apply Hout. left. reflexivity. }
    destruct (IH (extract_claims_step services t s kv) Hnd') as [I1 I2].
    + intros p Hp. rewrite Hkeys, in_app_iff. intros [H | [<- | []]].
      * apply (Hout p); [right; exact Hp | exact H].
      * contradiction.
    + rewrite Hc. apply Forall_set; trivial.
    + split; trivial. rewrite I1, Hkeys, <- app_assoc. reflexivity.
Qed.

(** X11. Given drafts under distinct platforms, [extract_claims] leaves
    exactly one claim list per draft, in the order of the drafts (an empty
    list where extraction failed), and every claim it creates is
    unverified: no source, confidence 0. *)
Theorem extract_claims_shape (st : State) :
  NoDup (Dict.keys (drafts st)) ->
  Dict.keys (claims (extract_claims services st)) = Dict.keys (drafts st)
  /\ Forall (fun kv => Forall unverified (snd kv)) (claims (extract_claims services st)).
Proof.
  intro Hnd. unfold extract_claims.
  assert (Hout : forall p, In p (Dict.keys (drafts (set_claims st []))) ->
                           ~ In p (Dict.keys (claims (set_claims st []))))
    by (intros p _ []).
  assert (Hgood : Forall (fun kv : Platform * list Claim.t => Forall unverified (snd kv))
                    (claims (set_claims st []))) by constructor.
  destruct (extract_claims_fold (text (set_claims st [])) (drafts (set_claims st []))
              (set_claims st []) Hnd Hout Hgood) as [H1 H2].
  split; trivial.
Qed.

End GeneratedState.

(** ** The reviews a run ends with *)

Section FinalReviews.
Import Graph.
Variable config : Config.t.
Variable backend : Search.Backend.
Variable services : Services.

Lemma for_each_invariant_In {A S : Type} (P : S -> Prop)
  (body : S -> A -> Traced S) (xs : list A) (st : S) :
  P st -> (forall s x, In x xs -> P s -> P (fst (body s x))) ->
  P (fst (for_each xs body st)).
Proof.
  revert st. induction xs as [|x xs IH]; intros st Hst Hbody; [exact Hst|].
  rewrite for_each_cons. cbn [fst]. apply IH.
  - apply Hbody; simpl; auto.
  - intros s y Hy. apply Hbody. simpl. auto.
Qed.

Lemma In_get {V : Type} (d : Dict.t V) (k : Platform) (v : V) :
  NoDup (Dict.keys d) -> In (k, v) d -> Dict.get d k = Some v.
Proof.
  induction d as [|[k' v'] d IH]; simpl; intros Hnd Hin; [contradiction|].
  inversion Hnd as [|? ? Hout Hnd']; subst.
  destruct Hin as [[= -> ->] | Hin].
  - rewrite Platform_eqb_refl. reflexivity.
  - destruct (Platform_eqb k' k) eqn:E.
    + apply Platform_eqb_eq in E. subst. exfalso. apply Hout.
      apply (in_map fst) in Hin. exact Hin.
    + apply IH; trivial.
Qed.

Lemma get_set_cases {V : Type} (d : Dict.t V) (k p : Platform) (v w : V) :
  Dict.get (Dict.set d k v) p = Some w ->
  (p = k /\ w = v) \/ (p <> k /\ Dict.get d p = Some w).
Proof.
  destruct (Platform_eqb k p) eqn:E.
  - apply Platform_eqb_eq in E. subst. rewrite get_set_same. intros [= ->]. auto.
  - apply Platform_eqb_neq in E. rewrite get_set_other by exact E.
    intro H. right. split; [congruence | exact H].
Qed.

(** After the compliance node: one review per draft, in the order of the
    drafts, each the review of its draft. *)
Lemma compliance_loop_keys (ds : Dict.t PlatformPost.t) (s : State) :
  NoDup (Dict.keys ds) ->
  (forall p, In p (Dict.keys ds) -> ~ In p (Dict.keys (reviews s))) ->
  Dict.keys (reviews (fst (for_each ds (compliance_step config) s)))
  = Dict.keys (reviews s) ++ Dict.keys ds.
Proof.
  revert s. induction ds as [|kv ds IH]; intros s Hnd Hout.
  - simpl. rewrite app_nil_r. reflexivity.
  - inversion Hnd as [|? ? Hk Hnd']; subst.
    rewrite for_each_cons. cbn [fst].
    destruct (compliance_step_reviews config s kv) as [review Hr].
    assert (Hkeys : Dict.keys (reviews (fst (compliance_step config s kv)))
                    = Dict.keys (reviews s) ++ [fst kv]).
    { rewrite Hr. apply keys_set_absent. apply Hout. left. reflexivity. }
    rewrite IH; trivial.
    + rewrite Hkeys, <- app_assoc. reflexivity.
    + intros p Hp. rewrite Hkeys, in_app_iff. intros [H | [<- | []]].
      * apply (Hout p); [right; exact Hp | exact H].
      * contradiction.
Qed.

Lemma compliance_current (st : State) :
  NoDup (Dict.keys (drafts st)) ->
  Dict.keys (reviews (fst (compliance config st))) = Dict.keys (drafts st)
  /\ reviews_current config (fst (compliance config st)).
Proof.
  intro Hnd. split.
  - unfold compliance. rewrite compliance_loop_keys; trivial.
    intros p _ [].
  - unfold compliance.
    apply (for_each_invariant_In
             (fun s => drafts s = drafts st /\ claims s = claims st
                       /\ reviews_current config s)).
    + repeat split. intros p review H. discriminate.
    + intros s [k post] Hin (Hd & Hc & Hcur). repeat split; trivial.
      intros p review H.
      change (Dict.get (Dict.set (reviews s) k
                          (Compliance.review_post config k
                             (PlatformPost.primary_text post) (claims_for s k))) p
              = Some review) in H.
      change (drafts (fst (compliance_step config s (k, post)))) with (drafts s).
      apply get_set_cases in H. destruct H as [[-> ->] | [Hne H]].
      * exists post. split; [|reflexivity].
        rewrite Hd. apply In_get; trivial.
      * apply Hcur, H.
Qed.

Lemma claims_for_frame (s s' : State) (p : Platform) :
  claims s' = claims s -> claims_for s' p = claims_for s p.
Proof. unfold claims_for. intros ->. reflexivity. Qed.

Lemma remediate_step_current (s : State) (kv : Platform * PostReview.t) :
  In (fst kv) (Dict.keys (reviews s)) ->
  reviews_current config s ->
  reviews_current config (fst (remediate_step config services s kv))
  /\ Dict.keys (reviews (fst (remediate_step config services s kv)))
     = Dict.keys (reviews s)
  /\ Dict.keys (drafts (fst (remediate_step config services s kv)))
     = Dict.keys (drafts s).
Proof.
  intros Hin Hcur. unfold remediate_step, remediate_one.
  destruct (PostReview.status (snd kv)); try (repeat split; trivial; fail).
  destruct (Dict.get (drafts s) (fst kv)) as [post|] eqn:D;
    [|repeat split; trivial].
  destruct (llm_invoke services _) as [content|]; [|repeat split; trivial].
  cbn [fst ret bind call_review_post drafts reviews set_drafts set_reviews].
  split; [|split].
  - intros p review H.
    cbn [fst ret bind call_review_post drafts reviews set_drafts set_reviews] in *.
    apply get_set_cases in H. destruct H as [[-> ->] | [Hne H]].
    + eexists. rewrite get_set_same. split; reflexivity.
    + destruct (Hcur p review H) as [post' [Hd Hr]].
      exists post'. rewrite get_set_other by congruence. split; trivial.
  - apply keys_set_present, Hin.
  - apply keys_set_present. apply get_Some_In_keys. eauto.
Qed.

Lemma remediate_current (st : State) :
  reviews_current config st ->
  reviews_current config (fst (remediate_if_blocked config services st))
  /\ Dict.keys (reviews (fst (remediate_if_blocked config services st)))
     = Dict.keys (reviews st)
  /\ Dict.keys (drafts (fst (remediate_if_blocked config services st)))
     = Dict.keys (drafts st).
Proof.
  intro Hcur. unfold remediate_if_blocked.
  apply (for_each_invariant_In
           (fun s => reviews_current config s
                     /\ Dict.keys (reviews s) = Dict.keys (reviews st)
                     /\ Dict.keys (drafts s) = Dict.keys (drafts st))).
  - auto.
  - intros s kv Hin (H1 & H2 & H3).
    destruct (remediate_step_current s kv) as (R1 & R2 & R3); trivial.
    + rewrite H2. apply in_map, Hin.
    + repeat split; trivial; congruence.
Qed.

Lemma schedule_frame (st : State) :
  drafts (schedule services st) = drafts st
  /\ reviews (schedule services st) = reviews st
  /\ claims (schedule services st) = claims st.
Proof.
  unfold schedule. destruct (suggest_times services _ _ _); repeat split.
Qed.

(** X12. At the end of a run there is exactly one review per draft, filed
    under the same platforms in the same order, and each review is the
    review of the text its draft has at the end, with the claims the state
    holds for that platform: after a rewrite the old review is never left
    beside the new text. *)
Theorem run_graph_reviews (st0 : State) :
  Dict.keys (reviews (fst (run_graph config backend services st0)))
  = Dict.keys (drafts (fst (run_graph config backend services st0)))
  /\ reviews_current config (fst (run_graph config backend services st0)).
Proof.
  rewrite run_graph_unfold. cbv zeta. cbn [fst].
  set (pre := before_compliance config backend services st0).
  pose proof (before_compliance_NoDup config backend services st0) as Hnd.
  fold pre in Hnd.
  destruct (compliance_current pre Hnd) as [K1 C1].
  destruct (remediate_current (fst (compliance config pre)) C1) as (C2 & K2 & K3).
  destruct (schedule_frame (fst (remediate_if_blocked config services
                                   (fst (compliance config pre))))) as (S1 & S2 & S3).
  split.
  - rewrite S1, S2, K2, K3, K1.
    rewrite (proj1 (proj2 (compliance_claims config pre))). reflexivity.
  - intros p review H. rewrite S2 in H.
    destruct (C2 p review H) as [post [Hd Hr]].
    exists post. rewrite S1. split; trivial.
    rewrite Hr. f_equal. symmetry. apply claims_for_frame, S3.
Qed.

End FinalReviews.

(** ** Standard mode *)

Section StandardMode.
Import Graph.
Variable config : Config.t.
Variable backend : Search.Backend.
Variable services : Services.
Hypothesis Hstandard : String.eqb (Config.COMPLIANCE_MODE config) "strict" = false.

Lemma standard_not_block (p : Platform) (text : string) (claims : list Claim.t) :
  is_block (PostReview.status (Compliance.review_post config p text claims)) = false.
Proof.
  rewrite review_post_status, Hstandard. cbn [andb].
  destruct (_ || _); reflexivity.
Qed.

Lemma compliance_trace (ds : Dict.t PlatformPost.t) (s : State) :
  snd (for_each ds (compliance_step config) s) = one_call_per_draft ds.
Proof.
  revert s. induction ds as [|kv ds IH]; intro s; [reflexivity|].
  rewrite for_each_cons. cbn [snd]. rewrite IH, compliance_step_trace. reflexivity.
Qed.

Lemma compliance_no_block (st : State) :
  Forall (fun kv => is_block (PostReview.status (snd kv)) = false)
    (reviews (fst (compliance config st))).
Proof.
  unfold compliance.
  apply (for_each_invariant
           (fun s => Forall (fun kv => is_block (PostReview.status (snd kv)) = false)
                       (reviews s))).
  - constructor.
  - intros s kv Hs.
    destruct (compliance_step_reviews config s kv) as [review Hr].
    change (Forall (fun kv0 => is_block (PostReview.status (snd kv0)) = false)
              (Dict.set (reviews s) (fst kv)
                 (Compliance.review_post config (fst kv)
                    (PlatformPost.primary_text (snd kv)) (claims_for s (fst kv))))).
    apply Forall_set; trivial. apply standard_not_block.
Qed.

Lemma remediate_nothing (rs : Dict.t PostReview.t) (s : State) :
  Forall (fun kv => is_block (PostReview.status (snd kv)) = false) rs ->
  for_each rs (remediate_step config services) s = (s, []).
Proof.
  intro H. revert s. induction H as [|kv rs Hkv _ IH]; intro s; [reflexivity|].
  rewrite for_each_cons.
  assert (E : remediate_step config services s kv = (s, [])).
  { unfold remediate_step. destruct (PostReview.status (snd kv)); try reflexivity.
    discriminate. }
  rewrite E. cbn [fst snd]. rewrite IH. reflexivity.
Qed.

Lemma run_graph_parts (st s1 s2 : State) (t1 t2 : list Event) :
  compliance config (before_compliance config backend services st) = (s1, t1) ->
  remediate_if_blocked config services s1 = (s2, t2) ->
  run_graph config backend services st = (schedule services s2, t1 ++ t2).
Proof.
  intros H1 H2. unfold run_graph, bind, ret. rewrite H1. cbn [fst snd].
  rewrite H2. cbn [fst snd]. rewrite app_nil_r. reflexivity.
Qed.

Lemma compliance_node_trace (st : State) :
  snd (compliance config st) = one_call_per_draft (drafts st).
Proof. unfold compliance. apply compliance_trace. Qed.

Lemma remediate_if_blocked_nothing (st : State) :
  remediate_if_blocked config services (fst (compliance config st))
  = (fst (compliance config st), []).
Proof.
  unfold remediate_if_blocked. apply remediate_nothing, compliance_no_block.
Qed.

(** X13. Outside strict mode no review is ever [block], so remediation
    changes nothing and asks for no rewrite: the run is the compliance pass
    followed by scheduling, with exactly one call of the compliance engine
    per draft, in the order of the drafts. *)
Theorem standard_run_single_pass (st0 : State) :
  run_graph config backend services st0
  = (schedule services
       (fst (compliance config (before_compliance config backend services st0))),
     one_call_per_draft (drafts (before_compliance config backend services st0))).
Proof.
  transitivity
    (schedule services
       (fst (compliance config (before_compliance config backend services st0))),
     one_call_per_draft (drafts (before_compliance config backend services st0))
     ++ []).
  - apply run_graph_parts with
      (s1 := fst (compliance config (before_compliance config backend services st0))).
    + rewrite <- compliance_node_trace. apply surjective_pairing.
    + apply remediate_if_blocked_nothing.
  - f_equal. apply app_nil_r.
Qed.

End StandardMode.

(** The standard-mode run of the samples. *)
Lemma standard_run_single_pass_witness :
  Sample.standard_run
  = (Graph.schedule (Sample.world false)
       (fst (Graph.compliance Sample.standard
               (Graph.before_compliance Sample.standard Sample.failing_backend
                  (Sample.world false) Sample.initial_state))),
     one_call_per_draft
       (Graph.drafts
          (Graph.before_compliance Sample.standard Sample.failing_backend
             (Sample.world false) Sample.initial_state))).
Proof.
  apply (standard_run_single_pass Sample.standard Sample.failing_backend
           (Sample.world false)).
  reflexivity.
Defined.

(** ** Redistribution of the verified claims *)

Section Alignment.
Import Graph.
Variable config : Config.t.
Variable backend : Search.Backend.

Lemma aggregate_fold (d : Dict.t (list Claim.t)) (all0 : list Claim.t) (m0 : Dict.t nat) :
  fst (fold_left aggregate_step d (all0, m0)) = all0 ++ List.concat (map snd d)
  /\ (forall k, ~ In k (Dict.keys d) ->
                Dict.get (snd (fold_left aggregate_step d (all0, m0))) k = Dict.get m0 k).
Proof.
  revert all0 m0. induction d as [|[k cs] d IH]; intros all0 m0; simpl.
  - rewrite app_nil_r. auto.
  - destruct (IH (all0 ++ cs) (Dict.set m0 k (List.length all0))) as [I1 I2].
    split.
    + rewrite I1, <- app_assoc. reflexivity.
    + intros q Hq. rewrite I2 by tauto. apply get_set_other. tauto.
Qed.

(** With distinct keys, the position recorded for a platform is the number
    of claims of the platforms before it. *)
Lemma aggregate_position (before after : Dict.t (list Claim.t)) (k : Platform)
  (cs : list Claim.t) :
  NoDup (Dict.keys (before ++ (k, cs) :: after)) ->
  Dict.get (snd (fold_left aggregate_step (before ++ (k, cs) :: after) ([], []))) k
  = Some (List.length (List.concat (map snd before))).
Proof.
  intro Hnd. rewrite fold_left_app. cbn [fold_left].
  set (acc := fold_left aggregate_step before ([], [])).
  assert (F1 : fst acc = List.concat (map snd before))
    by (apply (aggregate_fold before [] [])).
  destruct acc as [all1 m1]. simpl in F1.
  unfold aggregate_step at 2. cbn [fst snd].
  destruct (aggregate_fold after (all1 ++ cs) (Dict.set m1 k (List.length all1)))
    as [_ G2].
  rewrite G2.
  - rewrite get_set_same, F1. reflexivity.
  - unfold Dict.keys in Hnd. rewrite map_app in Hnd. simpl in Hnd.
    apply NoDup_remove_2 in Hnd. intro H. apply Hnd. apply in_or_app. right. exact H.
Qed.

Lemma slice_middle {A : Type} (a b c : list A) :
  slice (a ++ b ++ c) (List.length a) (List.length a + List.length b) = b.
Proof.
  unfold slice. replace (List.length a + List.length b - List.length a)
    with (List.length b) by lia.
  induction a as [|x a IH]; simpl; [|exact IH].
  induction b as [|y b IHb]; simpl; [reflexivity|]. rewrite IHb. reflexivity.
Qed.

Lemma get_app_absent {V : Type} (a b : Dict.t V) (k : Platform) :
  ~ In k (Dict.keys a) -> Dict.get (a ++ b) k = Dict.get b k.
Proof.
  induction a as [|[k' v'] a IH]; simpl; intro H; trivial.
  destruct (Platform_eqb k' k) eqn:E.
  - apply Platform_eqb_eq in E. tauto.
  - apply IH. tauto.
Qed.

Lemma set_app_absent {V : Type} (a b : Dict.t V) (k : Platform) (v w : V) :
  ~ In k (Dict.keys a) ->
  Dict.set (a ++ (k, w) :: b) k v = a ++ (k, v) :: b.
Proof.
  induction a as [|[k' v'] a IH]; simpl; intro H.
  - rewrite Platform_eqb_refl. reflexivity.
  - destruct (Platform_eqb k' k) eqn:E.
    + apply Platform_eqb_eq in E. tauto.
    + rewrite IH by tauto. reflexivity.
Qed.

Lemma redistribute_aligned (f : Claim.t -> Claim.t) (d : Dict.t (list Claim.t))
  (m : Dict.t nat) :
  NoDup (Dict.keys d) ->
  (forall before k cs after,
      d = before ++ (k, cs) :: after ->
      Dict.get m k = Some (List.length (List.concat (map snd before)))) ->
  forall todo done s,
    d = done ++ todo ->
    claims s = map (fun kv => (fst kv, map f (snd kv))) done ++ todo ->
    claims (fold_left (redistribute (map f (List.concat (map snd d))) m)
              (Dict.keys todo) s)
    = map (fun kv => (fst kv, map f (snd kv))) d.
Proof.
  intros Hnd Hm. induction todo as [|[k cs] todo IH]; intros done s Hd Hs.
  - simpl. rewrite Hs, Hd, !app_nil_r. reflexivity.
  - cbn [Dict.keys map fst fold_left].
    assert (Hk : ~ In k (Dict.keys (map (fun kv => (fst kv, map f (snd kv))) done))).
    { unfold Dict.keys. rewrite map_map. simpl.
      rewrite Hd in Hnd. unfold Dict.keys in Hnd. rewrite map_app in Hnd. simpl in Hnd.
      apply NoDup_remove_2 in Hnd. intro H. apply Hnd. apply in_or_app. left. exact H. }
    assert (Hstep :
      claims (redistribute (map f (List.concat (map snd d))) m s k)
      = map (fun kv => (fst kv, map f (snd kv))) (done ++ [(k, cs)]) ++ todo).
    { unfold redistribute.
      rewrite (Hm done k cs todo Hd), Hs, get_app_absent by exact Hk.
      simpl Dict.get. rewrite Platform_eqb_refl.
      cbn [claims set_claims]. rewrite set_app_absent by exact Hk.
      rewrite map_app, <- app_assoc. simpl. do 3 f_equal.
      rewrite Hd, map_app, concat_app. simpl. rewrite !map_app.
      rewrite <- (length_map f (List.concat (map snd done))).
      rewrite <- (length_map f cs).
      apply slice_middle. }
    apply (IH (done ++ [(k, cs)]) _).
    + rewrite <- app_assoc. exact Hd.
    + exact Hstep.
Qed.

(** X14. When the platforms' claim lists share no duplicate (deduplication
    of the aggregated list drops nothing), [fact_check] replaces every
    claim by its verified version, platform by platform and in place: each
    platform keeps its own claims.  (The slices are cut at the positions
    and lengths of the list before deduplication, so this alignment needs
    the hypothesis.) *)
Theorem fact_check_aligned (st : State) :
  NoDup (Dict.keys (claims st)) ->
  FactCheck._deduplicate_claims (all_claims st) = all_claims st ->
  claims (fact_check config backend st)
  = map (fun kv => (fst kv, map (FactCheck._verify_single_claim config backend) (snd kv)))
      (claims st).
Proof.
  intros Hnd Hdedup. unfold fact_check, fact_check_with.
  set (acc := fold_left aggregate_step (claims st) ([], [])).
  assert (Hall : fst acc = List.concat (map snd (claims st)))
    by (apply (aggregate_fold (claims st) [] [])).
  assert (Hpos' : forall before k cs after,
             claims st = before ++ (k, cs) :: after ->
             Dict.get (snd acc) k
             = Some (List.length (List.concat (map snd before)))).
  { intros before k cs after E. unfold acc. rewrite E.
    apply aggregate_position. rewrite <- E. exact Hnd. }
  destruct acc as [all m].
  simpl in Hall, Hpos'. subst all.
  unfold FactCheck.verify_claims. fold (all_claims st). rewrite Hdedup.
  unfold all_claims.
  apply (redistribute_aligned (FactCheck._verify_single_claim config backend)
           (claims st) m Hnd Hpos' (claims st) [] st); reflexivity.
Qed.

End Alignment.

(** Two platforms with one claim each. *)
Lemma fact_check_aligned_witness :
  Graph.claims
    (Graph.fact_check Sample.standard Sample.failing_backend Sample.two_platform_state)
  = map (fun kv =>
           (fst kv,
            map (FactCheck._verify_single_claim Sample.standard Sample.failing_backend)
              (snd kv)))
      (Graph.claims Sample.two_platform_state).
Proof.
  apply (fact_check_aligned Sample.standard Sample.failing_backend
           Sample.two_platform_state).
  - repeat constructor; simpl; intuition discriminate.
  - vm_compute. reflexivity.
Defined.

(** ** Witnesses on the samples *)

(** The distinctness statement on three claims of which the third
    duplicates the first: the two retained claims are not similar. *)
Lemma deduplicate_distinct_witness :
  FactCheck._are_claims_similar (Claim.text Sample.commute_claim)
    (Claim.text Sample.buffer_claim)
  = false.
Proof.
  assert (H : FactCheck._deduplicate_claims Sample.three_claims
              = [Sample.buffer_claim] ++ Sample.commute_claim :: [])
    by (vm_compute; reflexivity).
  exact (proj2 (deduplicate_distinct Sample.three_claims)
           [Sample.buffer_claim] Sample.commute_claim [] H
           Sample.buffer_claim (or_introl eq_refl)).
Defined.

(** One draft, one claim list. *)
Lemma extract_claims_shape_witness :
  Dict.keys (Graph.claims (Graph.extract_claims (Sample.world false) Sample.drafted_state))
  = Dict.keys (Graph.drafts Sample.drafted_state).
Proof.
  assert (H : NoDup (Dict.keys (Graph.drafts Sample.drafted_state)))
    by (repeat constructor; simpl; tauto).
  exact (proj1 (extract_claims_shape (Sample.world false) Sample.drafted_state H)).
Defined.

(** ** Key points *)

Section KeyPoints.
Import Graph.
Variable services : Services.

Lemma key_point_of_range (item : Json) :
  Forall importance_in_range (key_point_of services item).
Proof.
  unfold key_point_of. destruct item as [| | | | |fields]; try constructor.
  destruct (PyJson.obj_get fields "text"); [|constructor].
  repeat constructor; simpl.
  - apply Q.le_max_l.
  - apply Q.max_lub; [discriminate | apply Q.le_min_l].
Qed.

Lemma flat_map_Forall {A B : Type} (P : B -> Prop) (f : A -> list B) (xs : list A) :
  (forall x, Forall P (f x)) -> Forall P (flat_map f xs).
Proof.
  intro H. induction xs as [|x xs IH]; simpl; [constructor|].
  apply Forall_app. auto.
Qed.

(** X15. [extract_key_points] ends in one of two ways: it stores a
    non-empty list of key points and records nothing, or it stores the
    empty list and records exactly one error.  Every stored key point has
    an importance between 0 and 1, whatever the generation service sent. *)
Theorem extract_key_points_outcome (st : State) :
  ((key_points (extract_key_points services st) <> []
    /\ errors (extract_key_points services st) = errors st)
   \/ (key_points (extract_key_points services st) = []
       /\ exists msg, errors (extract_key_points services st) = errors st ++ [msg]))
  /\ Forall importance_in_range (key_points (extract_key_points services st)).
Proof.
  unfold extract_key_points.
  destruct (String.eqb (text st) EmptyString).
  { split; [right; split; [reflexivity | eexists; reflexivity] | constructor]. }
  destruct (chat_completion services _) as [content|e];
    [|split; [right; split; [reflexivity | eexists; reflexivity] | constructor]].
  destruct (_parse_json services content) as [| | | |[|j js]|];
    try (split; [right; split; [reflexivity | eexists; reflexivity] | constructor]).
  pose proof (flat_map_Forall importance_in_range (key_point_of services) (j :: js)
                (key_point_of_range)) as Hr.
  destruct (flat_map (key_point_of services) (j :: js)) as [|kp kps].
  - split; [right; split; [reflexivity | eexists; reflexivity] | constructor].
  - split; [left; split; [discriminate | reflexivity] | exact Hr].
Qed.

End KeyPoints.

(** ** Scheduling *)

Section ScheduleFacts.
Import Schedule.
Variable clock : Clock.

Lemma content_type_cases (content_text topic_hint : string) :
  In (_detect_content_type content_text topic_hint) content_types.
Proof.
  unfold _detect_content_type. cbv zeta.
  repeat (destruct (any_in _ _)); simpl; auto 10.
Qed.

Lemma default_key_cases (p : Platform) (now : datetime) :
  exists b : bool,
    _get_default_timing_key p now
    = match p with
      | linkedin => if b then "tuesday_thursday" else "other_weekdays"
      | instagram => if b then "weekend_morning" else "weekday_evening"
      | twitter => if b then "weekday_primary" else "weekend"
      end.
Proof.
  unfold _get_default_timing_key. cbv zeta.
  destruct p; eexists; reflexivity.
Qed.

Lemma timing_cases (p : Platform) (ct : string) (now : datetime) :
  In ct content_types ->
  String.eqb (timing_key p ct now) "immediate" = false
  /\ ((p = twitter /\ ct = "breaking_news"
       /\ optimal_times p (timing_key p ct now) = ["immediate"])
      \/ ((p = twitter -> ct <> "breaking_news")
          /\ forallb slot_ok (optimal_times p (timing_key p ct now)) = true)).
Proof.
  intro H. simpl in H.
  destruct H as [<-|[<-|[<-|[<-|[<-|[]]]]]]; destruct p;
    unfold timing_key;
    cbn [lookup Dict.get CONTENT_TYPE_PREFERENCES Platform_eqb String.eqb Ascii.eqb
         Bool.eqb fst snd];
    try (destruct (default_key_cases twitter now) as [b ->]; destruct b);
    try (destruct (default_key_cases linkedin now) as [b ->]; destruct b);
    try (destruct (default_key_cases instagram now) as [b ->]; destruct b);
    (split; [reflexivity|]);
    solve [ left; repeat split; reflexivity
          | right; split; [intros; discriminate | vm_compute; reflexivity] ].
Qed.

Lemma ltb_later_day (a b : datetime) : (day a < day b)%Z -> ltb a b = true.
Proof.
  intro H. unfold ltb. destruct (Z.eqb_spec (day a) (day b)); [lia|].
  apply Z.ltb_lt, H.
Qed.

Lemma ltb_earlier_day (a b : datetime) : (day b < day a)%Z -> ltb a b = false.
Proof.
  intro H. unfold ltb. destruct (Z.eqb_spec (day a) (day b)); [lia|].
  apply Z.ltb_ge. lia.
Qed.

Lemma ltb_same_time (a b : datetime) (h m : Z) :
  time_of_day a h m -> time_of_day b h m -> ltb a b = (day a <? day b)%Z.
Proof.
  intros (A1 & A2 & A3 & A4) (B1 & B2 & B3 & B4). unfold ltb.
  destruct (Z.eqb_spec (day a) (day b)) as [E|E]; [|reflexivity].
  rewrite A1, A2, A3, A4, B1, B2, B3, B4, !Z.eqb_refl, E.
  rewrite !Z.ltb_irrefl. reflexivity.
Qed.

Lemma ltb_same_reading (now a b : datetime) (h m : Z) :
  day a = day b -> time_of_day a h m -> time_of_day b h m -> ltb now a = ltb now b.
Proof.
  intros E (A1 & A2 & A3 & A4) (B1 & B2 & B3 & B4). unfold ltb.
  rewrite E, A1, A2, A3, A4, B1, B2, B3, B4. reflexivity.
Qed.

Lemma weekday_saturday (now : datetime) (h m : Z) :
  weekday (add_days (mk_datetime (day now) h m 0 0) (5 - weekday now)) = 5%Z.
Proof.
  unfold weekday, add_days. cbn [day].
  pose proof (Z.div_mod (day now + 6) 7 ltac:(lia)) as H.
  replace (day now + (5 - (day now + 6) mod 7) + 6)%Z
    with (5 + (day now + 6) / 7 * 7)%Z by lia.
  rewrite Z.mod_add by lia. reflexivity.
Qed.

Lemma ltb_add_days (now : datetime) (h m n : Z) :
  (0 < n)%Z -> ltb now (add_days (mk_datetime (day now) h m 0 0) n) = true.
Proof. intro Hn. apply ltb_later_day. cbn [add_days day]. lia. Qed.

Lemma ltb_add_hours (now t : datetime) (n : Z) :
  ltb now t = true -> (0 <= hour t)%Z -> (0 < n)%Z ->
  ltb now (add_hours t n) = true.
Proof.
  intros Hlt Hh Hn. unfold ltb, add_hours in *. cbv zeta.
  cbn [day hour minute second microsecond].
  pose proof (Z.div_mod (hour t + n) 24 ltac:(lia)) as Hdm.
  pose proof (Z.mod_pos_bound (hour t + n) 24 ltac:(lia)) as Hmb.
  assert (Hq : (0 <= (hour t + n) / 24)%Z) by (apply Z.div_pos; lia).
  set (q := ((hour t + n) / 24)%Z) in *. set (r := ((hour t + n) mod 24)%Z) in *.
  destruct (Z.eqb_spec (day now) (day t)) as [Ed|Nd].
  - destruct (Z.eqb_spec (day now) (day t + q)) as [Ed'|Nd'].
    + assert (q = 0)%Z by lia.
      destruct (Z.eqb_spec (hour now) (hour t)) as [Eh|Nh].
      * destruct (Z.eqb_spec (hour now) r); [lia|]. apply Z.ltb_lt. lia.
      * apply Z.ltb_lt in Hlt.
        destruct (Z.eqb_spec (hour now) r); [lia|]. apply Z.ltb_lt. lia.
    + apply Z.ltb_lt. lia.
  - apply Z.ltb_lt in Hlt.
    destruct (Z.eqb_spec (day now) (day t + q)); [lia|]. apply Z.ltb_lt. lia.
Qed.

(** The first [h]:[m] after [now]. *)
Lemma first_occurrence (now : datetime) (h m : Z) :
  let today := mk_datetime (day now) h m 0 0 in
  let base := if leb today now then add_days today 1 else today in
  ltb now base = true
  /\ forall t, time_of_day t h m -> ltb now t = true -> leb base t = true.
Proof.
  cbv zeta.
  assert (Htoday : time_of_day (mk_datetime (day now) h m 0 0) h m) by (repeat split).
  destruct (leb (mk_datetime (day now) h m 0 0) now) eqn:L.
  - split; [apply ltb_add_days; lia|].
    intros t Ht Hlt. unfold leb.
    rewrite (ltb_same_time t (add_days (mk_datetime (day now) h m 0 0) 1) h m Ht)
      by (repeat split).
    cbn [add_days day]. apply negb_true_iff, Z.ltb_ge.
    destruct (Z.lt_ge_cases (day t) (day now)) as [Hd|Hd].
    { rewrite (ltb_earlier_day now t Hd) in Hlt. discriminate. }
    destruct (Z.eq_dec (day t) (day now)) as [E|E]; [|lia].
    rewrite (ltb_same_reading now t (mk_datetime (day now) h m 0 0) h m E Ht Htoday)
      in Hlt.
    unfold leb in L. rewrite Hlt in L. discriminate.
  - split; [unfold leb in L; apply negb_false_iff in L; exact L|].
    intros t Ht Hlt. unfold leb.
    rewrite (ltb_same_time t (mk_datetime (day now) h m 0 0) h m Ht Htoday).
    cbn [day]. apply negb_true_iff, Z.ltb_ge.
    destruct (Z.lt_ge_cases (day t) (day now)) as [Hd|Hd]; [|exact Hd].
    rewrite (ltb_earlier_day now t Hd) in Hlt. discriminate.
Qed.

Lemma slot_time_planned (time_slot : string) (now : datetime) (timezone key : string) :
  slot_ok time_slot = true ->
  exists h m base,
    parse_slot time_slot = Ok (h, m)
    /\ _calculate_optimal_slot_time time_slot now timezone key = Ok base
    /\ planned now key h m base
    /\ ltb now base = true /\ (0 <= hour base)%Z.
Proof.
  unfold slot_ok, _calculate_optimal_slot_time, planned.
  destruct (parse_slot time_slot) as [[h m]|]; [|discriminate].
  intro H. exists h, m. unfold replace_time.
  apply andb_true_iff in H. destruct H as [Hh Hm]. rewrite Hh, Hm. cbn [negb].
  apply andb_true_iff in Hh. destruct Hh as [Hh _]. apply Z.leb_le in Hh.
  destruct (PyStr.contains "weekend" key && (weekday now <? 5)%Z) eqn:E.
  - apply andb_true_iff in E. destruct E as [_ E]. apply Z.ltb_lt in E.
    assert (Hw : (0 <= weekday now)%Z)
      by (unfold weekday; apply Z.mod_pos_bound; lia).
    eexists. split; [reflexivity|]. split; [reflexivity|].
    split; [|split; [apply ltb_add_days; lia | exact Hh]].
    split; [repeat split|]. split; [apply weekday_saturday|].
    cbn [add_days day]. lia.
  - pose proof (first_occurrence now h m) as Hf. cbv zeta in Hf.
    destruct (leb (mk_datetime (day now) h m 0 0) now);
      (eexists; split; [reflexivity|]; split; [reflexivity|];
       split; [split; [repeat split|exact Hf] | split; [apply Hf | exact Hh]]).
Qed.

Lemma slot_steps (p : Platform) (ct : string) (now : datetime) (timezone key : string)
    (reg : option string) (all slots : list string) :
  incl slots all ->
  forallb slot_ok slots = true ->
  forall suggestions used, exists new used',
    fold_left (slot_step clock p ct now timezone key reg) slots (Ok (suggestions, used))
    = Ok (suggestions ++ new, used')
    /\ List.length new = List.length slots
    /\ Forall (suggestion_at clock timezone now key all p) new.
Proof.
  induction slots as [|s slots IH]; intros Hincl Hok suggestions used.
  - exists [], used. rewrite app_nil_r. repeat split. constructor.
  - cbn [forallb] in Hok. apply andb_true_iff in Hok. destruct Hok as [Hs Hrest].
    destruct (slot_time_planned s now timezone key Hs)
      as (h & m & base & Hparse & Ht & Hplan & Hlt & Hh).
    cbn [fold_left]. unfold slot_step at 2. rewrite Ht. cbv zeta.
    assert (Hincl' : incl slots all) by (intros x Hx; apply Hincl; right; exact Hx).
    match goal with
    | |- context [fold_left _ slots (Ok (suggestions ++ [?x], ?u))] =>
        destruct (IH Hincl' Hrest (suggestions ++ [x]) u)
          as (new & used' & Hf & Hl & Hall);
        exists (x :: new), used'
    end.
    rewrite Hf, <- app_assoc. split; [reflexivity|].
    split; [cbn [List.length]; rewrite Hl; reflexivity|].
    constructor; [|exact Hall].
    split; [reflexivity|].
    exists s, h, m, base.
    destruct (slot_used (time_slot_key base) used).
    + exists (add_hours base (stagger p)).
      split; [apply Hincl; left; reflexivity|]. split; [exact Hparse|].
      split; [exact Hplan|]. split; [right; reflexivity|]. split; [reflexivity|].
      apply ltb_add_hours; trivial. unfold stagger. destruct (Platform_eqb p twitter); lia.
    + exists base.
      split; [apply Hincl; left; reflexivity|]. split; [exact Hparse|].
      split; [exact Hplan|]. split; [left; reflexivity|]. split; [reflexivity|exact Hlt].
Qed.

Lemma firstn_forallb {A : Type} (f : A -> bool) (n : nat) (l : list A) :
  forallb f l = true -> forallb f (firstn n l) = true.
Proof.
  revert n. induction l as [|x l IH]; intros [|n] H; trivial.
  cbn [firstn forallb] in *. apply andb_true_iff in H. destruct H as [-> H].
  cbn [andb]. apply IH, H.
Qed.

Lemma platform_suggestions_ok (p : Platform) (ct : string) (now : datetime)
    (timezone : string) (used : list (Z * Z * Z)) (reg : option string) :
  In ct content_types -> (p = twitter -> ct <> "breaking_news") ->
  exists new used',
    _get_context_aware_suggestions clock p ct now timezone used reg = Ok (new, used')
    /\ List.length new <= 2
    /\ Forall (suggestion_at clock timezone now (timing_key p ct now)
                 (firstn 2 (optimal_times p (timing_key p ct now))) p) new.
Proof.
  intros Hct Hnot. unfold _get_context_aware_suggestions. cbv zeta.
  destruct (timing_cases p ct now Hct) as [Hk [(-> & -> & _)|[_ Hslots]]].
  - exfalso. apply Hnot; reflexivity.
  - rewrite Hk.
    destruct (slot_steps p ct now timezone (timing_key p ct now) reg
                (firstn 2 (optimal_times p (timing_key p ct now)))
                (firstn 2 (optimal_times p (timing_key p ct now)))
                (incl_refl _)
                (firstn_forallb slot_ok 2 _ Hslots) [] used)
      as (new & used' & Hf & Hl & Hall).
    exists new, used'. split; [exact Hf|]. split; [|exact Hall].
    rewrite Hl, length_firstn. apply Nat.le_min_l.
Qed.

Lemma platform_suggestions_raise (now : datetime) (timezone : string)
    (used : list (Z * Z * Z)) (reg : option string) :
  _get_context_aware_suggestions clock twitter "breaking_news" now timezone used reg
  = Raised immediate_error.
Proof. reflexivity. Qed.

Lemma platform_steps_raised (ct : string) (now : datetime) (timezone : string)
    (reg : option string) (ps : list Platform) (e : string) :
  fold_left (platform_step clock ct now timezone reg) ps (Raised e) = Raised e.
Proof. induction ps as [|p ps IH]; [reflexivity|exact IH]. Qed.

Lemma platform_steps_raise (now : datetime) (timezone : string) (reg : option string)
    (ps : list Platform) :
  In twitter ps ->
  forall suggestions used,
    fold_left (platform_step clock "breaking_news" now timezone reg) ps
      (Ok (suggestions, used))
    = Raised immediate_error.
Proof.
  induction ps as [|p ps IH]; intros Hin suggestions used; [destruct Hin|].
  cbn [fold_left]. unfold platform_step at 2.
  destruct p.
  - rewrite platform_suggestions_raise. apply platform_steps_raised.
  - destruct (platform_suggestions_ok linkedin "breaking_news" now timezone used reg)
      as (new & used' & -> & _); [simpl; auto | discriminate |].
    apply IH. destruct Hin as [Hin|Hin]; [discriminate|exact Hin].
  - destruct (platform_suggestions_ok instagram "breaking_news" now timezone used reg)
      as (new & used' & -> & _); [simpl; auto | discriminate |].
    apply IH. destruct Hin as [Hin|Hin]; [discriminate|exact Hin].
Qed.

Lemma suggestions_for_app (p : Platform) (a b : list PostingTime.t) :
  List.length (suggestions_for p (a ++ b))
  = List.length (suggestions_for p a) + List.length (suggestions_for p b).
Proof. unfold suggestions_for. rewrite filter_app. apply length_app. Qed.

Lemma suggestions_for_platform (p q : Platform) (l : list PostingTime.t) :
  Forall (fun s => PostingTime.platform s = p) l ->
  List.length (suggestions_for q l)
  = if Platform_eqb p q then List.length l else 0.
Proof.
  unfold suggestions_for. induction 1 as [|s l Hs _ IH]; cbn [filter List.length].
  - destruct (Platform_eqb p q); reflexivity.
  - rewrite Hs. destruct (Platform_eqb p q); cbn [List.length]; congruence.
Qed.

Lemma platform_steps_ok (ct : string) (now : datetime) (timezone : string)
    (reg : option string) (ps : list Platform) :
  In ct content_types -> (In twitter ps -> ct <> "breaking_news") ->
  forall suggestions used, exists new used',
    fold_left (platform_step clock ct now timezone reg) ps (Ok (suggestions, used))
    = Ok (suggestions ++ new, used')
    /\ List.length new <= 2 * List.length ps
    /\ (forall q, List.length (suggestions_for q new) <= 2 * occurrences q ps)
    /\ Forall (planned_suggestion clock timezone now ct ps) new.
Proof.
  intro Hct. induction ps as [|p ps IH]; intros Hnot suggestions used.
  - exists [], used. rewrite app_nil_r.
    repeat split; [simpl; lia | intro q; simpl; lia | constructor].
  - cbn [fold_left]. unfold platform_step at 2.
    destruct (platform_suggestions_ok p ct now timezone used reg Hct)
      as (new & used' & -> & Hl & Hall).
    { intros ->. apply Hnot. left; reflexivity. }
    destruct (IH (fun H => Hnot (or_intror H)) (suggestions ++ new) used')
      as (more & used'' & -> & Hl' & Hc' & Hall').
    exists (new ++ more), used''. rewrite app_assoc. split; [reflexivity|].
    split; [rewrite length_app; cbn [List.length]; lia|].
    split.
    + intro q. rewrite suggestions_for_app.
      rewrite (suggestions_for_platform p q new)
        by (eapply Forall_impl; [|exact Hall]; intros s Hs; apply Hs).
      specialize (Hc' q). unfold occurrences in *. cbn [filter].
      destruct (Platform_eqb p q); cbn [List.length]; lia.
    + apply Forall_app. split.
      * eapply Forall_impl; [|exact Hall]. intros s Hs. exists p.
        split; [left; reflexivity|exact Hs].
      * eapply Forall_impl; [|exact Hall']. intros s (q & Hq & Hs).
        exists q. split; [right; exact Hq|exact Hs].
Qed.

Lemma insert_by_iso_length (x : PostingTime.t) (l : list PostingTime.t) :
  List.length (insert_by_iso x l) = S (List.length l).
Proof.
  induction l as [|y l IH]; [reflexivity|]. cbn [insert_by_iso].
  destruct (String.ltb _ _); cbn [List.length]; [reflexivity|]. rewrite IH. reflexivity.
Qed.

Lemma insert_by_iso_Forall (P : PostingTime.t -> Prop) (x : PostingTime.t)
    (l : list PostingTime.t) :
  P x -> Forall P l -> Forall P (insert_by_iso x l).
Proof.
  intros Hx Hl. induction Hl as [|y l Hy Hl IH]; cbn [insert_by_iso].
  - constructor; [exact Hx|constructor].
  - destruct (String.ltb _ _).
    + constructor; [exact Hx|]. constructor; trivial.
    + constructor; trivial.
Qed.

Lemma insert_by_iso_for (p : Platform) (x : PostingTime.t) (l : list PostingTime.t) :
  List.length (suggestions_for p (insert_by_iso x l))
  = List.length (suggestions_for p (x :: l)).
Proof.
  unfold suggestions_for. induction l as [|y l IH]; [reflexivity|].
  cbn [insert_by_iso]. destruct (String.ltb _ _); [reflexivity|].
  cbn [filter] in *.
  destruct (Platform_eqb (PostingTime.platform y) p);
    destruct (Platform_eqb (PostingTime.platform x) p);
    cbn [List.length] in *; lia.
Qed.

Lemma sort_by_iso_fold (P : PostingTime.t -> Prop) (p : Platform)
    (l acc : list PostingTime.t) :
  (Forall P l -> Forall P acc ->
   Forall P (fold_left (fun sorted x => insert_by_iso x sorted) l acc))
  /\ List.length (fold_left (fun sorted x => insert_by_iso x sorted) l acc)
     = List.length l + List.length acc
  /\ List.length
       (suggestions_for p (fold_left (fun sorted x => insert_by_iso x sorted) l acc))
     = List.length (suggestions_for p l) + List.length (suggestions_for p acc).
Proof.
  revert acc. induction l as [|x l IH]; intro acc; [repeat split; trivial|].
  cbn [fold_left]. destruct (IH (insert_by_iso x acc)) as (IH1 & IH2 & IH3).
  split; [|split].
  - intros Hl Hacc. inversion Hl; subst. apply IH1; trivial.
    apply insert_by_iso_Forall; trivial.
  - rewrite IH2, insert_by_iso_length. cbn [List.length]. lia.
  - rewrite IH3, insert_by_iso_for. unfold suggestions_for. cbn [filter].
    destruct (Platform_eqb (PostingTime.platform x) p); cbn [List.length]; lia.
Qed.

Lemma sort_by_iso_length (l : list PostingTime.t) :
  List.length (sort_by_iso l) = List.length l.
Proof.
  unfold sort_by_iso.
  rewrite (proj1 (proj2 (sort_by_iso_fold (fun _ => True) twitter l []))).
  cbn [List.length]. lia.
Qed.

Lemma sort_by_iso_for (p : Platform) (l : list PostingTime.t) :
  List.length (suggestions_for p (sort_by_iso l)) = List.length (suggestions_for p l).
Proof.
  unfold sort_by_iso.
  rewrite (proj2 (proj2 (sort_by_iso_fold (fun _ => True) p l []))).
  cbn [suggestions_for filter List.length]. lia.
Qed.

Lemma sort_by_iso_Forall (P : PostingTime.t -> Prop) (l : list PostingTime.t) :
  Forall P l -> Forall P (sort_by_iso l).
Proof.
  intro H. apply (proj1 (sort_by_iso_fold P twitter l [])); [exact H|constructor].
Qed.

Lemma firstn_Forall {A : Type} (P : A -> Prop) (n : nat) (l : list A) :
  Forall P l -> Forall P (firstn n l).
Proof.
  intro H. revert n. induction H as [|x l Hx Hl IH]; intros [|n]; cbn [firstn];
    constructor; trivial.
Qed.

Lemma firstn_for (p : Platform) (n : nat) (l : list PostingTime.t) :
  List.length (suggestions_for p (firstn n l)) <= List.length (suggestions_for p l).
Proof.
  unfold suggestions_for. revert n. induction l as [|x l IH]; intros [|n];
    cbn [firstn filter List.length]; try lia.
  specialize (IH n).
  destruct (Platform_eqb (PostingTime.platform x) p); cbn [List.length]; lia.
Qed.

Lemma occurrences_NoDup (p : Platform) (ps : list Platform) :
  NoDup ps -> occurrences p ps <= 1.
Proof.
  unfold occurrences. induction 1 as [|q ps Hq _ IH]; cbn [filter List.length]; [lia|].
  destruct (Platform_eqb q p) eqn:E; [|exact IH].
  apply Platform_eqb_eq in E. subst q. cbn [List.length].
  assert (H : filter (fun q => Platform_eqb q p) ps = []).
  { clear IH. induction ps as [|r ps IH]; [reflexivity|]. cbn [filter].
    destruct (Platform_eqb r p) eqn:E.
    - apply Platform_eqb_eq in E. subst r. exfalso. apply Hq. left; reflexivity.
    - apply IH. intro H. apply Hq. right; exact H. }
  rewrite H. cbn [List.length]. lia.
Qed.

End ScheduleFacts.

Section SuggestTimes.
Import Schedule.
Variable clock : Clock.
Variable DEFAULT_TZ : string.

Lemma breaking_tweet_dec (platforms : list Platform) (text hint : string) :
  {breaking_tweet platforms text hint} + {~ breaking_tweet platforms text hint}.
Proof.
  unfold breaking_tweet.
  destruct (in_dec (fun a b : Platform => ltac:(decide equality) : {a = b} + {a <> b})
              twitter platforms) as [Hin|Hin];
    [|right; tauto].
  destruct (string_dec (_detect_content_type text hint) "breaking_news");
    [left|right]; tauto.
Qed.

(** The shape of every list [suggest_times] returns. *)
Lemma suggest_times_inv (platforms : list Platform) (text hint : string)
    (timings : list PostingTime.t) :
  suggest_times clock DEFAULT_TZ platforms text hint = Ok timings ->
  ~ breaking_tweet platforms text hint
  /\ exists now suggestions,
       now_in clock (target_timezone DEFAULT_TZ text hint) = Ok now
       /\ List.length suggestions <= 2 * List.length platforms
       /\ (forall p, List.length (suggestions_for p suggestions)
                     <= 2 * occurrences p platforms)
       /\ Forall (planned_suggestion clock (target_timezone DEFAULT_TZ text hint) now
                    (_detect_content_type text hint) platforms) suggestions
       /\ timings
          = firstn (if String.eqb (_detect_content_type text hint) "breaking_news"
                    then 3 else 6)
              (sort_by_iso suggestions).
Proof.
  unfold suggest_times. cbv zeta.
  destruct (now_in clock _) as [now|] eqn:Hnow; [|discriminate].
  destruct (breaking_tweet_dec platforms text hint) as [[Hin Hct]|Hnot].
  - rewrite Hct, (platform_steps_raise clock now _ _ platforms Hin). discriminate.
  - destruct (platform_steps_ok clock (_detect_content_type text hint) now
                (target_timezone DEFAULT_TZ text hint)
                (_detect_regulated_industry text hint) platforms
                (content_type_cases text hint)
                (fun Hin Hct => Hnot (conj Hin Hct)) [] [])
      as (suggestions & used & -> & Hl & Hc & Hall).
    cbn [app]. intro H. injection H as <-.
    split; [exact Hnot|]. exists now, suggestions. repeat split; trivial.
Qed.

(** X16. Once the zone of the audience is found, [suggest_times] fails in
    exactly one case: the content reads as breaking news and a tweet is to be
    scheduled.  The slot of that case is the word [immediate], which the
    code reads as a time of day, and the call ends with the [ValueError] of
    [int]; in every other case a list comes back. *)
Theorem suggest_times_outcome (platforms : list Platform) (text hint : string)
    (now : datetime) :
  now_in clock (target_timezone DEFAULT_TZ text hint) = Ok now ->
  (breaking_tweet platforms text hint
   /\ suggest_times clock DEFAULT_TZ platforms text hint = Raised immediate_error)
  \/ (~ breaking_tweet platforms text hint
      /\ exists timings, suggest_times clock DEFAULT_TZ platforms text hint = Ok timings).
Proof.
  intro Hnow. unfold suggest_times. cbv zeta. rewrite Hnow.
  destruct (breaking_tweet_dec platforms text hint) as [[Hin Hct]|Hnot].
  - left. split; [split; trivial|].
    rewrite Hct, (platform_steps_raise clock now _ _ platforms Hin). reflexivity.
  - right. split; [exact Hnot|].
    destruct (platform_steps_ok clock (_detect_content_type text hint) now
                (target_timezone DEFAULT_TZ text hint)
                (_detect_regulated_industry text hint) platforms
                (content_type_cases text hint)
                (fun Hin Hct => Hnot (conj Hin Hct)) [] [])
      as (suggestions & used & -> & _).
    eexists. reflexivity.
Qed.

(** X17. A list of suggestions has at most six entries, and at most three
    for breaking news.  Every entry is for one of the platforms asked for,
    and a platform gets at most two entries each time it is asked for: at
    most two in all when the platforms are distinct, as the keys of the
    drafts are. *)
Theorem suggest_times_bounds (platforms : list Platform) (text hint : string)
    (timings : list PostingTime.t) :
  suggest_times clock DEFAULT_TZ platforms text hint = Ok timings ->
  List.length timings <= 6
  /\ List.length timings <= 2 * List.length platforms
  /\ (_detect_content_type text hint = "breaking_news" -> List.length timings <= 3)
  /\ Forall (fun s => In (PostingTime.platform s) platforms) timings
  /\ (forall p, List.length (suggestions_for p timings) <= 2 * occurrences p platforms)
  /\ (NoDup platforms -> forall p, List.length (suggestions_for p timings) <= 2).
Proof.
  intro H.
  destruct (suggest_times_inv _ _ _ _ H) as (_ & now & l & _ & Hl & Hc & Hall & ->).
  assert (Hfor : forall p,
             List.length
               (suggestions_for p
                  (firstn (if String.eqb (_detect_content_type text hint) "breaking_news"
                           then 3 else 6) (sort_by_iso l)))
             <= 2 * occurrences p platforms).
  { intro p. eapply Nat.le_trans; [apply firstn_for|].
    rewrite sort_by_iso_for. apply Hc. }
  split; [rewrite length_firstn; destruct (String.eqb _ _); lia|].
  split; [rewrite length_firstn, sort_by_iso_length; lia|].
  split; [intros ->; rewrite length_firstn; cbn [String.eqb Ascii.eqb Bool.eqb]; lia|].
  split.
  - apply firstn_Forall, sort_by_iso_Forall.
    eapply Forall_impl; [|exact Hall].
    intros s (p & Hp & <- & _). exact Hp.
  - split; [exact Hfor|].
    intros Hnd p. specialize (Hfor p).
    pose proof (occurrences_NoDup p platforms Hnd). lia.
Qed.

(** X18. Every suggestion comes from one of the first two slots of its
    platform's timing key, and its time is where that slot is due or that
    moved later by the stagger (one hour for Twitter, two for the others).
    A slot is due at its first occurrence after the moment of the call,
    today if it is still to come and tomorrow if not, except under a timing
    key for the weekend on a weekday, where it is due on the Saturday
    ahead.  In every case the suggested time is later than the moment of the
    call. *)
Theorem suggested_times_later (platforms : list Platform) (text hint : string)
    (now : datetime) (timings : list PostingTime.t) :
  now_in clock (target_timezone DEFAULT_TZ text hint) = Ok now ->
  suggest_times clock DEFAULT_TZ platforms text hint = Ok timings ->
  Forall (planned_suggestion clock (target_timezone DEFAULT_TZ text hint) now
            (_detect_content_type text hint) platforms)
    timings.
Proof.
  intros Hnow H.
  destruct (suggest_times_inv _ _ _ _ H) as (_ & now' & l & Hnow' & _ & _ & Hall & ->).
  rewrite Hnow in Hnow'. injection Hnow' as <-.
  apply firstn_Forall, sort_by_iso_Forall, Hall.
Qed.

End SuggestTimes.

(** X19. The zone comes from the table of audiences alone: the region the
    text is filed under always has an entry there, so the configured default
    zone is never the one used and has no effect on the suggestions. *)
Theorem default_zone_unused (clock : Schedule.Clock) (tz1 tz2 : string)
    (platforms : list Platform) (text hint : string) :
  Schedule.suggest_times clock tz1 platforms text hint
  = Schedule.suggest_times clock tz2 platforms text hint.
Proof.
  assert (E : Schedule.target_timezone tz1 text hint
              = Schedule.target_timezone tz2 text hint).
  { unfold Schedule.target_timezone, Schedule._detect_audience_geography. cbv zeta.
    unfold Schedule.AUDIENCE_PATTERNS. cbn [Schedule.first_match].
    repeat (destruct (Schedule.any_in _ _); [reflexivity|]). reflexivity. }
  unfold Schedule.suggest_times. cbv zeta. rewrite E. reflexivity.
Qed.

(** The sample clock on an urgent post for the three platforms, and on the
    same post without the tweet. *)
Lemma suggest_times_outcome_witness :
  (breaking_tweet [twitter; linkedin; instagram] Sample.blog_text "urgent"
   /\ Schedule.suggest_times ScheduleSample.clock "Asia/Kolkata"
        [twitter; linkedin; instagram] Sample.blog_text "urgent"
      = Raised immediate_error)
  \/ (~ breaking_tweet [twitter; linkedin; instagram] Sample.blog_text "urgent"
      /\ exists timings,
           Schedule.suggest_times ScheduleSample.clock "Asia/Kolkata"
             [twitter; linkedin; instagram] Sample.blog_text "urgent"
           = Ok timings).
Proof.
  apply (suggest_times_outcome ScheduleSample.clock "Asia/Kolkata"
           [twitter; linkedin; instagram] Sample.blog_text "urgent"
           ScheduleSample.wednesday_morning).
  reflexivity.
Defined.

Lemma suggest_times_bounds_witness :
  List.length ScheduleSample.urgent_timings <= 6
  /\ List.length ScheduleSample.urgent_timings <= 2 * List.length [linkedin; instagram]
  /\ (Schedule._detect_content_type Sample.blog_text "urgent" = "breaking_news" ->
      List.length ScheduleSample.urgent_timings <= 3)
  /\ Forall (fun s => In (PostingTime.platform s) [linkedin; instagram])
       ScheduleSample.urgent_timings
  /\ (forall p, List.length (suggestions_for p ScheduleSample.urgent_timings)
                <= 2 * occurrences p [linkedin; instagram])
  /\ (NoDup [linkedin; instagram] ->
      forall p, List.length (suggestions_for p ScheduleSample.urgent_timings) <= 2).
Proof.
  apply (suggest_times_bounds ScheduleSample.clock "Asia/Kolkata" [linkedin; instagram]
           Sample.blog_text "urgent" ScheduleSample.urgent_timings).
  vm_compute. reflexivity.
Defined.

Lemma suggested_times_later_witness :
  Forall (planned_suggestion ScheduleSample.clock
            (Schedule.target_timezone "Asia/Kolkata" Sample.blog_text "urgent")
            ScheduleSample.wednesday_morning
            (Schedule._detect_content_type Sample.blog_text "urgent")
            [linkedin; instagram])
    ScheduleSample.urgent_timings.
Proof.
  apply (suggested_times_later ScheduleSample.clock "Asia/Kolkata" [linkedin; instagram]
           Sample.blog_text "urgent" ScheduleSample.wednesday_morning
           ScheduleSample.urgent_timings).
  - reflexivity.
  - vm_compute. reflexivity.
Defined.

(** ** Scheduling at the end of a run *)

Section ScheduledRun.
Import Graph.
Variable config : Config.t.
Variable backend : Search.Backend.
Variable services : Services.
Variable clock : Schedule.Clock.
Variable DEFAULT_TZ : string.
Hypothesis Hscheduler : forall platforms content_text topic_hint,
  suggest_times services platforms content_text topic_hint
  = Schedule.suggest_times clock DEFAULT_TZ platforms content_text topic_hint.

Lemma schedule_breaking (st : State) :
  breaking_tweet (Dict.keys (drafts st)) (text st) (hint_of st) ->
  exists e,
    schedule services st
    = set_timings (add_error st ("Context-aware scheduling failed: " @@ e)) [].
Proof.
  intro H. unfold schedule. cbv zeta. rewrite Hscheduler.
  fold (hint_of st).
  destruct (Schedule.suggest_times clock DEFAULT_TZ _ _ _) as [timings|e] eqn:E.
  - destruct (suggest_times_inv _ _ _ _ _ _ E) as [Hnot _]. contradiction.
  - exists e. reflexivity.
Qed.

Lemma before_schedule_extends (st0 : State) :
  extends st0
    (fst (remediate_if_blocked config services
            (fst (compliance config (before_compliance config backend services st0))))).
Proof.
  eapply extends_trans; [|apply remediate_extends].
  eapply extends_trans; [|apply compliance_extends].
  unfold before_compliance, fact_check.
  eapply extends_trans; [|apply fact_check_with_extends].
  eapply extends_trans; [|apply extract_claims_extends].
  eapply extends_trans; [|apply analyze_embeddings_extends].
  eapply extends_trans; [|apply generate_posts_extends].
  apply extract_key_points_extends.
Qed.

(** X20. A run on content that reads as breaking news, and that ends with a
    tweet among its drafts, is never scheduled: the scheduling node catches
    the failure of [suggest_times], the final state has no timings at all,
    and the last entry of [errors] is the scheduling failure, behind the
    errors of the input and of the earlier nodes. *)
Theorem breaking_news_unscheduled (st0 : State) :
  breaking_tweet (Dict.keys (drafts (fst (run_graph config backend services st0))))
    (text st0) (hint_of st0) ->
  timings (fst (run_graph config backend services st0)) = []
  /\ exists earlier e,
       errors (fst (run_graph config backend services st0))
       = errors st0 ++ earlier ++ ["Context-aware scheduling failed: " @@ e].
Proof.
  rewrite run_graph_unfold. cbv zeta. cbn [fst].
  set (pre := fst (remediate_if_blocked config services
                     (fst (compliance config
                             (before_compliance config backend services st0))))).
  destruct (before_schedule_extends st0) as (Ht & Hh & earlier & He). fold pre in Ht, Hh, He.
  intro H. rewrite (proj1 (schedule_frame services pre)) in H.
  assert (Hpre : breaking_tweet (Dict.keys (drafts pre)) (text pre) (hint_of pre)).
  { unfold hint_of in *. rewrite Ht, Hh. exact H. }
  destruct (schedule_breaking pre Hpre) as [e ->].
  split; [reflexivity|]. exists earlier, e.
  cbn [errors set_timings add_error]. rewrite He, app_assoc. reflexivity.
Qed.

End ScheduledRun.

(** The sample world with the scheduler on the sample clock, on the post
    announced as urgent. *)
Lemma breaking_news_unscheduled_witness :
  Graph.timings
    (fst (Graph.run_graph Sample.standard Sample.failing_backend ScheduleSample.world
            ScheduleSample.urgent_state)) = []
  /\ exists earlier e,
       Graph.errors
         (fst (Graph.run_graph Sample.standard Sample.failing_backend
                 ScheduleSample.world ScheduleSample.urgent_state))
       = Graph.errors ScheduleSample.urgent_state ++ earlier
         ++ ["Context-aware scheduling failed: " @@ e].
Proof.
  apply (breaking_news_unscheduled Sample.standard Sample.failing_backend
           ScheduleSample.world ScheduleSample.clock "Asia/Kolkata"
           (fun _ _ _ => eq_refl) ScheduleSample.urgent_state).
  split; [vm_compute; auto | vm_compute; reflexivity].
Defined.
